(** * The event-system auditor ([tools/audit_event_system.py])

    A shallow embedding of the auditor and the properties of its loader,
    its validation passes and its exit status.

    Conventions of the embedding.
    - A Python [str] is a [string] whose characters are code points below
      256; the whitespace class is Python's [str.isspace] on that range.
    - [json.loads] is a parameter of the development (section variable
      [json_loads]); it yields the parsed document or the text of the
      [JSONDecodeError]; a finite float is carried by its exact value, and
      the constants [NaN] and [Infinity] are outside the model.  The regular
      expressions of the source are written as backtracking matchers.
    - The auditor object is a record; its methods are computations in a
      state-and-exception monad over that record.  Console output is not
      part of the state.  The methods take the files that exist as text;
      a Go source that exists and on which [read_text] raises is the
      matter of [Disk], which runs the audit on such a tree. *)

From Stdlib Require Import List String Ascii ZArith QArith Lia Bool Arith PeanoNat.
From Stdlib Require Import Permutation Sorted.
Import ListNotations.
Open Scope string_scope.
Open Scope list_scope.
Open Scope nat_scope.

Set Implicit Arguments.
Set Warnings "-register-all".

(* ------------------------------------------------------------------ *)
(** ** Text *)

Module Text.

Definition nl : ascii := ascii_of_nat 10.

(** [str.isspace] for a code point below 256 (also the class [\s]). *)
Definition isspace (c : ascii) : bool :=
  let n := nat_of_ascii c in
  (((9 <=? n) && (n <=? 13)) || ((28 <=? n) && (n <=? 32))
   || (n =? 133) || (n =? 160))%nat.

Fixpoint lstrip (s : string) : string :=
  match s with
  | String c s' => if isspace c then lstrip s' else s
  | EmptyString => EmptyString
  end.

Fixpoint rstrip (s : string) : string :=
  match s with
  | EmptyString => EmptyString
  | String c s' =>
      match rstrip s' with
      | EmptyString => if isspace c then EmptyString else String c EmptyString
      | r => String c r
      end
  end.

(** [s.strip()] *)
Definition strip (s : string) : string := rstrip (lstrip s).

(** [s.split(sep)] for a one-character separator. *)
Fixpoint split (sep : ascii) (s : string) : list string :=
  match s with
  | EmptyString => [EmptyString]
  | String c s' =>
      if (c =? sep)%char then EmptyString :: split sep s'
      else match split sep s' with
           | h :: t => String c h :: t
           | [] => [String c EmptyString]
           end
  end.

(** Stable insertion sort, the order of [sorted] on keys compared by [le]. *)
Section Sorting.
Variable A : Type.
Variable le : A -> A -> bool.

Fixpoint insert (x : A) (l : list A) : list A :=
  match l with
  | [] => [x]
  | y :: l' => if le x y then x :: l else y :: insert x l'
  end.

Fixpoint sort (l : list A) : list A :=
  match l with
  | [] => []
  | x :: l' => insert x (sort l')
  end.
End Sorting.

(** [sorted] on a list of [str]: code-point order. *)
Definition sorted_str : list string -> list string := sort String.leb.

End Text.

(* ------------------------------------------------------------------ *)
(** ** Backtracking matchers for the patterns of the loader *)

Module Re.

Section Matcher.
Variable R : Type.

(** A literal piece of a pattern. *)
Fixpoint lit (p : string) (k : string -> option R) (s : string) : option R :=
  match p with
  | EmptyString => k s
  | String c p' =>
      match s with
      | String d s' => if (c =? d)%char then lit p' k s' else None
      | EmptyString => None
      end
  end.

(** [cls*]: greedy, gives characters back one at a time; the
    continuation receives the text consumed and the rest. *)
Fixpoint star (cls : ascii -> bool) (k : string -> string -> option R)
         (acc : string) (s : string) : option R :=
  match s with
  | String c s' =>
      if cls c then
        match star cls k (acc ++ String c EmptyString) s' with
        | Some r => Some r
        | None => k acc s
        end
      else k acc s
  | EmptyString => k acc s
  end.

(** [cls+] *)
Definition plus (cls : ascii -> bool) (k : string -> string -> option R)
           (s : string) : option R :=
  match s with
  | String c s' => if cls c then star cls k (String c EmptyString) s' else None
  | EmptyString => None
  end.

(** [cls*?]: lazy, tries the continuation before consuming. *)
Fixpoint star_lazy (cls : ascii -> bool) (k : string -> string -> option R)
         (acc : string) (s : string) : option R :=
  match k acc s with
  | Some r => Some r
  | None =>
      match s with
      | String c s' =>
          if cls c then star_lazy cls k (acc ++ String c EmptyString) s' else None
      | EmptyString => None
      end
  end.

(** [re.search]: the leftmost position at which the matcher succeeds. *)
Fixpoint search (m : string -> option R) (s : string) : option R :=
  match m s with
  | Some r => Some r
  | None =>
      match s with
      | String _ s' => search m s'
      | EmptyString => None
      end
  end.
End Matcher.

Definition any (_ : ascii) : bool := true.
Definition other_than (c : ascii) (d : ascii) : bool := negb (c =? d)%char.

(** [re.search(r'meta \{[^}]*name:\s*([^\n]+)', content)], group 1. *)
Definition search_meta_name (content : string) : option string :=
  search
    (lit "meta {"
       (star (other_than "}"%char)
          (fun _ r1 =>
             lit "name:"
               (star Text.isspace
                  (fun _ r2 => plus (other_than Text.nl) (fun g _ => Some g) r2)
                  EmptyString)
               r1)
          EmptyString))
    content.

(** [re.search(r'body:json \{(.*?)\n\}', content, re.DOTALL)], group 1. *)
Definition search_body_json (content : string) : option string :=
  search
    (lit "body:json {"
       (star_lazy any
          (fun g r => lit (String Text.nl "}") (fun _ => Some g) r)
          EmptyString))
    content.

(** [\w] for a code point below 256: [str.isalnum] or the underscore. *)
Definition isword (c : ascii) : bool :=
  let n := nat_of_ascii c in
  (((48 <=? n) && (n <=? 57)) || ((65 <=? n) && (n <=? 90))
   || ((97 <=? n) && (n <=? 122)) || (n =? 95)
   || (n =? 170) || (n =? 178) || (n =? 179) || (n =? 181)
   || (n =? 185) || (n =? 186) || ((188 <=? n) && (n <=? 190))
   || ((192 <=? n) && (n <=? 214)) || ((216 <=? n) && (n <=? 246))
   || (248 <=? n))%nat.

Definition dquote : ascii := ascii_of_nat 34.

(** The class [[\w\.\*\[\]]] of a Go type expression. *)
Definition isgotype (c : ascii) : bool :=
  isword c || (c =? ".")%char || (c =? "*")%char
  || (c =? "[")%char || (c =? "]")%char.

(** [re.finditer]: the matches from left to right, each search resuming
    where the previous match ended.  The matcher yields its groups and
    the text after the match; [skip] counts the characters of the last
    match that are still to be passed. *)
Section Finditer.
Variable G : Type.
Variable m : string -> option (G * string).

Fixpoint finditer_at (s : string) (skip : nat) : list G :=
  match skip, s with
  | S k, String _ s' => finditer_at s' k
  | S _, EmptyString => []
  | O, _ =>
      match m s with
      | Some (g, rest) =>
          g :: match s with
               | String _ s' =>
                   finditer_at s' (String.length s - String.length rest - 1)
               | EmptyString => []
               end
      | None =>
          match s with
          | String _ s' => finditer_at s' 0
          | EmptyString => []
          end
      end
  end.

Definition finditer (s : string) : list G := finditer_at s 0.
End Finditer.

(** [re.search(r'type RawEvent struct \{(.*?)\n\}', content, re.DOTALL)],
    group 1. *)
Definition search_raw_event (content : string) : option string :=
  search
    (lit "type RawEvent struct {"
       (star_lazy any
          (fun g r => lit (String Text.nl "}") (fun _ => Some g) r)
          EmptyString))
    content.

(** One match of the field pattern
    [(\w+)\s+([\w\.\*\[\]]+)\s+`json:Q([^Q]+)Q`], where [Q] stands for the
    double quote: the three groups. *)
Definition match_field (s : string) : option ((string * string * string) * string) :=
  plus isword
    (fun g1 r1 =>
       plus Text.isspace
         (fun _ r2 =>
            plus isgotype
              (fun g2 r3 =>
                 plus Text.isspace
                   (fun _ r4 =>
                      lit ("`json:" ++ String dquote EmptyString)%string
                        (plus (other_than dquote)
                           (fun g3 r5 =>
                              lit (String dquote "`")
                                (fun rest => Some ((g1, g2, g3), rest)) r5))
                        r4)
                   r3)
              r2)
         r1)
    s.

(** One match of the constant pattern
    [Event\w+\s+EventType\s+=\s+Q([^Q]+)Q], where [Q] stands for the double
    quote: group 1. *)
Definition match_const (s : string) : option (string * string) :=
  lit "Event"
    (plus isword
       (fun _ r1 =>
          plus Text.isspace
            (fun _ r2 =>
               lit "EventType"
                 (plus Text.isspace
                    (fun _ r3 =>
                       lit "="
                         (plus Text.isspace
                            (fun _ r4 =>
                               lit (String dquote EmptyString)
                                 (plus (other_than dquote)
                                    (fun g r5 =>
                                       lit (String dquote EmptyString)
                                         (fun rest => Some (g, rest)) r5))
                                 r4))
                         r3))
                 r2)
          r1))
    s.

End Re.

(* ------------------------------------------------------------------ *)
(** ** Python values *)

(** A decoded JSON document.  [JObj] lists the members of an object in
    document order; [JFloat] carries the exact value of a finite float. *)
Inductive json : Type :=
| JNull
| JBool (b : bool)
| JInt (z : Z)
| JFloat (q : Q)
| JStr (s : string)
| JArr (l : list json)
| JObj (members : list (string * json)).

Module Py.

(** [type(v).__name__] *)
Definition type_name (v : json) : string :=
  match v with
  | JNull => "NoneType"
  | JBool _ => "bool"
  | JInt _ => "int"
  | JFloat _ => "float"
  | JStr _ => "str"
  | JArr _ => "list"
  | JObj _ => "dict"
  end.

(** Lists and dicts have no hash. *)
Definition hashable (v : json) : bool :=
  match v with
  | JArr _ | JObj _ => false
  | _ => true
  end.

Definition is_str (v : json) : bool :=
  match v with JStr _ => true | _ => false end.

(** The number a [bool], [int] or [float] stands for. *)
Definition number (v : json) : option Q :=
  match v with
  | JBool b => Some (inject_Z (if b then 1 else 0))
  | JInt z => Some (inject_Z z)
  | JFloat q => Some q
  | _ => None
  end.

(** [a == b] on hashable values: numbers by value ([True == 1 == 1.0]),
    strings by content, [None] with itself. *)
Definition eqb (a b : json) : bool :=
  match a, b with
  | JNull, JNull => true
  | JStr s, JStr t => String.eqb s t
  | _, _ =>
      match number a, number b with
      | Some x, Some y => Qeq_bool x y
      | _, _ => false
      end
  end.

(** *** [dict] with [str] keys: the items in insertion order *)

Definition dict (V : Type) : Type := list (string * V).

Section Dict.
Variable V : Type.

(** [k in d] *)
Definition contains (k : string) (d : dict V) : bool :=
  existsb (fun kv => String.eqb (fst kv) k) d.

(** [d.get(k, default)] *)
Definition get (k : string) (default : V) (d : dict V) : V :=
  match find (fun kv => String.eqb (fst kv) k) d with
  | Some kv => snd kv
  | None => default
  end.

(** [d[k] = v]: an existing key keeps its place. *)
Fixpoint set (k : string) (v : V) (d : dict V) : dict V :=
  match d with
  | [] => [(k, v)]
  | (k', v') :: d' =>
      if String.eqb k' k then (k, v) :: d' else (k', v') :: set k v d'
  end.

(** The dict the decoder builds from the members of an object. *)
Definition of_members (members : list (string * V)) : dict V :=
  fold_left (fun d kv => set (fst kv) (snd kv) d) members [].

Definition keys (d : dict V) : list string := map fst d.
End Dict.

(** *** [set]: the elements, none equal to another *)

(** [v in s] for a hashable [v] *)
Definition mem (v : json) (s : list json) : bool := existsb (eqb v) s.

(** [s.add(v)] for a hashable [v] *)
Definition add (v : json) (s : list json) : list json :=
  if mem v s then s else s ++ [v].

(** [s.add(x)] on a set of [str] *)
Definition add_str (x : string) (s : list string) : list string :=
  if existsb (String.eqb x) s then s else s ++ [x].

(** [x in s] where [s] is a set literal of strings: [None] stands for
    the [TypeError] of an unhashable [x]. *)
Definition in_literal (x : json) (s : list string) : option bool :=
  if hashable x then Some (existsb (fun t => eqb x (JStr t)) s) else None.

(** *** [sorted] on hashable values *)

Definition is_number (v : json) : bool :=
  match number v with Some _ => true | None => false end.

Definition str_le (a b : json) : bool :=
  match a, b with
  | JStr s, JStr t => String.leb s t
  | _, _ => true
  end.

Definition num_le (a b : json) : bool :=
  match number a, number b with
  | Some x, Some y => Qle_bool x y
  | _, _ => true
  end.

(** [sorted(l)]: [None] stands for the [TypeError] raised when two
    elements cannot be ordered ([str] against a number, anything
    against [None]). *)
Definition sorted (l : list json) : option (list json) :=
  match l with
  | [] | [_] => Some l
  | _ =>
      if forallb is_str l then Some (Text.sort str_le l)
      else if forallb is_number l then Some (Text.sort num_le l)
      else None
  end.

End Py.

(* ------------------------------------------------------------------ *)
(** ** The data of the auditor *)

(** The attributes of a [pathlib.Path] that the auditor reads. *)
Module pathlib.
Record Path : Type := { name : string; stem : string }.
End pathlib.

(** The exceptions that the auditor can meet, with their text. *)
Inductive exn : Type :=
| AttributeError (text : string)
| TypeError (text : string)
| UnicodeDecodeError (text : string).

(** The messages of the report, one constructor per format string of the
    source; a path below [base_dir] is given by its components. *)
Inductive message : Type :=
| CannotFind (path : list string)
    (* Cannot find {events_file} / Cannot find {enum_file} *)
| CannotFindRawEvent
    (* Cannot find RawEvent struct definition *)
| CannotFindBrunoDir (path : list string)
    (* Cannot find Bruno events directory: {bruno_dir} *)
| FailedToParse (file : string) (e : exn)
    (* Failed to parse {bru_file.name}: {e} *)
| InvalidJSON (file : string) (e : string)
    (* {file_path.name}: Invalid JSON - {e} *)
| MissingTypeField (file : string)
    (* {file}: Missing required 'type' field *)
| UsesEventType (file : string)
    (* {file}: Uses 'event_type' instead of 'type' *)
| AmbiguousGuidField (file : string)
    (* {file}: Ambiguous 'guid' field (should be player_guid, ...) *)
| UnknownField (file : string) (field_name : string)
    (* {file}: Unknown field '{field_name}' (not in Go struct) *)
| UsesAmbiguousGuid (file : string)
    (* {file}: Uses ambiguous 'guid' field *)
| CombatShouldHave (file : string) (actual : list string)
    (* {file}: Combat event should have attacker_guid AND victim_guid,
       has {actual_str} *)
| SinglePlayerShouldHave (file : string)
    (* {file}: Single-player event should have player_guid *)
| EventCountMismatch (go_count bruno_count bruno_file_count expected_count : nat)
    (* Event count mismatch: Go={}, Bruno Types={}, Bruno Files={},
       Expected={} *)
| MissingInBruno (event : string)
    (* Event type '{event}' in Go but missing in Bruno *)
| ExtraInBruno (event : json).
    (* Event type '{event}' in Bruno but not in Go enum *)

(** An entry of [ValidationResult.errors]: [add_warning] stores its message
    behind a warning sign, [add_error] stores it as it is. *)
Inductive issue : Type :=
| Error (msg : message)
| Warning (msg : message).

Record ValidationResult : Type := {
  passed : nat;
  failed : nat;
  warnings : nat;
  errors : list issue
}.

Definition add_error (msg : message) (r : ValidationResult) : ValidationResult :=
  {| passed := passed r;
     failed := failed r + 1;
     warnings := warnings r;
     errors := errors r ++ [Error msg] |}.

Definition add_pass (r : ValidationResult) : ValidationResult :=
  {| passed := passed r + 1;
     failed := failed r;
     warnings := warnings r;
     errors := errors r |}.

Definition add_warning (msg : message) (r : ValidationResult) : ValidationResult :=
  {| passed := passed r;
     failed := failed r;
     warnings := warnings r + 1;
     errors := errors r ++ [Warning msg] |}.

Definition is_success (r : ValidationResult) : bool := (failed r =? 0)%nat.

Record GoStructField : Type := {
  name : string;
  go_type : string;
  json_name : string;
  is_required : bool
}.

Record BrunoEvent : Type := {
  file_path : pathlib.Path;
  event_name : string;
  event_type : json;
  payload : Py.dict json
}.

(** What the auditor finds below [base_dir]: the text of the two Go
    sources ([None] when the file does not exist) and the [*.bru] entries
    of [bruno/Ingestion/Events] ([None] when the directory does not
    exist), each with the text that [read_text] returns. *)
Record bru_file : Type := { bru_path : pathlib.Path; bru_text : string }.

Record directory : Type := {
  events_go : option string;
  event_types_generated_go : option string;
  bruno_dir : option (list bru_file)
}.

Record EventSystemAuditor : Type := {
  base_dir : directory;
  go_fields : Py.dict GoStructField;
  bruno_events : list BrunoEvent;
  event_types_go : list string;
  event_types_bruno : list json;
  results : ValidationResult
}.

(** [EventSystemAuditor.__init__] *)
Definition init (base : directory) : EventSystemAuditor :=
  {| base_dir := base;
     go_fields := [];
     bruno_events := [];
     event_types_go := [];
     event_types_bruno := [];
     results := {| passed := 0; failed := 0; warnings := 0; errors := [] |} |}.

(** [sorted] on the paths of one directory: by file name. *)
Definition sorted_paths : list bru_file -> list bru_file :=
  Text.sort (fun f g => String.leb (pathlib.name (bru_path f)) (pathlib.name (bru_path g))).

(* ------------------------------------------------------------------ *)
(** ** Methods as computations on the auditor *)

Inductive outcome (A : Type) : Type :=
| Returns (a : A) (self : EventSystemAuditor)
| Raises (e : exn) (self : EventSystemAuditor).

Arguments Raises {A} e self.

Definition M (A : Type) : Type := EventSystemAuditor -> outcome A.

Definition ret {A} (a : A) : M A := fun self => Returns a self.

Definition bind {A B} (m : M A) (k : A -> M B) : M B :=
  fun self =>
    match m self with
    | Returns a self' => k a self'
    | Raises e self' => Raises e self'
    end.

Definition raise {A} (e : exn) : M A := fun self => Raises e self.

(** [try: m  except Exception as e: h e] *)
Definition try_except {A} (m : M A) (h : exn -> M A) : M A :=
  fun self =>
    match m self with
    | Returns a self' => Returns a self'
    | Raises e self' => h e self'
    end.

Definition get : M EventSystemAuditor := fun self => Returns self self.

Definition put (self' : EventSystemAuditor) : M unit := fun _ => Returns tt self'.

Declare Scope auditor_scope.
Delimit Scope auditor_scope with auditor.
Notation "x <- m ;; k" := (bind m (fun x => k))
  (at level 100, m at next level, right associativity) : auditor_scope.
Notation "m ;; k" := (bind m (fun _ => k))
  (at level 100, right associativity) : auditor_scope.
Open Scope auditor_scope.

(** The state of the auditor when the computation stops, and how. *)
Definition final {A} (o : outcome A) : EventSystemAuditor :=
  match o with
  | Returns _ self => self
  | Raises _ self => self
  end.

Definition completes {A} (o : outcome A) : bool :=
  match o with
  | Returns _ _ => true
  | Raises _ _ => false
  end.

(** [for x in l: body x], with the local variables of the loop in [acc]. *)
Fixpoint for_each {X L} (l : list X) (body : L -> X -> M L) (acc : L) : M L :=
  match l with
  | [] => ret acc
  | x :: l' => acc' <- body acc x ;; for_each l' body acc'
  end.

(** Assignments to the attributes of [self]. *)
Definition set_results (r : ValidationResult) (self : EventSystemAuditor) :=
  {| base_dir := base_dir self; go_fields := go_fields self;
     bruno_events := bruno_events self; event_types_go := event_types_go self;
     event_types_bruno := event_types_bruno self; results := r |}.

Definition set_go_fields (d : Py.dict GoStructField) (self : EventSystemAuditor) :=
  {| base_dir := base_dir self; go_fields := d;
     bruno_events := bruno_events self; event_types_go := event_types_go self;
     event_types_bruno := event_types_bruno self; results := results self |}.

Definition set_bruno_events (l : list BrunoEvent) (self : EventSystemAuditor) :=
  {| base_dir := base_dir self; go_fields := go_fields self;
     bruno_events := l; event_types_go := event_types_go self;
     event_types_bruno := event_types_bruno self; results := results self |}.

Definition set_event_types_go (s : list string) (self : EventSystemAuditor) :=
  {| base_dir := base_dir self; go_fields := go_fields self;
     bruno_events := bruno_events self; event_types_go := s;
     event_types_bruno := event_types_bruno self; results := results self |}.

Definition set_event_types_bruno (s : list json) (self : EventSystemAuditor) :=
  {| base_dir := base_dir self; go_fields := go_fields self;
     bruno_events := bruno_events self; event_types_go := event_types_go self;
     event_types_bruno := s; results := results self |}.

(** [self.results.add_error(msg)] and its two siblings. *)
Definition results_add_error (msg : message) : M unit :=
  fun self => Returns tt (set_results (add_error msg (results self)) self).

Definition results_add_warning (msg : message) : M unit :=
  fun self => Returns tt (set_results (add_warning msg (results self)) self).

Definition results_add_pass : M unit :=
  fun self => Returns tt (set_results (add_pass (results self)) self).

Definition combat_events : list string :=
  ["player_kill"; "bot_killed"; "team_kill"; "damage";
   "player_damage"; "bot_damage"; "team_damage"].

Definition single_player_events : list string :=
  ["jump"; "crouch"; "prone"; "stand"; "sprint"; "walk";
   "spawn"; "respawn"; "say"; "say_team"; "connect"; "disconnect";
   "weapon_pickup"; "weapon_switch"; "weapon_drop"; "reload";
   "item_pickup"; "item_use"; "item_drop"].

Definition expected_count : nat := 105.

(** [x in s] for a set literal [s]; an unhashable [x] raises. *)
Definition in_set (x : json) (s : list string) : M bool :=
  match Py.in_literal x s with
  | Some b => ret b
  | None => raise (TypeError ("unhashable type: '" ++ Py.type_name x ++ "'")%string)
  end.

Definition nonempty {A} (l : list A) : bool :=
  match l with [] => false | _ :: _ => true end.

Section Auditor.

(** [json.loads]: the decoded document, or the text of the
    [JSONDecodeError]. *)
Variable json_loads : string -> json + string.

Definition parse_go_struct : M unit :=
  self <- get ;;
  match events_go (base_dir self) with
  | None => results_add_error (CannotFind ["internal"; "models"; "events.go"])
  | Some content =>
      match Re.search_raw_event content with
      | None => results_add_error CannotFindRawEvent
      | Some struct_body =>
          for_each (Re.finditer Re.match_field struct_body)
            (fun _ '(field_name, go_type, json_tag) =>
               let json_parts := Text.split ","%char json_tag in
               let json_name := hd EmptyString json_parts in
               let is_required := negb (existsb (String.eqb "omitempty") json_parts) in
               self <- get ;;
               put (set_go_fields
                      (Py.set json_name
                         {| name := field_name; go_type := go_type;
                            json_name := json_name; is_required := is_required |}
                         (go_fields self))
                      self))
            tt
      end
  end.

Definition parse_event_types_enum : M unit :=
  self <- get ;;
  match event_types_generated_go (base_dir self) with
  | None =>
      results_add_error (CannotFind ["internal"; "models"; "event_types_generated.go"])
  | Some content =>
      for_each (Re.finditer Re.match_const content)
        (fun _ event_value =>
           self <- get ;;
           put (set_event_types_go (Py.add_str event_value (event_types_go self)) self))
        tt
  end.

Definition parse_bru_file (f : bru_file) : M (option BrunoEvent) :=
  let file_path := bru_path f in
  let content := bru_text f in
  let event_name :=
    match Re.search_meta_name content with
    | Some g => Text.strip g
    | None => pathlib.stem file_path
    end in
  match Re.search_body_json content with
  | None => ret None
  | Some g =>
      let json_text := Text.strip g in
      match json_loads json_text with
      | inl (JObj members) =>
          let payload := Py.of_members members in
          let event_type := Py.get "type" (JStr EmptyString) payload in
          ret (Some {| file_path := file_path; event_name := event_name;
                       event_type := event_type; payload := payload |})
      | inl v =>
          raise (AttributeError ("'" ++ Py.type_name v ++ "' object has no attribute 'get'")%string)
      | inr e =>
          results_add_error (InvalidJSON (pathlib.name file_path) e) ;;
          ret None
      end
  end.

Definition parse_bruno_files : M unit :=
  self <- get ;;
  match bruno_dir (base_dir self) with
  | None => results_add_error (CannotFindBrunoDir ["bruno"; "Ingestion"; "Events"])
  | Some files =>
      for_each (sorted_paths files)
        (fun _ f =>
           try_except
             (event <- parse_bru_file f ;;
              match event with
              | Some event =>
                  self <- get ;;
                  put (set_bruno_events (bruno_events self ++ [event]) self) ;;
                  if Py.hashable (event_type event) then
                    self <- get ;;
                    put (set_event_types_bruno
                           (Py.add (event_type event) (event_types_bruno self)) self)
                  else
                    raise (TypeError ("unhashable type: '"
                                      ++ Py.type_name (event_type event) ++ "'")%string)
              | None => ret tt
              end)
             (fun e => results_add_error (FailedToParse (pathlib.name (bru_path f)) e)))
        tt
  end.

(** The local lists of [validate_bruno_payloads]. *)
Record payload_locals : Type := {
  field_mismatches : list (string * string * string);
  unknown_fields : list (string * string);
  missing_type : list string
}.

Definition validate_bruno_payloads : M unit :=
  self <- get ;;
  locals <-
    for_each (bruno_events self)
      (fun locals event =>
         let file := pathlib.name (file_path event) in
         if negb (Py.contains "type" (payload event)) then
           results_add_error (MissingTypeField file) ;;
           ret {| field_mismatches := field_mismatches locals;
                  unknown_fields := unknown_fields locals;
                  missing_type := missing_type locals ++ [file] |}
         else
           for_each (payload event)
             (fun locals '(field_name, field_value) =>
                if negb (Py.contains field_name (go_fields self)) then
                  if String.eqb field_name "event_type" then
                    results_add_error (UsesEventType file) ;;
                    ret {| field_mismatches :=
                             field_mismatches locals ++ [(file, field_name, "type")];
                           unknown_fields := unknown_fields locals;
                           missing_type := missing_type locals |}
                  else if String.eqb field_name "guid" then
                    results_add_error (AmbiguousGuidField file) ;;
                    ret {| field_mismatches := field_mismatches locals;
                           unknown_fields := unknown_fields locals ++ [(file, field_name)];
                           missing_type := missing_type locals |}
                  else
                    results_add_error (UnknownField file field_name) ;;
                    ret {| field_mismatches := field_mismatches locals;
                           unknown_fields := unknown_fields locals ++ [(file, field_name)];
                           missing_type := missing_type locals |}
                else ret locals)
             locals)
      {| field_mismatches := []; unknown_fields := []; missing_type := [] |} ;;
  if negb (nonempty (field_mismatches locals))
     && negb (nonempty (unknown_fields locals))
     && negb (nonempty (missing_type locals))
  then results_add_pass
  else ret tt.

Definition validate_guid_fields : M unit :=
  self <- get ;;
  ambiguous_guid_found <-
    for_each (bruno_events self)
      (fun ambiguous_guid_found event =>
         let file := pathlib.name (file_path event) in
         let has_ambiguous_guid := Py.contains "guid" (payload event) in
         let has_player_guid := Py.contains "player_guid" (payload event) in
         let has_attacker_guid := Py.contains "attacker_guid" (payload event) in
         let has_victim_guid := Py.contains "victim_guid" (payload event) in
         if has_ambiguous_guid then
           results_add_error (UsesAmbiguousGuid file) ;;
           ret true
         else
           is_combat <- in_set (event_type event) combat_events ;;
           if is_combat then
             (if negb (has_attacker_guid && has_victim_guid) then
                let actual :=
                  ((if has_attacker_guid then ["attacker_guid"] else [])
                   ++ (if has_victim_guid then ["victim_guid"] else [])
                   ++ (if has_player_guid then ["player_guid"] else []))%list in
                results_add_warning (CombatShouldHave file actual)
              else ret tt) ;;
             ret ambiguous_guid_found
           else
             is_single <- in_set (event_type event) single_player_events ;;
             if is_single then
               (if negb has_player_guid then
                  results_add_warning (SinglePlayerShouldHave file)
                else ret tt) ;;
               ret ambiguous_guid_found
             else ret ambiguous_guid_found)
      false ;;
  self <- get ;;
  if negb ambiguous_guid_found && (warnings (results self) =? 0)%nat
  then results_add_pass
  else ret tt.

Definition validate_event_counts : M unit :=
  self <- get ;;
  let go_count := List.length (event_types_go self) in
  let bruno_count := List.length (event_types_bruno self) in
  let bruno_file_count := List.length (bruno_events self) in
  let all_match :=
    ((go_count =? expected_count) && (bruno_count =? expected_count)
     && (bruno_file_count =? expected_count))%nat in
  (if all_match then results_add_pass
   else results_add_error
          (EventCountMismatch go_count bruno_count bruno_file_count expected_count)) ;;
  let missing_in_bruno :=
    filter (fun t => negb (Py.mem (JStr t) (event_types_bruno self)))
           (event_types_go self) in
  let extra_in_bruno :=
    filter (fun v => negb (existsb (fun t => Py.eqb v (JStr t)) (event_types_go self)))
           (event_types_bruno self) in
  (if nonempty missing_in_bruno then
     for_each (Text.sorted_str missing_in_bruno)
       (fun _ event => results_add_error (MissingInBruno event)) tt
   else ret tt) ;;
  (* the text of the [TypeError] of [sorted] goes on with the names of the
     two types at hand, which depend on the order of the set *)
  (if nonempty extra_in_bruno then
     match Py.sorted extra_in_bruno with
     | Some l => for_each l (fun _ event => results_add_error (ExtraInBruno event)) tt
     | None => raise (TypeError "'<' not supported between instances")
     end
   else ret tt).

(** [print_summary] writes to the console only. *)
Definition run_audit : M ValidationResult :=
  parse_go_struct ;;
  parse_event_types_enum ;;
  parse_bruno_files ;;
  validate_bruno_payloads ;;
  validate_guid_fields ;;
  validate_event_counts ;;
  self <- get ;;
  ret (results self).

(** [main]: the exit status of the process.  An exception that nothing
    catches ends the interpreter with status 1. *)
Definition main (base : directory) : nat :=
  match run_audit (init base) with
  | Returns results _ => if is_success results then 0 else 1
  | Raises _ _ => 1
  end.

End Auditor.

(* ------------------------------------------------------------------ *)
(** ** Vocabulary of the statements *)

Definition is_error (i : issue) : bool :=
  match i with Error _ => true | Warning _ => false end.

Definition is_warning (i : issue) : bool :=
  match i with Error _ => false | Warning _ => true end.

Definition message_of (i : issue) : message :=
  match i with Error m => m | Warning m => m end.

(** The sample file that a message names. *)
Definition message_file (m : message) : option string :=
  match m with
  | FailedToParse f _ | InvalidJSON f _ | MissingTypeField f | UsesEventType f
  | AmbiguousGuidField f | UnknownField f _ | UsesAmbiguousGuid f
  | CombatShouldHave f _ | SinglePlayerShouldHave f => Some f
  | _ => None
  end.

Definition names_file (file : string) (i : issue) : bool :=
  match message_file (message_of i) with
  | Some f => String.eqb f file
  | None => false
  end.

(** The field-membership Error of [validate_bruno_payloads] for a key of a
    file, in any of its three wordings. *)
Definition flags_field (file key : string) (i : issue) : bool :=
  match i with
  | Error (UsesEventType f) => String.eqb f file && String.eqb key "event_type"
  | Error (AmbiguousGuidField f) => String.eqb f file && String.eqb key "guid"
  | Error (UnknownField f k) => String.eqb f file && String.eqb k key
  | _ => false
  end.

Definition is_missing_type (file : string) (i : issue) : bool :=
  match i with
  | Error (MissingTypeField f) => String.eqb f file
  | _ => false
  end.

Definition is_bare_guid (file : string) (i : issue) : bool :=
  match i with
  | Error (UsesAmbiguousGuid f) => String.eqb f file
  | _ => false
  end.

Definition is_count_mismatch (i : issue) : bool :=
  match i with
  | Error (EventCountMismatch _ _ _ _) => true
  | _ => false
  end.

Definition is_missing_coverage (event : string) (i : issue) : bool :=
  match i with
  | Error (MissingInBruno t) => String.eqb t event
  | _ => false
  end.

Definition is_unknown_type (event : string) (i : issue) : bool :=
  match i with
  | Error (ExtraInBruno (JStr t)) => String.eqb t event
  | _ => false
  end.

Definition is_coverage (i : issue) : bool :=
  match i with
  | Error (MissingInBruno _) | Error (ExtraInBruno _) => true
  | _ => false
  end.

Definition is_invalid_json (file : string) (i : issue) : bool :=
  match i with
  | Error (InvalidJSON f _) => String.eqb f file
  | _ => false
  end.

Definition count (p : issue -> bool) (l : list issue) : nat :=
  List.length (filter p l).

(** The issues that a computation appends to the report. *)
Definition recorded {A} (m : M A) (self : EventSystemAuditor) : list issue :=
  skipn (List.length (errors (results self))) (errors (results (final (m self)))).

Definition file_of (e : BrunoEvent) : string := pathlib.name (file_path e).

Definition file_names (l : list BrunoEvent) : list string := map file_of l.

Definition has_key (k : string) (e : BrunoEvent) : bool := Py.contains k (payload e).

(** The set of types that the loader has observed for a corpus. *)
Definition observe_step (s : list json) (e : BrunoEvent) : list json :=
  if Py.hashable (event_type e) then Py.add (event_type e) s else s.

Definition observed (l : list BrunoEvent) : list json := fold_left observe_step l [].

(** *** What one step of each loop reports *)

Definition field_message (file k : string) : message :=
  if String.eqb k "event_type" then UsesEventType file
  else if String.eqb k "guid" then AmbiguousGuidField file
  else UnknownField file k.

Definition key_issues (fields : Py.dict GoStructField) (file : string)
           (kv : string * json) : list issue :=
  if negb (Py.contains (fst kv) fields) then [Error (field_message file (fst kv))]
  else [].

Definition payload_issues (fields : Py.dict GoStructField) (e : BrunoEvent) : list issue :=
  if negb (has_key "type" e) then [Error (MissingTypeField (file_of e))]
  else flat_map (key_issues fields (file_of e)) (payload e).

Definition is_one_of (s : list string) (v : json) : bool :=
  existsb (fun t => Py.eqb v (JStr t)) s.

Definition guid_issues (e : BrunoEvent) : list issue :=
  if has_key "guid" e then [Error (UsesAmbiguousGuid (file_of e))]
  else if is_one_of combat_events (event_type e) then
    if negb (has_key "attacker_guid" e && has_key "victim_guid" e) then
      [Warning (CombatShouldHave (file_of e)
                  ((if has_key "attacker_guid" e then ["attacker_guid"] else [])
                   ++ (if has_key "victim_guid" e then ["victim_guid"] else [])
                   ++ (if has_key "player_guid" e then ["player_guid"] else []))%list)]
    else []
  else if is_one_of single_player_events (event_type e) then
    if negb (has_key "player_guid" e) then [Warning (SinglePlayerShouldHave (file_of e))]
    else []
  else [].

(** The step of [validate_guid_fields] raises on this sample. *)
Definition guid_raises (e : BrunoEvent) : bool :=
  negb (has_key "guid" e) && negb (Py.hashable (event_type e)).

Definition missing_in_bruno (self : EventSystemAuditor) : list string :=
  filter (fun t => negb (Py.mem (JStr t) (event_types_bruno self))) (event_types_go self).

Definition extra_in_bruno (self : EventSystemAuditor) : list json :=
  filter (fun v => negb (is_one_of (event_types_go self) v)) (event_types_bruno self).

Definition all_match (self : EventSystemAuditor) : bool :=
  ((List.length (event_types_go self) =? expected_count)
   && (List.length (event_types_bruno self) =? expected_count)
   && (List.length (bruno_events self) =? expected_count))%nat.

Definition count_issues (self : EventSystemAuditor) : list issue :=
  if all_match self then []
  else [Error (EventCountMismatch (List.length (event_types_go self))
                 (List.length (event_types_bruno self))
                 (List.length (bruno_events self)) expected_count)].

Definition coverage_issues (self : EventSystemAuditor) : list issue :=
  (map (fun t => Error (MissingInBruno t)) (Text.sorted_str (missing_in_bruno self))
   ++ match Py.sorted (extra_in_bruno self) with
      | Some l => map (fun v => Error (ExtraInBruno v)) l
      | None => []
      end)%list.

(** *** Relating two states of the auditor *)

Definition reports (l : list issue) (r r' : ValidationResult) : Prop :=
  errors r' = (errors r ++ l)%list
  /\ failed r' = failed r + count is_error l
  /\ warnings r' = warnings r + count is_warning l.

Definition same_data (self self' : EventSystemAuditor) : Prop :=
  base_dir self' = base_dir self
  /\ go_fields self' = go_fields self
  /\ bruno_events self' = bruno_events self
  /\ event_types_go self' = event_types_go self
  /\ event_types_bruno self' = event_types_bruno self.

(** Between [self] and [self'] exactly the issues [l] were recorded and
    nothing else of the auditor changed, the [passed] counter apart. *)
Definition logged (l : list issue) (self self' : EventSystemAuditor) : Prop :=
  same_data self self' /\ reports l (results self) (results self').

(** *** Deciding distinctness *)

(** A decision procedure for the distinctness of file names and keys. *)
Fixpoint distinct (l : list string) : bool :=
  match l with
  | [] => true
  | x :: l' => negb (existsb (String.eqb x) l') && distinct l'
  end.

(** *** Example data *)

Definition sample (file : string) (d : Py.dict json) : BrunoEvent :=
  {| file_path := {| pathlib.name := file; pathlib.stem := file |};
     event_name := file;
     event_type := Py.get "type" (JStr EmptyString) d;
     payload := d |}.

Definition field (k : string) : string * GoStructField :=
  (k, {| name := k; go_type := "string"; json_name := k; is_required := true |}).

Definition no_files : directory :=
  {| events_go := None; event_types_generated_go := None; bruno_dir := None |}.

(** An auditor that has loaded a schema, an enumeration and a corpus. *)
Definition loaded (fields : Py.dict GoStructField) (types : list string)
           (events : list BrunoEvent) : EventSystemAuditor :=
  {| base_dir := no_files;
     go_fields := fields;
     bruno_events := events;
     event_types_go := types;
     event_types_bruno := observed events;
     results := results (init no_files) |}.

(** *** What the loader makes of one file *)

Inductive reading : Type :=
| NoBody
| InvalidBody (e : string)
| NotADict (v : json)
| IsSample (event : BrunoEvent).

Definition no_get (v : json) : exn :=
  AttributeError ("'" ++ Py.type_name v ++ "' object has no attribute 'get'")%string.

Definition unhashable (v : json) : exn :=
  TypeError ("unhashable type: '" ++ Py.type_name v ++ "'")%string.

Section Reading.
Variable json_loads : string -> json + string.

(** The four ways [parse_bru_file] can go on a file, as a function of the
    file alone ([parse_bru_file_read] relates the two). *)
Definition read (f : bru_file) : reading :=
  match Re.search_body_json (bru_text f) with
  | None => NoBody
  | Some g =>
      match json_loads (Text.strip g) with
      | inr e => InvalidBody e
      | inl (JObj members) =>
          IsSample
            {| file_path := bru_path f;
               event_name :=
                 match Re.search_meta_name (bru_text f) with
                 | Some n => Text.strip n
                 | None => pathlib.stem (bru_path f)
                 end;
               event_type := Py.get "type" (JStr EmptyString) (Py.of_members members);
               payload := Py.of_members members |}
      | inl v => NotADict v
      end
  end.

(** The sample that the file adds to the corpus. *)
Definition file_sample (f : bru_file) : list BrunoEvent :=
  match read f with
  | IsSample event => [event]
  | _ => []
  end.

(** The issue that the loader records for the file. *)
Definition file_issues (f : bru_file) : list issue :=
  let file := pathlib.name (bru_path f) in
  match read f with
  | NoBody => []
  | InvalidBody e => [Error (InvalidJSON file e)]
  | NotADict v => [Error (FailedToParse file (no_get v))]
  | IsSample event =>
      if Py.hashable (event_type event) then []
      else [Error (FailedToParse file (unhashable (event_type event)))]
  end.
End Reading.

(** The loader has gone through [files] between [self] and [self']. *)
Definition loads (json_loads : string -> json + string) (files : list bru_file)
           (self self' : EventSystemAuditor) : Prop :=
  base_dir self' = base_dir self
  /\ go_fields self' = go_fields self
  /\ event_types_go self' = event_types_go self
  /\ bruno_events self' = bruno_events self ++ flat_map (file_sample json_loads) files
  /\ event_types_bruno self'
     = fold_left observe_step (flat_map (file_sample json_loads) files)
                 (event_types_bruno self)
  /\ reports (flat_map (file_issues json_loads) files) (results self) (results self')
  /\ passed (results self') = passed (results self).

Definition set_bruno_dir (files : option (list bru_file)) (self : EventSystemAuditor)
  : EventSystemAuditor :=
  {| base_dir := {| events_go := events_go (base_dir self);
                    event_types_generated_go := event_types_generated_go (base_dir self);
                    bruno_dir := files |};
     go_fields := go_fields self;
     bruno_events := bruno_events self;
     event_types_go := event_types_go self;
     event_types_bruno := event_types_bruno self;
     results := results self |}.

(** The directory without the file of that name. *)
Definition without (f : bru_file) (files : list bru_file) : list bru_file :=
  filter (fun x => negb (String.eqb (pathlib.name (bru_path x)) (pathlib.name (bru_path f))))
         files.

Definition bru_names (files : list bru_file) : list string :=
  map (fun f => pathlib.name (bru_path f)) files.

(** *** An example repository *)

Definition line (s : string) : string := (s ++ String Text.nl EmptyString)%string.

Definition quoted (s : string) : string :=
  String Re.dquote (s ++ String Re.dquote EmptyString)%string.

(** [internal/models/events.go] with three fields. *)
Definition example_events_go : string :=
  (line "package models"
   ++ line "type RawEvent struct {"
   ++ line ("	Type       EventType `json:" ++ quoted "type" ++ "`")
   ++ line ("	MatchID    string    `json:" ++ quoted "match_id,omitempty" ++ "`")
   ++ line ("	PlayerGUID string    `json:" ++ quoted "player_guid,omitempty" ++ "`")
   ++ line "}")%string.

(** [internal/models/event_types_generated.go] with one constant. *)
Definition example_enum_go : string :=
  (line "package models"
   ++ line "const ("
   ++ line ("	EventJump EventType = " ++ quoted "jump")
   ++ line ")")%string.

(** A [.bru] file with a [meta] block and a [body:json] block. *)
Definition bru (title body : string) : bru_file :=
  {| bru_path := {| pathlib.name := (title ++ ".bru")%string; pathlib.stem := title |};
     bru_text := (line "meta {" ++ line ("  name: " ++ title) ++ line "}"
                  ++ line "body:json {" ++ line body ++ line "}")%string |}.

(** A [.bru] file that has no [body:json] block. *)
Definition bru_without_body (title : string) : bru_file :=
  {| bru_path := {| pathlib.name := (title ++ ".bru")%string; pathlib.stem := title |};
     bru_text := (line "meta {" ++ line ("  name: " ++ title) ++ line "}")%string |}.

Definition jump_with_guid : string :=
  ("{" ++ quoted "type" ++ ": " ++ quoted "jump" ++ ", "
   ++ quoted "guid" ++ ": " ++ quoted "abc" ++ "}")%string.

Definition jump_with_player_guid : string :=
  ("{" ++ quoted "type" ++ ": " ++ quoted "jump" ++ ", "
   ++ quoted "player_guid" ++ ": " ++ quoted "abc" ++ "}")%string.

(** The values of [json.loads] on the bodies of the example. *)
Definition example_json_loads (s : string) : json + string :=
  if String.eqb s jump_with_guid then
    inl (JObj [("type", JStr "jump"); ("guid", JStr "abc")])
  else if String.eqb s jump_with_player_guid then
    inl (JObj [("type", JStr "jump"); ("player_guid", JStr "abc")])
  else inr "Expecting value: line 1 column 1 (char 0)".

Definition example_repository (files : list bru_file) : directory :=
  {| events_go := Some example_events_go;
     event_types_generated_go := Some example_enum_go;
     bruno_dir := Some files |}.

(** *** The auditor after its parsing phases *)

(** The counter of failures agrees with the report. *)
Definition consistent (r : ValidationResult) : Prop :=
  failed r = count is_error (errors r).

(** What holds of the auditor once the three sources are parsed. *)
Definition ready (self : EventSystemAuditor) : Prop :=
  NoDup (event_types_go self)
  /\ event_types_bruno self = observed (bruno_events self)
  /\ consistent (results self)
  /\ ((exists e, In e (bruno_events self) /\ Py.hashable (event_type e) = false) ->
      failed (results self) >= 1).

(** A parsing phase that leaves the corpus alone and names no sample file
    in what it records. *)
Definition keeps_corpus (self self' : EventSystemAuditor) : Prop :=
  base_dir self' = base_dir self
  /\ bruno_events self' = bruno_events self
  /\ event_types_bruno self' = event_types_bruno self
  /\ (NoDup (event_types_go self) -> NoDup (event_types_go self'))
  /\ exists l,
      reports l (results self) (results self')
      /\ forall i, In i l -> message_file (message_of i) = None.

(** *** Example states of the auditor *)

Definition ex_jump_height : BrunoEvent :=
  sample "Jump.bru" [("type", JStr "jump"); ("height", JInt 3)].

Definition ex_schema_auditor : EventSystemAuditor :=
  loaded [field "type"; field "player_guid"] ["jump"] [ex_jump_height].

Definition ex_jump : BrunoEvent := sample "Jump.bru" [("type", JStr "jump")].

(** The schema source was missing: the field mapping is empty. *)
Definition ex_no_schema_auditor : EventSystemAuditor := loaded [] ["jump"] [ex_jump].

Definition ex_jump_guid : BrunoEvent :=
  sample "Jump.bru" [("type", JStr "jump"); ("guid", JStr "abc")].

Definition ex_guid_auditor : EventSystemAuditor :=
  loaded [field "type"; field "guid"] ["jump"] [ex_jump_guid].

Definition ex_coverage_auditor : EventSystemAuditor :=
  loaded [field "type"] ["jump"; "say"; "walk"]
         [sample "Jump.bru" [("type", JStr "jump")];
          sample "Fly.bru" [("type", JStr "fly")]].

Definition ex_untyped : BrunoEvent :=
  sample "Jump.bru" [("event_type", JStr "jump"); ("height", JInt 3)].

Definition ex_empty_type : BrunoEvent :=
  sample "Walk.bru" [("type", JStr EmptyString); ("height", JInt 3)].

Definition ex_type_auditor : EventSystemAuditor :=
  loaded [field "type"] ["jump"] [ex_untyped; ex_empty_type].





Definition ex_kill_guid : BrunoEvent :=
  sample "Kill.bru" [("type", JStr "player_kill"); ("guid", JStr "abc")].

Definition ex_kill_auditor : EventSystemAuditor :=
  loaded [field "type"] ["player_kill"] [ex_jump; ex_kill_guid].

Definition ex_bad_file : bru_file := bru "Bad" "oops".

Definition ex_bad_files : list bru_file := [bru "Jump" jump_with_player_guid; ex_bad_file].

Definition ex_empty_file : bru_file := bru_without_body "Empty".

Definition ex_empty_files : list bru_file :=
  [bru "Jump" jump_with_player_guid; ex_empty_file].

Definition ex_guid_files : list bru_file := [bru "Jump" jump_with_guid].

Definition ex_bad_auditor : EventSystemAuditor := init (example_repository ex_bad_files).

Definition ex_empty_auditor : EventSystemAuditor := init (example_repository ex_empty_files).

(** *** Computations that do not look at the directory of samples *)

Definition map_final {A} (g : EventSystemAuditor -> EventSystemAuditor)
           (o : outcome A) : outcome A :=
  match o with
  | Returns a self => Returns a (g self)
  | Raises e self => Raises e (g self)
  end.

(** The computation runs alike when the directory of samples is
    replaced. *)
Definition frames {A} (files : option (list bru_file)) (m : M A) : Prop :=
  forall self, m (set_bruno_dir files self) = map_final (set_bruno_dir files) (m self).

(* ------------------------------------------------------------------ *)
(** ** Vocabulary of the properties of the parsers *)

(** Every character of the text is of the class. *)
Fixpoint all_chars (cls : ascii -> bool) (s : string) : bool :=
  match s with
  | EmptyString => true
  | String c s' => cls c && all_chars cls s'
  end.

(** The text [p] occurs in [s]. *)
Definition occurs (p s : string) : Prop :=
  exists pre post, s = (pre ++ p ++ post)%string.

(** The line that closes a block: a newline and a brace. *)
Definition closing : string := String Text.nl "}".

(** A nonempty run of characters of the class. *)
Definition run_of (cls : ascii -> bool) (s : string) : Prop :=
  s <> EmptyString /\ all_chars cls s = true.

(** The field that [parse_go_struct] makes of one match of the field
    pattern, and the key under which it stores it. *)
Definition field_key (json_tag : string) : string :=
  hd EmptyString (Text.split ","%char json_tag).

Definition field_of_match (m : string * string * string) : GoStructField :=
  let '(field_name, go_type, json_tag) := m in
  {| name := field_name; go_type := go_type;
     json_name := field_key json_tag;
     is_required :=
       negb (existsb (String.eqb "omitempty") (Text.split ","%char json_tag)) |}.

(** The body of the [RawEvent] struct of the example. *)
Definition example_struct_body : string :=
  (String Text.nl EmptyString
   ++ "	Type       EventType `json:" ++ quoted "type" ++ "`"
   ++ String Text.nl EmptyString
   ++ "	MatchID    string    `json:" ++ quoted "match_id,omitempty" ++ "`"
   ++ String Text.nl EmptyString
   ++ "	PlayerGUID string    `json:" ++ quoted "player_guid,omitempty" ++ "`")%string.

Definition ex_fresh_auditor : EventSystemAuditor := init (example_repository []).

(** Further bodies of the example: a batch of events in an array, and an
    event whose type is an array. *)
Definition jump_batch : string := ("[" ++ jump_with_player_guid ++ "]")%string.

Definition jump_list_type : string :=
  ("{" ++ quoted "type" ++ ": [" ++ quoted "jump" ++ "]}")%string.

(** The values of [json.loads] on these bodies as well. *)
Definition example_json_loads_more (s : string) : json + string :=
  if String.eqb s jump_batch then
    inl (JArr [JObj [("type", JStr "jump"); ("player_guid", JStr "abc")]])
  else if String.eqb s jump_list_type then
    inl (JObj [("type", JArr [JStr "jump"])])
  else example_json_loads s.

Definition ex_batch_file : bru_file := bru "Batch" jump_batch.

Definition ex_batch_files : list bru_file :=
  [bru "Jump" jump_with_player_guid; ex_batch_file].

Definition ex_batch_auditor : EventSystemAuditor :=
  init (example_repository ex_batch_files).

Definition ex_list_type_file : bru_file := bru "Listed" jump_list_type.

Definition ex_list_type_files : list bru_file :=
  [ex_list_type_file; bru "Jump" jump_with_player_guid].

Definition ex_list_type_auditor : EventSystemAuditor :=
  init (example_repository ex_list_type_files).

(** Strictly ascending, in the order of code points. *)
Definition ascending (x y : string) : Prop := String.leb x y = true /\ x <> y.

Definition ex_listing : list bru_file :=
  [bru "Walk" jump_with_guid; ex_bad_file; bru "Jump" jump_with_player_guid].

Definition ex_listing_auditor : EventSystemAuditor :=
  init (example_repository ex_listing).

Definition ex_kill_attacker : BrunoEvent :=
  sample "Kill.bru" [("type", JStr "player_kill"); ("attacker_guid", JStr "abc")].

Definition ex_paired_auditor : EventSystemAuditor :=
  loaded [field "type"] ["player_kill"; "jump"] [ex_jump; ex_kill_attacker].

(** The strings among a list of values. *)
Definition str_values (l : list json) : list string :=
  flat_map (fun v => match v with JStr s => [s] | _ => [] end) l.

(** One of the local lists of [validate_bruno_payloads] is not empty. *)
Definition found_any (locals : payload_locals) : bool :=
  nonempty (field_mismatches locals) || nonempty (unknown_fields locals)
  || nonempty (missing_type locals).

(** *** A whole run *)

(** What the two Go parsers record on a repository. *)
Definition source_issues (base : directory) : list issue :=
  (match events_go base with
   | None => [Error (CannotFind ["internal"; "models"; "events.go"])]
   | Some content =>
       match Re.search_raw_event content with
       | None => [Error CannotFindRawEvent]
       | Some _ => []
       end
   end
   ++ match event_types_generated_go base with
      | None => [Error (CannotFind ["internal"; "models"; "event_types_generated.go"])]
      | Some _ => []
      end)%list.

(** What the loader records on a repository, and the corpus it builds. *)
Definition loader_issues (json_loads : string -> json + string) (base : directory)
  : list issue :=
  match bruno_dir base with
  | None => [Error (CannotFindBrunoDir ["bruno"; "Ingestion"; "Events"])]
  | Some files => flat_map (file_issues json_loads) (sorted_paths files)
  end.

Definition corpus (json_loads : string -> json + string) (base : directory)
  : list BrunoEvent :=
  match bruno_dir base with
  | None => []
  | Some files => flat_map (file_sample json_loads) (sorted_paths files)
  end.

(** The passes that follow the field-membership pass. *)
Definition identity_and_counts : M ValidationResult :=
  validate_guid_fields ;;
  validate_event_counts ;;
  self <- get ;;
  ret (results self).

(** The example repository without its directory of samples. *)
Definition ex_no_samples : directory :=
  {| events_go := Some example_events_go;
     event_types_generated_go := Some example_enum_go;
     bruno_dir := None |}.

(** A repository whose samples carry string types. *)
Definition ex_typed_files : list bru_file :=
  [bru "Walk" jump_with_guid; bru "Jump" jump_with_player_guid].

Definition untyped_body : string :=
  ("{" ++ quoted "player_guid" ++ ": " ++ quoted "abc" ++ "}")%string.

Definition example_json_loads_untyped (s : string) : json + string :=
  if String.eqb s untyped_body then inl (JObj [("player_guid", JStr "abc")])
  else example_json_loads s.

Definition ex_untyped_file : bru_file := bru "Untyped" untyped_body.

Definition ex_untyped_files : list bru_file :=
  [bru "Jump" jump_with_player_guid; ex_untyped_file].

(** A repository on which the audit passes: 105 canonical types, from
    [aa] to [eb], each with one sample that carries its type only. *)
Definition clean_type (n : nat) : string :=
  String (ascii_of_nat (97 + n / 26))
         (String (ascii_of_nat (97 + n mod 26)) EmptyString).

Definition clean_types : list string := map clean_type (seq 0 105).

Definition clean_enum_go : string :=
  String.concat EmptyString
    (map (fun t => line ("	Event" ++ t ++ " EventType = " ++ quoted t)) clean_types).

Definition clean_body (t : string) : string :=
  ("{" ++ quoted "type" ++ ": " ++ quoted t ++ "}")%string.

Definition clean_files : list bru_file :=
  map (fun t => bru t (clean_body t)) clean_types.

(** The values of [json.loads] on the bodies of these samples. *)
Definition clean_json_loads (s : string) : json + string :=
  match find (fun t => String.eqb s (clean_body t)) clean_types with
  | Some t => inl (JObj [("type", JStr t)])
  | None => inr "Expecting value: line 1 column 1 (char 0)"
  end.

Definition ex_clean_repository : directory :=
  {| events_go := Some example_events_go;
     event_types_generated_go := Some clean_enum_go;
     bruno_dir := Some clean_files |}.

(* ------------------------------------------------------------------ *)
(** ** The summary on the console *)

(** The lines that [print_summary] writes, one constructor per [print]
    of the method, with the values that the line shows (the colours and
    the wording of a line are fixed by its constructor). *)
Module Console.
Inductive line : Type :=
| Rule
| Title
| StatisticsHeader
| GoStructFields (n : nat)
| EventTypesGo (n : nat)
| BrunoFiles (n : nat)
| EventTypesBruno (n : nat)
| ResultsHeader
| Passed (n : nat)
| Failed (n : nat)
| Warnings (n : nat)
| IssuesFound
| IssueLine (i : nat) (error : issue)
| MoreIssues (n : nat)
| AuditPassed
| AllChecksPassed
| AuditFailed
| FoundErrors (n : nat).

(** The lines of the list of issues: its heading, its numbered lines
    and the line for the issues left out. *)
Definition in_listing (l : line) : bool :=
  match l with
  | IssuesFound | IssueLine _ _ | MoreIssues _ => true
  | _ => false
  end.
End Console.

(** [enumerate(l, 1)] *)
Definition enumerate {A} (l : list A) : list (nat * A) :=
  combine (seq 1 (List.length l)) l.

Definition print_summary (self : EventSystemAuditor) : list Console.line :=
  let r := results self in
  [Console.Rule; Console.Title; Console.Rule;
   Console.StatisticsHeader;
   Console.GoStructFields (List.length (go_fields self));
   Console.EventTypesGo (List.length (event_types_go self));
   Console.BrunoFiles (List.length (bruno_events self));
   Console.EventTypesBruno (List.length (event_types_bruno self));
   Console.ResultsHeader;
   Console.Passed (passed r); Console.Failed (failed r); Console.Warnings (warnings r)]
  ++ (if nonempty (errors r) then
        Console.IssuesFound
        :: map (fun ie => Console.IssueLine (fst ie) (snd ie))
               (enumerate (firstn 50 (errors r)))
        ++ (if (50 <? List.length (errors r))%nat
            then [Console.MoreIssues (List.length (errors r) - 50)]
            else [])
      else [])
  ++ [Console.Rule]
  ++ (if is_success r then [Console.AuditPassed; Console.AllChecksPassed]
      else [Console.AuditFailed; Console.FoundErrors (failed r)])
  ++ [Console.Rule].

Definition ex_event_type : BrunoEvent :=
  sample "Jump.bru" [("type", JStr "jump"); ("event_type", JStr "jump")].

Definition ex_event_type_auditor : EventSystemAuditor :=
  loaded [field "type"] ["jump"] [ex_event_type].

(* ------------------------------------------------------------------ *)
(** ** Sources on which [read_text] raises *)

(** A Go source below [base_dir]: absent, or present as text, or present
    and such that [read_text] raises (bytes that are not valid in the
    encoding, a file that may not be read).  [parse_go_struct] and
    [parse_event_types_enum] call [read_text] outside any [try], so the
    exception leaves [run_audit] and ends the process with status 1. *)
Module Disk.

Inductive file : Type :=
| Absent
| Text (content : string)
| Unreadable (e : exn).

Record tree : Type := {
  events_file : file;
  enum_file : file;
  samples_dir : option (list bru_file)
}.


Definition text (f : file) : option string :=
  match f with Text content => Some content | _ => None end.

(** The tree as the methods see it once [read_text] has returned. *)
Definition directory_of (t : tree) : directory :=
  {| events_go := text (events_file t);
     event_types_generated_go := text (enum_file t);
     bruno_dir := samples_dir t |}.

(** [run_audit] on the tree: the first [read_text] that raises ends the
    run, in [parse_go_struct] before anything is recorded, or in
    [parse_event_types_enum] after [parse_go_struct] has returned. *)
Definition run_audit (json_loads : string -> json + string) (t : tree)
  : outcome ValidationResult :=
  match events_file t with
  | Unreadable e => Raises e (init (directory_of t))
  | _ =>
      match enum_file t with
      | Unreadable e => (parse_go_struct ;; raise e) (init (directory_of t))
      | _ => run_audit json_loads (init (directory_of t))
      end
  end.

(** [main] on the tree. *)
Definition main (json_loads : string -> json + string) (t : tree) : nat :=
  match run_audit json_loads t with
  | Returns results _ => if is_success results then 0 else 1
  | Raises _ _ => 1
  end.

End Disk.



(** A corpus whose types cannot be ordered, and a corpus in which a
    sample with an array for a type precedes a sample with the bare
    [guid] key. *)
Definition ex_zzz : BrunoEvent := sample "Zzz.bru" [("type", JStr "zzz")].

Definition ex_mixed_auditor : EventSystemAuditor :=
  loaded [field "type"] ["jump"] [sample "Five.bru" [("type", JInt 5)]; ex_zzz].

Definition ex_b_guid : BrunoEvent :=
  sample "B.bru" [("type", JStr "jump"); ("guid", JStr "abc")].

Definition ex_list_then_guid_auditor : EventSystemAuditor :=
  loaded [field "type"; field "guid"] ["jump"]
         [sample "A.bru" [("type", JArr [JStr "jump"])]; ex_b_guid].
(* ------------------------------------------------------------------ *)
(** ** Sorting *)

Unset Implicit Arguments.

Lemma ascii_compare_nat (x y : ascii) :
  Ascii.compare x y = N.compare (N_of_ascii x) (N_of_ascii y).
Proof. reflexivity. Qed.

Lemma string_leb_trans (a b c : string) :
  String.leb a b = true -> String.leb b c = true -> String.leb a c = true.
Proof.
  unfold String.leb. revert b c.
  induction a as [|x a IH]; intros [|y b] [|z c]; simpl; try easy.
  rewrite !ascii_compare_nat.
  destruct (N.compare_spec (N_of_ascii x) (N_of_ascii y)) as [Exy|Lxy|Gxy];
    destruct (N.compare_spec (N_of_ascii y) (N_of_ascii z)) as [Eyz|Lyz|Gyz];
    destruct (N.compare_spec (N_of_ascii x) (N_of_ascii z)) as [Exz|Lxz|Gxz];
    try easy; try lia.
  apply IH.
Qed.

Section SortFacts.
Variable A : Type.
Variable le : A -> A -> bool.
Hypothesis le_total : forall x y, le x y = true \/ le y x = true.
Hypothesis le_trans : forall x y z, le x y = true -> le y z = true -> le x z = true.

Let ordered (x y : A) : Prop := le x y = true.

Lemma insert_perm (x : A) (l : list A) : Permutation (Text.insert le x l) (x :: l).
Proof.
  induction l as [|y l IH]; simpl; [reflexivity|].
  destruct (le x y); [reflexivity|].
  rewrite IH. apply perm_swap.
Qed.

Lemma sort_perm (l : list A) : Permutation (Text.sort le l) l.
Proof.
  induction l as [|x l IH]; simpl; [reflexivity|].
  rewrite insert_perm. now constructor.
Qed.

Lemma insert_sorted (x : A) (l : list A) :
  StronglySorted ordered l -> StronglySorted ordered (Text.insert le x l).
Proof.
  induction 1 as [|y l Hs IH Hy]; simpl.
  - repeat constructor.
  - destruct (le x y) eqn:E.
    + constructor; [now constructor|].
      constructor; [exact E|].
      eapply Forall_impl; [|exact Hy]. intros z Hz. now apply (le_trans x y z).
    + constructor; [assumption|].
      assert (Hyx : ordered y x).
      { destruct (le_total x y) as [H|H]; [congruence | exact H]. }
      apply Forall_forall. intros z Hz.
      apply (Permutation_in _ (insert_perm x l)) in Hz.
      destruct Hz as [<-|Hz]; [assumption|].
      rewrite Forall_forall in Hy. now apply Hy.
Qed.

Lemma sort_sorted (l : list A) : StronglySorted ordered (Text.sort le l).
Proof.
  induction l as [|x l IH]; simpl; [constructor | now apply insert_sorted].
Qed.

Lemma insert_first (x : A) (l : list A) :
  Forall (ordered x) l -> Text.insert le x l = x :: l.
Proof.
  destruct l as [|y l]; simpl; [reflexivity|].
  intros H. inversion H as [|? ? Hy _]; subst. now rewrite Hy.
Qed.

Lemma filter_insert (p : A -> bool) (x : A) (l : list A) :
  StronglySorted ordered l ->
  filter p (Text.insert le x l)
  = if p x then Text.insert le x (filter p l) else filter p l.
Proof.
  induction 1 as [|y l Hs IH Hy]; simpl.
  - now destruct (p x).
  - destruct (le x y) eqn:E; simpl.
    + destruct (p x); [|reflexivity].
      symmetry. apply insert_first.
      apply Forall_forall. intros z Hz.
      assert (Hin : In z (y :: l)).
      { destruct (p y); [destruct Hz as [<-|Hz]; [now left|] |];
          right; apply filter_In in Hz; tauto. }
      destruct Hin as [<-|Hin]; [exact E|].
      rewrite Forall_forall in Hy. apply (le_trans x y z E). now apply Hy.
    + rewrite IH. destruct (p y), (p x); simpl; try reflexivity.
      now rewrite E.
Qed.

Lemma filter_sort (p : A -> bool) (l : list A) :
  filter p (Text.sort le l) = Text.sort le (filter p l).
Proof.
  induction l as [|x l IH]; simpl; [reflexivity|].
  rewrite filter_insert by apply sort_sorted.
  rewrite IH. now destruct (p x).
Qed.
End SortFacts.

Lemma sorted_paths_perm (files : list bru_file) : Permutation (sorted_paths files) files.
Proof. apply sort_perm. Qed.

Lemma sorted_paths_filter (p : bru_file -> bool) (files : list bru_file) :
  filter p (sorted_paths files) = sorted_paths (filter p files).
Proof.
  apply filter_sort.
  - intros x y. apply String.leb_total.
  - intros x y z. apply string_leb_trans.
Qed.
(* ------------------------------------------------------------------ *)
(** ** Counting issues *)

Section Counting.
Variable p : issue -> bool.

Lemma count_app (l1 l2 : list issue) :
  count p (l1 ++ l2) = count p l1 + count p l2.
Proof. unfold count. now rewrite filter_app, length_app. Qed.

Lemma count_cons (i : issue) (l : list issue) :
  count p (i :: l) = (if p i then 1 else 0) + count p l.
Proof. unfold count. simpl. now destruct (p i). Qed.

Lemma count_zero_iff (l : list issue) :
  count p l = 0 <-> forall i, In i l -> p i = false.
Proof.
  induction l as [|i l IH]; simpl.
  - split; [intros _ j [] | reflexivity].
  - rewrite count_cons. split.
    + intros H j [<-|Hj].
      * destruct (p i); [discriminate | reflexivity].
      * apply IH; [destruct (p i); [discriminate | exact H] | exact Hj].
    + intros H. rewrite (H i (or_introl eq_refl)). simpl.
      apply IH. intros j Hj. apply H. now right.
Qed.

Lemma count_flat_map_zero {X} (g : X -> list issue) (l : list X) :
  (forall x, In x l -> count p (g x) = 0) -> count p (flat_map g l) = 0.
Proof.
  induction l as [|x l IH]; simpl; intros H; [reflexivity|].
  rewrite count_app, H, IH; auto.
Qed.

(** In a list whose elements have distinct keys, only the element with
    the key of [e] contributes when the others contribute nothing. *)
Lemma count_flat_map_unique {X} (key : X -> string) (g : X -> list issue)
      (l : list X) (e : X) :
  NoDup (map key l) -> In e l ->
  (forall x, In x l -> key x <> key e -> count p (g x) = 0) ->
  count p (flat_map g l) = count p (g e).
Proof.
  induction l as [|x l IH]; simpl; intros Hnd Hin Hz; [contradiction|].
  inversion Hnd as [|? ? Hx Hnd']; subst.
  rewrite count_app. destruct Hin as [->|Hin].
  - rewrite count_flat_map_zero; [lia|].
    intros y Hy. apply Hz; [now right|].
    intros Heq. apply Hx. rewrite <- Heq. now apply in_map.
  - rewrite IH; auto.
    rewrite Hz; [reflexivity | now left |].
    intros Heq. apply Hx. rewrite Heq. now apply in_map.
Qed.

Lemma count_le_length (l : list issue) : count p l <= List.length l.
Proof. unfold count. apply filter_length_le. Qed.
End Counting.

Lemma count_insert {A} (le : A -> A -> bool) (f : A -> issue) (p : issue -> bool)
      (x : A) (l : list A) :
  count p (map f (Text.insert le x l)) = count p (map f (x :: l)).
Proof.
  induction l as [|y l IH]; simpl; [reflexivity|].
  destruct (le x y); simpl; [reflexivity|].
  rewrite !count_cons in *. simpl in IH. rewrite IH, count_cons. lia.
Qed.

Lemma count_sort {A} (le : A -> A -> bool) (f : A -> issue) (p : issue -> bool)
      (l : list A) :
  count p (map f (Text.sort le l)) = count p (map f l).
Proof.
  induction l as [|x l IH]; simpl; [reflexivity|].
  rewrite count_insert. simpl. rewrite !count_cons. now rewrite IH.
Qed.

(* ------------------------------------------------------------------ *)
(** ** Recording issues *)

Lemma reports_nil (r : ValidationResult) : reports [] r r.
Proof. unfold reports. rewrite app_nil_r. cbn. repeat split; lia. Qed.

Lemma reports_trans (l1 l2 : list issue) (r r' r'' : ValidationResult) :
  reports l1 r r' -> reports l2 r' r'' -> reports (l1 ++ l2) r r''.
Proof.
  unfold reports. intros (E1 & F1 & W1) (E2 & F2 & W2).
  rewrite E2, E1, F2, F1, W2, W1, !count_app, app_assoc. repeat split; lia.
Qed.

Lemma reports_add_error (m : message) (r : ValidationResult) :
  reports [Error m] r (add_error m r).
Proof. unfold reports. cbn. repeat split; lia. Qed.

Lemma reports_add_warning (m : message) (r : ValidationResult) :
  reports [Warning m] r (add_warning m r).
Proof. unfold reports. cbn. repeat split; lia. Qed.

Lemma reports_add_pass (r : ValidationResult) : reports [] r (add_pass r).
Proof. unfold reports. cbn. rewrite app_nil_r. repeat split; lia. Qed.

Lemma same_data_refl (self : EventSystemAuditor) : same_data self self.
Proof. unfold same_data. tauto. Qed.

Lemma same_data_trans (a b c : EventSystemAuditor) :
  same_data a b -> same_data b c -> same_data a c.
Proof.
  unfold same_data. intros (A1 & A2 & A3 & A4 & A5) (B1 & B2 & B3 & B4 & B5).
  repeat split; congruence.
Qed.

Lemma same_data_set_results (r : ValidationResult) (self : EventSystemAuditor) :
  same_data self (set_results r self).
Proof. unfold same_data. cbn. tauto. Qed.

Lemma logged_refl (self : EventSystemAuditor) : logged [] self self.
Proof. split; [apply same_data_refl | apply reports_nil]. Qed.

Lemma logged_trans (l1 l2 : list issue) (a b c : EventSystemAuditor) :
  logged l1 a b -> logged l2 b c -> logged (l1 ++ l2) a c.
Proof.
  intros [D1 R1] [D2 R2].
  split; [eapply same_data_trans | eapply reports_trans]; eauto.
Qed.

Lemma logged_add_error (m : message) (self : EventSystemAuditor) :
  logged [Error m] self (set_results (add_error m (results self)) self).
Proof. split; [apply same_data_set_results | apply reports_add_error]. Qed.

Lemma logged_add_warning (m : message) (self : EventSystemAuditor) :
  logged [Warning m] self (set_results (add_warning m (results self)) self).
Proof. split; [apply same_data_set_results | apply reports_add_warning]. Qed.

Lemma logged_add_pass (self : EventSystemAuditor) :
  logged [] self (set_results (add_pass (results self)) self).
Proof. split; [apply same_data_set_results | apply reports_add_pass]. Qed.

Lemma logged_errors (l : list issue) (self self' : EventSystemAuditor) :
  logged l self self' -> errors (results self') = errors (results self) ++ l.
Proof. now intros [_ [E _]]. Qed.

Lemma logged_failed (l : list issue) (self self' : EventSystemAuditor) :
  logged l self self' ->
  failed (results self') = failed (results self) + count is_error l.
Proof. now intros [_ (_ & F & _)]. Qed.

(** What a computation recorded, from a description of its final state. *)
Lemma recorded_logged {A} (m : M A) (l : list issue) (self : EventSystemAuditor) :
  logged l self (final (m self)) -> recorded m self = l.
Proof.
  intros H. unfold recorded. rewrite (logged_errors _ _ _ H).
  rewrite skipn_app, skipn_all, Nat.sub_diag. reflexivity.
Qed.

(* ------------------------------------------------------------------ *)
(** ** Loops *)

(** A loop whose steps all return records the issues of its steps in
    order. *)
Lemma for_each_logged {X L} (h : X -> list issue) (body : L -> X -> M L) :
  (forall acc x self, exists acc' self',
      body acc x self = Returns acc' self' /\ logged (h x) self self') ->
  forall l acc self, exists acc' self',
    for_each l body acc self = Returns acc' self'
    /\ logged (flat_map h l) self self'.
Proof.
  intros Hbody. induction l as [|x l IH]; intros acc self; simpl.
  - exists acc, self. split; [reflexivity | apply logged_refl].
  - unfold bind. destruct (Hbody acc x self) as (acc1 & self1 & -> & H1).
    destruct (IH acc1 self1) as (acc2 & self2 & -> & H2).
    exists acc2, self2. split; [reflexivity | eapply logged_trans; eauto].
Qed.

(** A loop that stops at the first step that raises (leaving the auditor
    as it was) has recorded the issues of the steps before it. *)
Lemma for_each_prefix {X L} (h : X -> list issue) (stops : X -> bool)
      (body : L -> X -> M L) :
  (forall acc x self,
      if stops x then exists e, body acc x self = Raises e self
      else exists acc' self',
          body acc x self = Returns acc' self' /\ logged (h x) self self') ->
  forall l acc self, exists l1 l2,
    l = l1 ++ l2
    /\ logged (flat_map h l1) self (final (for_each l body acc self))
    /\ forallb (fun x => negb (stops x)) l1 = true
    /\ (if completes (for_each l body acc self) then l2 = []
        else exists x l2', l2 = x :: l2' /\ stops x = true).
Proof.
  intros Hbody. induction l as [|x l IH]; intros acc self.
  - exists [], []. simpl. split; [reflexivity|]. split; [apply logged_refl|].
    split; reflexivity.
  - simpl for_each. unfold bind. specialize (Hbody acc x self).
    destruct (stops x) eqn:Hx.
    + destruct Hbody as (e & ->). exists [], (x :: l). simpl.
      split; [reflexivity|]. split; [apply logged_refl|].
      split; [reflexivity|]. eauto.
    + destruct Hbody as (acc1 & self1 & -> & H1).
      destruct (IH acc1 self1) as (l1 & l2 & -> & H2 & Hs & Hc).
      exists (x :: l1), l2. simpl. rewrite Hx. simpl.
      split; [reflexivity|]. split; [eapply logged_trans; eauto|].
      split; assumption.
Qed.

(** Names the loop of the goal and asks for the description of its step. *)
Ltac loop_logged h :=
  match goal with
  | |- context [for_each ?l ?b ?a ?s] =>
      let H := fresh "Hstep" in
      assert (H : forall acc x self, exists acc' self',
                 b acc x self = Returns acc' self' /\ logged (h x) self self');
      [ | let acc' := fresh "acc" in
          let self' := fresh "self" in
          let Hl := fresh "Hlog" in
          destruct (for_each_logged h b H l a s) as (acc' & self' & -> & Hl) ]
  end.

(* ------------------------------------------------------------------ *)
(** ** Field membership: [validate_bruno_payloads] *)

Lemma validate_bruno_payloads_logged (self : EventSystemAuditor) :
  exists self',
    validate_bruno_payloads self = Returns tt self'
    /\ logged (flat_map (payload_issues (go_fields self)) (bruno_events self)) self self'.
Proof.
  unfold validate_bruno_payloads, bind at 1. simpl.
  unfold bind at 1.
  loop_logged (payload_issues (go_fields self)).
  - intros acc e s. unfold payload_issues, has_key, file_of.
    destruct (Py.contains "type" (payload e)); simpl.
    + loop_logged (key_issues (go_fields self) (pathlib.name (file_path e))).
      * intros acc1 [k v] s1. unfold key_issues. simpl.
        destruct (Py.contains k (go_fields self)); simpl.
        -- exists acc1, s1. split; [reflexivity | apply logged_refl].
        -- unfold field_message.
           destruct (String.eqb k "event_type");
             [| destruct (String.eqb k "guid")];
             unfold bind, results_add_error, ret;
             eexists _, _; (split; [reflexivity | apply logged_add_error]).
      * eexists _, _. split; [reflexivity | assumption].
    + unfold bind, results_add_error, ret.
      eexists _, _. split; [reflexivity | apply logged_add_error].
  - destruct (_ && _).
    + eexists. split; [reflexivity|].
      rewrite <- (app_nil_r (flat_map _ _)).
      eapply logged_trans; [eassumption | apply logged_add_pass].
    + eexists. split; [reflexivity | assumption].
Qed.

Lemma recorded_validate_bruno_payloads (self : EventSystemAuditor) :
  recorded validate_bruno_payloads self
  = flat_map (payload_issues (go_fields self)) (bruno_events self).
Proof.
  destruct (validate_bruno_payloads_logged self) as (self' & Heq & Hlog).
  apply recorded_logged. now rewrite Heq.
Qed.

Lemma flags_field_message (file file' k k' : string) :
  flags_field file k (Error (field_message file' k'))
  = String.eqb file' file && String.eqb k' k.
Proof.
  unfold field_message.
  destruct (String.eqb_spec k' "event_type") as [->|H1]; simpl.
  - now rewrite (String.eqb_sym k).
  - destruct (String.eqb_spec k' "guid") as [->|H2]; simpl.
    + now rewrite (String.eqb_sym k).
    + reflexivity.
Qed.

Lemma count_flags_key_issues (fields : Py.dict GoStructField) (file file' k : string)
      (d : Py.dict json) :
  file' <> file ->
  count (flags_field file k) (flat_map (key_issues fields file') d) = 0.
Proof.
  intros Hf. apply count_flat_map_zero. intros [k' v] _.
  unfold key_issues. simpl. destruct (Py.contains k' fields); simpl; [reflexivity|].
  rewrite count_cons, flags_field_message.
  destruct (String.eqb_spec file' file); [contradiction | reflexivity].
Qed.

(** In one payload, a key is flagged once if the schema lacks it and not
    at all if the schema has it. *)
Lemma count_flags_payload (fields : Py.dict GoStructField) (file k : string)
      (d : Py.dict json) :
  NoDup (Py.keys d) -> In k (Py.keys d) ->
  count (flags_field file k) (flat_map (key_issues fields file) d)
  = if Py.contains k fields then 0 else 1.
Proof.
  unfold Py.keys. induction d as [|[k' v] d IH]; simpl; intros Hnd Hin; [contradiction|].
  inversion Hnd as [|? ? Hk Hnd']; subst.
  rewrite count_app. destruct Hin as [->|Hin].
  - replace (count (flags_field file k) (flat_map (key_issues fields file) d)) with 0.
    + unfold key_issues. simpl. destruct (Py.contains k fields); simpl; [reflexivity|].
      rewrite count_cons, flags_field_message, !String.eqb_refl. reflexivity.
    + symmetry. apply count_flat_map_zero. intros [k2 v2] H2.
      unfold key_issues. simpl. destruct (Py.contains k2 fields); simpl; [reflexivity|].
      rewrite count_cons, flags_field_message.
      destruct (String.eqb_spec k2 k) as [->|]; [|now rewrite andb_false_r].
      exfalso. apply Hk. change k with (fst (k, v2)). now apply in_map.
  - rewrite IH; auto.
    replace (count (flags_field file k) (key_issues fields file (k', v))) with 0; [reflexivity|].
    unfold key_issues. simpl. destruct (Py.contains k' fields); simpl; [reflexivity|].
    rewrite count_cons, flags_field_message.
    destruct (String.eqb_spec k' k) as [->|]; [|now rewrite andb_false_r].
    contradiction.
Qed.

Lemma count_flags_other_sample (fields : Py.dict GoStructField) (file k : string)
      (e : BrunoEvent) :
  file_of e <> file ->
  count (flags_field file k) (payload_issues fields e) = 0.
Proof.
  intros Hf. unfold payload_issues. destruct (negb (has_key "type" e)).
  - reflexivity.
  - now apply count_flags_key_issues.
Qed.

Lemma payload_issues_about (fields : Py.dict GoStructField) (e : BrunoEvent) (i : issue) :
  In i (payload_issues fields e) ->
  is_error i = true /\ message_file (message_of i) = Some (file_of e).
Proof.
  unfold payload_issues. destruct (negb (has_key "type" e)).
  - intros [<-|[]]. now split.
  - rewrite in_flat_map. intros ([k v] & _ & Hi). revert Hi.
    unfold key_issues, field_message. simpl.
    destruct (Py.contains k fields); simpl; [intros []|].
    intros [<-|[]].
    destruct (String.eqb k "event_type"); [| destruct (String.eqb k "guid")];
      now split.
Qed.

Lemma names_file_other (file : string) (i : issue) (f : string) :
  message_file (message_of i) = Some f -> f <> file -> names_file file i = false.
Proof.
  unfold names_file. intros -> Hf. now apply String.eqb_neq.
Qed.

Lemma payload_issues_other_sample (p : issue -> bool) (fields : Py.dict GoStructField)
      (file : string) (e : BrunoEvent) :
  (forall i, p i = true -> names_file file i = true) ->
  file_of e <> file ->
  count p (payload_issues fields e) = 0.
Proof.
  intros Hp Hf. apply count_zero_iff. intros i Hi.
  destruct (payload_issues_about _ _ _ Hi) as [_ Hm].
  destruct (p i) eqn:Hpi; [|reflexivity].
  apply Hp in Hpi. now rewrite (names_file_other _ _ _ Hm Hf) in Hpi.
Qed.

Lemma distinct_NoDup (l : list string) : distinct l = true -> NoDup l.
Proof.
  induction l as [|x l IH]; simpl; intros H; constructor;
    apply andb_prop in H as [Hx Hl].
  - intros Hin. apply negb_true_iff in Hx.
    assert (existsb (String.eqb x) l = true); [|congruence].
    apply existsb_exists. exists x. split; [assumption | apply String.eqb_refl].
  - now apply IH.
Qed.

Lemma flags_names_file (file k : string) (i : issue) :
  flags_field file k i = true -> names_file file i = true.
Proof.
  destruct i as [[]|]; simpl; try discriminate; unfold names_file; simpl;
    intros H; apply andb_prop in H; tauto.
Qed.

Lemma missing_type_names_file (file : string) (i : issue) :
  is_missing_type file i = true -> names_file file i = true.
Proof. destruct i as [[]|]; simpl; try discriminate. auto. Qed.

Lemma has_key_In (k : string) (v : json) (e : BrunoEvent) :
  In (k, v) (payload e) -> has_key k e = true.
Proof.
  intros H. unfold has_key, Py.contains. apply existsb_exists.
  exists (k, v). split; [assumption | apply String.eqb_refl].
Qed.

(** How often the pass flags a key of a sample that has the [type] key. *)
Lemma count_flags_sample (fields : Py.dict GoStructField) (l : list BrunoEvent)
      (e : BrunoEvent) (k : string) :
  NoDup (file_names l) -> In e l -> has_key "type" e = true ->
  NoDup (Py.keys (payload e)) -> In k (Py.keys (payload e)) ->
  count (flags_field (file_of e) k) (flat_map (payload_issues fields) l)
  = if Py.contains k fields then 0 else 1.
Proof.
  intros Hnames He Htype Hkeys Hk.
  rewrite (count_flat_map_unique _ file_of _ _ e Hnames He).
  - unfold payload_issues. rewrite Htype. simpl.
    now apply count_flags_payload.
  - intros x _ Hx. now apply count_flags_other_sample.
Qed.

(** C1 (amended): in [validate_bruno_payloads], for a loaded sample that
    has the [type] key and for any key of its payload, the pass records
    exactly one field-membership Error naming the file and the key when
    the key is absent from the schema mapping, and none when the schema
    has the key.  The test is the same for every key: [type] has no
    exemption of its own. *)
Theorem C1_field_membership (self : EventSystemAuditor) (e : BrunoEvent) (k : string) :
  NoDup (file_names (bruno_events self)) ->
  In e (bruno_events self) ->
  has_key "type" e = true ->
  NoDup (Py.keys (payload e)) ->
  In k (Py.keys (payload e)) ->
  count (flags_field (file_of e) k) (recorded validate_bruno_payloads self)
  = if Py.contains k (go_fields self) then 0 else 1.
Proof.
  intros Hnames He Htype Hkeys Hk.
  rewrite recorded_validate_bruno_payloads.
  now apply count_flags_sample.
Qed.

Lemma C1_field_membership_witness :
  count (flags_field "Jump.bru" "height")
        (recorded validate_bruno_payloads ex_schema_auditor) = 1.
Proof.
  apply (C1_field_membership ex_schema_auditor ex_jump_height "height").
  - apply distinct_NoDup. reflexivity.
  - now left.
  - reflexivity.
  - apply distinct_NoDup. reflexivity.
  - right. now left.
Defined.

(** C1, as stated, fails: with a schema that does not declare [type] (the
    mapping is empty when the schema source is missing), the [type] key of
    a sample is flagged as an unknown field. *)
Lemma C1_counterexample :
  In ex_jump (bruno_events ex_no_schema_auditor)
  /\ has_key "type" ex_jump = true
  /\ In "type" (Py.keys (payload ex_jump))
  /\ recorded validate_bruno_payloads ex_no_schema_auditor
     = [Error (UnknownField "Jump.bru" "type")]
  /\ ~ (count (flags_field (file_of ex_jump) "type")
               (recorded validate_bruno_payloads ex_no_schema_auditor) = 1
        <-> "type" <> "type"
            /\ Py.contains "type" (go_fields ex_no_schema_auditor) = false).
Proof.
  split; [now left|]. split; [reflexivity|]. split; [now left|].
  split; [reflexivity|]. intros [H _].
  assert (Hone : count (flags_field (file_of ex_jump) "type")
                       (recorded validate_bruno_payloads ex_no_schema_auditor) = 1)
    by reflexivity.
  destruct (H Hone) as [Hne _]. now apply Hne.
Qed.

(** C7: in [validate_bruno_payloads], a loaded sample without the [type]
    key gets exactly one Error, the missing-type one, and none of its keys
    is flagged; a loaded sample whose [type] is the empty string gets no
    missing-type Error and each of its keys is flagged exactly when the
    schema lacks it. *)
Theorem C7_missing_type_short_circuits (self : EventSystemAuditor) (e : BrunoEvent) :
  NoDup (file_names (bruno_events self)) ->
  In e (bruno_events self) ->
  (has_key "type" e = false ->
   count (fun i => is_error i && names_file (file_of e) i)
         (recorded validate_bruno_payloads self) = 1
   /\ count (is_missing_type (file_of e)) (recorded validate_bruno_payloads self) = 1
   /\ forall k, count (flags_field (file_of e) k)
                      (recorded validate_bruno_payloads self) = 0)
  /\ (In ("type", JStr EmptyString) (payload e) ->
      NoDup (Py.keys (payload e)) ->
      count (is_missing_type (file_of e)) (recorded validate_bruno_payloads self) = 0
      /\ forall k, In k (Py.keys (payload e)) ->
                   count (flags_field (file_of e) k)
                         (recorded validate_bruno_payloads self)
                   = if Py.contains k (go_fields self) then 0 else 1).
Proof.
  intros Hnames He. rewrite recorded_validate_bruno_payloads. split.
  - intros Hno.
    assert (Hiss : payload_issues (go_fields self) e = [Error (MissingTypeField (file_of e))]).
    { unfold payload_issues. now rewrite Hno. }
    repeat apply conj; [| |intros k];
      rewrite (count_flat_map_unique _ file_of _ _ e Hnames He); rewrite ?Hiss.
    + unfold count, names_file. simpl. now rewrite String.eqb_refl.
    + intros x _ Hx. apply payload_issues_other_sample with (file := file_of e); auto.
      intros i Hi. now apply andb_prop in Hi.
    + unfold count. simpl. now rewrite String.eqb_refl.
    + intros x _ Hx. apply payload_issues_other_sample with (file := file_of e); auto.
      apply missing_type_names_file.
    + reflexivity.
    + intros x _ Hx. now apply count_flags_other_sample.
  - intros Hty Hkeys. pose proof (has_key_In _ _ _ Hty) as Hhas. split.
    + rewrite (count_flat_map_unique _ file_of _ _ e Hnames He).
      * unfold payload_issues. rewrite Hhas. simpl.
        apply count_flat_map_zero. intros [k v] _. unfold key_issues, field_message. simpl.
        destruct (Py.contains k (go_fields self)); simpl; [reflexivity|].
        destruct (String.eqb k "event_type"); [|destruct (String.eqb k "guid")];
          reflexivity.
      * intros x _ Hx. apply payload_issues_other_sample with (file := file_of e); auto.
        apply missing_type_names_file.
    + intros k Hk. now apply count_flags_sample.
Qed.

Lemma C7_missing_type_short_circuits_witness :
  (count (fun i => is_error i && names_file "Jump.bru" i)
         (recorded validate_bruno_payloads ex_type_auditor) = 1
   /\ count (is_missing_type "Jump.bru") (recorded validate_bruno_payloads ex_type_auditor) = 1
   /\ forall k, count (flags_field "Jump.bru" k)
                      (recorded validate_bruno_payloads ex_type_auditor) = 0)
  /\ (count (is_missing_type "Walk.bru") (recorded validate_bruno_payloads ex_type_auditor) = 0
      /\ forall k, In k (Py.keys (payload ex_empty_type)) ->
                   count (flags_field "Walk.bru" k)
                         (recorded validate_bruno_payloads ex_type_auditor)
                   = if Py.contains k (go_fields ex_type_auditor) then 0 else 1).
Proof.
  assert (Hnames : NoDup (file_names (bruno_events ex_type_auditor))).
  { apply distinct_NoDup. reflexivity. }
  split.
  - apply (C7_missing_type_short_circuits ex_type_auditor ex_untyped Hnames);
      [now left | reflexivity].
  - apply (C7_missing_type_short_circuits ex_type_auditor ex_empty_type Hnames);
      [right; now left | now left |].
    apply distinct_NoDup. reflexivity.
Defined.

(* ------------------------------------------------------------------ *)
(** ** Identity references: [validate_guid_fields] *)

(** The pass has recorded the issues of the samples that precede the
    first one on which it raises, or of all when it returns. *)
Lemma validate_guid_fields_prefix (self : EventSystemAuditor) :
  exists l1 l2,
    bruno_events self = l1 ++ l2
    /\ logged (flat_map guid_issues l1) self (final (validate_guid_fields self))
    /\ forallb (fun e => negb (guid_raises e)) l1 = true
    /\ (if completes (validate_guid_fields self) then l2 = []
        else exists e l2', l2 = e :: l2' /\ guid_raises e = true).
Proof.
  remember (validate_guid_fields self) as o eqn:Ho.
  unfold validate_guid_fields, bind at 1 in Ho. simpl in Ho. unfold bind at 1 in Ho.
  match type of Ho with
  | context [for_each ?l ?b ?a ?s] =>
      assert (Hstep : forall acc x s',
                 if guid_raises x then exists y, b acc x s' = Raises y s'
                 else exists acc' s'',
                     b acc x s' = Returns acc' s'' /\ logged (guid_issues x) s' s'');
      [ clear Ho
      | destruct (for_each_prefix guid_issues guid_raises b Hstep l a s)
          as (l1 & l2 & Hsplit & Hlog & Hs & Hc);
        exists l1, l2; clear Hstep;
        destruct (for_each l b a s) as [found s1|x s1] ]
  end.
  - intros found e s. unfold guid_raises, guid_issues, has_key, file_of.
    generalize combat_events, single_player_events. intros combat single.
    destruct (Py.contains "guid" (payload e)); simpl.
    + unfold bind, results_add_error, ret. eexists _, _.
      split; [reflexivity | apply logged_add_error].
    + unfold in_set, Py.in_literal, is_one_of.
      destruct (Py.hashable (event_type e)); simpl.
      * unfold bind at 1. unfold ret at 1.
        match goal with
        | |- context [existsb ?f combat] => destruct (existsb f combat)
        end.
        -- destruct (negb _); unfold bind, results_add_warning, ret; eexists _, _;
             (split; [reflexivity | first [apply logged_add_warning | apply logged_refl]]).
        -- unfold bind at 1. unfold ret at 1.
           match goal with
           | |- context [existsb ?f single] => destruct (existsb f single)
           end.
           ++ destruct (negb _); unfold bind, results_add_warning, ret; eexists _, _;
                (split; [reflexivity | first [apply logged_add_warning | apply logged_refl]]).
           ++ unfold ret. eexists _, _. split; [reflexivity | apply logged_refl].
      * unfold bind, raise. eexists. reflexivity.
  - simpl in Hlog, Hc. split; [assumption|].
    unfold bind, get in Ho. simpl in Ho.
    destruct (_ && _) in Ho; subst o; simpl; (split; [|split; assumption]).
    + rewrite <- (app_nil_r (flat_map _ _)).
      eapply logged_trans; [eassumption | apply logged_add_pass].
    + assumption.
  - subst o. simpl in *. tauto.
Qed.

Lemma validate_guid_fields_logged (self : EventSystemAuditor) :
  (forall e, In e (bruno_events self) -> Py.hashable (event_type e) = true) ->
  completes (validate_guid_fields self) = true
  /\ logged (flat_map guid_issues (bruno_events self)) self
            (final (validate_guid_fields self)).
Proof.
  intros Hh.
  destruct (validate_guid_fields_prefix self) as (l1 & l2 & Hsplit & Hlog & _ & Hc).
  destruct (completes (validate_guid_fields self)).
  - subst l2. rewrite app_nil_r in Hsplit. rewrite Hsplit. now split.
  - destruct Hc as (e & l2' & -> & He). exfalso.
    assert (Hin : In e (bruno_events self)).
    { rewrite Hsplit. apply in_or_app. right. now left. }
    apply Hh in Hin. unfold guid_raises in He. rewrite Hin in He.
    now rewrite andb_false_r in He.
Qed.

Lemma guid_issues_about (e : BrunoEvent) (i : issue) :
  In i (guid_issues e) -> message_file (message_of i) = Some (file_of e).
Proof.
  unfold guid_issues.
  destruct (has_key "guid" e); [intros [<-|[]]; reflexivity|].
  destruct (is_one_of combat_events (event_type e)).
  - destruct (negb _); [intros [<-|[]]; reflexivity | intros []].
  - destruct (is_one_of single_player_events (event_type e)); [|intros []].
    destruct (negb _); [intros [<-|[]]; reflexivity | intros []].
Qed.

Lemma guid_issues_other_sample (p : issue -> bool) (file : string) (e : BrunoEvent) :
  (forall i, p i = true -> names_file file i = true) ->
  file_of e <> file ->
  count p (guid_issues e) = 0.
Proof.
  intros Hp Hf. apply count_zero_iff. intros i Hi.
  apply guid_issues_about in Hi.
  destruct (p i) eqn:Hpi; [|reflexivity].
  apply Hp in Hpi. now rewrite (names_file_other _ _ _ Hi Hf) in Hpi.
Qed.

Lemma NoDup_map_inj {X} (key : X -> string) (l : list X) (x y : X) :
  NoDup (map key l) -> In x l -> In y l -> key x = key y -> x = y.
Proof.
  induction l as [|z l IH]; simpl; intros Hnd Hx Hy Heq; [contradiction|].
  inversion Hnd as [|? ? Hz Hnd']; subst.
  destruct Hx as [->|Hx], Hy as [->|Hy]; auto.
  - exfalso. apply Hz. rewrite Heq. now apply in_map.
  - exfalso. apply Hz. rewrite <- Heq. now apply in_map.
Qed.

(** Over a prefix of the corpus, a count that is zero on the issues of
    the sample itself and only counts issues naming its file is zero. *)
Lemma count_guid_prefix_zero (p : issue -> bool) (l l1 l2 : list BrunoEvent)
      (e : BrunoEvent) :
  l = l1 ++ l2 -> NoDup (file_names l) -> In e l ->
  (forall i, p i = true -> names_file (file_of e) i = true) ->
  count p (guid_issues e) = 0 ->
  count p (flat_map guid_issues l1) = 0.
Proof.
  intros -> Hnd He Hp Hz. apply count_flat_map_zero. intros x Hx.
  destruct (String.eqb_spec (file_of x) (file_of e)) as [Heq|Hne].
  - assert (x = e) as ->; [|assumption].
    eapply (NoDup_map_inj file_of); eauto. apply in_or_app. now left.
  - now apply guid_issues_other_sample with (file := file_of e).
Qed.

Lemma bare_guid_origin (file : string) (e : BrunoEvent) (i : issue) :
  In i (guid_issues e) -> is_bare_guid file i = true ->
  has_key "guid" e = true /\ file_of e = file.
Proof.
  unfold guid_issues. destruct (has_key "guid" e).
  - intros [<-|[]]. simpl. intros H. split; [reflexivity | now apply String.eqb_eq].
  - destruct (is_one_of combat_events (event_type e)).
    + destruct (negb _); [intros [<-|[]]; discriminate | intros []].
    + destruct (is_one_of single_player_events (event_type e)); [|intros []].
      destruct (negb _); [intros [<-|[]]; discriminate | intros []].
Qed.

Lemma guid_issues_bare (e : BrunoEvent) :
  has_key "guid" e = true -> guid_issues e = [Error (UsesAmbiguousGuid (file_of e))].
Proof. unfold guid_issues. now intros ->. Qed.


Lemma warning_names_file (file : string) (i : issue) :
  is_warning i && names_file file i = true -> names_file file i = true.
Proof. intros H. now apply andb_prop in H. Qed.

Lemma count_positive (p : issue -> bool) (l : list issue) :
  count p l > 0 -> exists i, In i l /\ p i = true.
Proof.
  intros H. destruct (filter p l) as [|i t] eqn:E.
  - unfold count in H. rewrite E in H. simpl in H. lia.
  - exists i. apply filter_In. rewrite E. now left.
Qed.

Lemma count_bare_guid_sample (l : list BrunoEvent) (e : BrunoEvent) :
  NoDup (file_names l) -> In e l -> has_key "guid" e = true ->
  count (names_file (file_of e)) (flat_map guid_issues l) = 1
  /\ count (is_bare_guid (file_of e)) (flat_map guid_issues l) = 1.
Proof.
  intros Hnames He Hg. split.
  - rewrite (count_flat_map_unique _ file_of _ _ e Hnames He).
    + rewrite (guid_issues_bare e Hg). unfold count, names_file. simpl.
      now rewrite String.eqb_refl.
    + intros x _ Hx. now apply guid_issues_other_sample with (file := file_of e).
  - rewrite (count_flat_map_unique _ file_of _ _ e Hnames He).
    + rewrite (guid_issues_bare e Hg). unfold count. simpl.
      now rewrite String.eqb_refl.
    + intros x _ Hx. apply guid_issues_other_sample with (file := file_of e); auto.
      intros [[]|] Hi; try discriminate. exact Hi.
Qed.

(** C2 (amended): in the identity pass [validate_guid_fields], a loaded
    sample whose payload has the bare [guid] key gets exactly one issue,
    the bare-identity Error, whatever its event type and whatever the
    schema holds, provided no sample has a list or an object as its type
    (on such a value the pass raises).  The claim counts over the entire
    run, where the sample can get further Errors from the field-membership
    pass. *)
Theorem C2_bare_guid_identity_pass (self : EventSystemAuditor) (e : BrunoEvent) :
  NoDup (file_names (bruno_events self)) ->
  (forall x, In x (bruno_events self) -> Py.hashable (event_type x) = true) ->
  In e (bruno_events self) ->
  has_key "guid" e = true ->
  completes (validate_guid_fields self) = true
  /\ count (names_file (file_of e)) (recorded validate_guid_fields self) = 1
  /\ count (is_bare_guid (file_of e)) (recorded validate_guid_fields self) = 1.
Proof.
  intros Hnames Hh He Hg.
  destruct (validate_guid_fields_logged self Hh) as [Hc Hlog].
  split; [assumption|].
  rewrite (recorded_logged _ _ _ Hlog).
  now apply count_bare_guid_sample.
Qed.

Lemma C2_bare_guid_identity_pass_witness :
  completes (validate_guid_fields ex_guid_auditor) = true
  /\ count (names_file "Jump.bru") (recorded validate_guid_fields ex_guid_auditor) = 1
  /\ count (is_bare_guid "Jump.bru") (recorded validate_guid_fields ex_guid_auditor) = 1.
Proof.
  apply (C2_bare_guid_identity_pass ex_guid_auditor ex_jump_guid).
  - apply distinct_NoDup. reflexivity.
  - intros x [<-|[]]. reflexivity.
  - now left.
  - reflexivity.
Defined.

(** C2, as stated, fails: over the entire run a sample with the bare
    [guid] key gets two Errors when the schema lacks [guid], one from the
    field-membership pass and one from the identity pass. *)
Lemma C2_counterexample :
  map (fun e => (file_of e, payload e))
      (bruno_events
         (final (run_audit example_json_loads (init (example_repository ex_guid_files)))))
  = [("Jump.bru", [("type", JStr "jump"); ("guid", JStr "abc")])]
  /\ errors (results
               (final (run_audit example_json_loads
                         (init (example_repository ex_guid_files)))))
     = [Error (AmbiguousGuidField "Jump.bru");
        Error (UsesAmbiguousGuid "Jump.bru");
        Error (EventCountMismatch 1 1 1 105)]
  /\ count (fun i => is_error i && names_file "Jump.bru" i)
           (errors (results
                      (final (run_audit example_json_loads
                                (init (example_repository ex_guid_files)))))) = 2.
Proof. vm_compute. repeat split. Qed.




(** C10: a loaded sample with the bare [guid] key gets no Warning from
    [validate_guid_fields]; the pass records its bare-identity Error at
    most once, and exactly once when no sample has a list or an object as
    its type; and no file is named both by a bare-identity Error and by a
    Warning of the pass. *)
Theorem C10_bare_guid_excludes_warnings (self : EventSystemAuditor) (e : BrunoEvent) :
  NoDup (file_names (bruno_events self)) ->
  In e (bruno_events self) ->
  has_key "guid" e = true ->
  count (fun i => is_warning i && names_file (file_of e) i)
        (recorded validate_guid_fields self) = 0
  /\ count (is_bare_guid (file_of e)) (recorded validate_guid_fields self) <= 1
  /\ ((forall x, In x (bruno_events self) -> Py.hashable (event_type x) = true) ->
      count (is_bare_guid (file_of e)) (recorded validate_guid_fields self) = 1)
  /\ (forall file,
         count (is_bare_guid file) (recorded validate_guid_fields self) > 0 ->
         count (fun i => is_warning i && names_file file i)
               (recorded validate_guid_fields self) = 0).
Proof.
  intros Hnames He Hg.
  destruct (validate_guid_fields_prefix self) as (l1 & l2 & Hsplit & Hlog & _ & _).
  rewrite (recorded_logged _ _ _ Hlog).
  assert (Hnow : forall x, In x (bruno_events self) -> has_key "guid" x = true ->
                 count (fun i => is_warning i && names_file (file_of x) i)
                       (flat_map guid_issues l1) = 0).
  { intros x Hx Hgx.
    apply (count_guid_prefix_zero _ (bruno_events self) l1 l2 x); auto.
    - intros i. apply warning_names_file.
    - now rewrite guid_issues_bare. }
  split; [now apply Hnow|]. split; [|split].
  - destruct (in_dec string_dec (file_of e) (file_names l1)) as [Hin|Hout].
    + unfold file_names in Hin. apply in_map_iff in Hin as (x & Hfx & Hx).
      assert (x = e) as ->.
      { eapply (NoDup_map_inj file_of); eauto. rewrite Hsplit.
        apply in_or_app. now left. }
      assert (Hnd1 : NoDup (file_names l1)).
      { unfold file_names in *. rewrite Hsplit, map_app in Hnames.
        now apply NoDup_app_remove_r in Hnames. }
      rewrite (count_flat_map_unique _ file_of _ _ e Hnd1 Hx).
      * rewrite guid_issues_bare; auto. unfold count. simpl.
        rewrite String.eqb_refl. simpl. lia.
      * intros x _ Hne. apply guid_issues_other_sample with (file := file_of e); auto.
        intros [[]|] Hi; try discriminate. exact Hi.
    + rewrite count_flat_map_zero; [lia|].
      intros x Hx. apply guid_issues_other_sample with (file := file_of e).
      * intros [[]|] Hi; try discriminate. exact Hi.
      * intros Heq. apply Hout. rewrite <- Heq. unfold file_names. now apply in_map.
  - intros Hh. destruct (validate_guid_fields_logged self Hh) as [_ Hall].
    rewrite <- (recorded_logged _ _ _ Hlog), (recorded_logged _ _ _ Hall).
    now apply count_bare_guid_sample.
  - intros file Hpos. apply count_positive in Hpos as (i & Hi & Hb).
    apply in_flat_map in Hi as (x & Hx & Hi).
    destruct (bare_guid_origin file x i Hi Hb) as [Hgx <-].
    apply Hnow; auto. rewrite Hsplit. apply in_or_app. now left.
Qed.

Lemma C10_bare_guid_excludes_warnings_witness :
  count (fun i => is_warning i && names_file "Kill.bru" i)
        (recorded validate_guid_fields ex_kill_auditor) = 0
  /\ count (is_bare_guid "Kill.bru") (recorded validate_guid_fields ex_kill_auditor) <= 1
  /\ ((forall x, In x (bruno_events ex_kill_auditor) ->
                 Py.hashable (event_type x) = true) ->
      count (is_bare_guid "Kill.bru") (recorded validate_guid_fields ex_kill_auditor) = 1)
  /\ (forall file,
         count (is_bare_guid file) (recorded validate_guid_fields ex_kill_auditor) > 0 ->
         count (fun i => is_warning i && names_file file i)
               (recorded validate_guid_fields ex_kill_auditor) = 0).
Proof.
  apply (C10_bare_guid_excludes_warnings ex_kill_auditor ex_kill_guid).
  - apply distinct_NoDup. reflexivity.
  - right. now left.
  - reflexivity.
Defined.

(* ------------------------------------------------------------------ *)
(** ** Counts and coverage: [validate_event_counts] *)

Lemma flat_map_singleton {X} (f : X -> issue) (l : list X) :
  flat_map (fun x => [f x]) l = map f l.
Proof. induction l as [|x l IH]; simpl; [reflexivity | now rewrite IH]. Qed.

Lemma validate_event_counts_logged (self : EventSystemAuditor) :
  logged (count_issues self ++ coverage_issues self) self
         (final (validate_event_counts self))
  /\ completes (validate_event_counts self)
     = match extra_in_bruno self with
       | [] => true
       | _ => match Py.sorted (extra_in_bruno self) with Some _ => true | None => false end
       end.
Proof.
  remember (validate_event_counts self) as o eqn:Ho.
  unfold validate_event_counts, bind at 1 in Ho. simpl in Ho.
  fold (missing_in_bruno self) in Ho.
  change (filter (fun v : json =>
                    negb (existsb (fun t : string => Py.eqb v (JStr t))
                            (event_types_go self)))
                 (event_types_bruno self))
    with (extra_in_bruno self) in Ho.
  unfold bind at 1 in Ho.
  assert (H1 : exists s1,
             (if ((List.length (event_types_go self) =? expected_count)
                  && (List.length (event_types_bruno self) =? expected_count)
                  && (List.length (bruno_events self) =? expected_count))%nat
              then results_add_pass
              else results_add_error
                     (EventCountMismatch (List.length (event_types_go self))
                        (List.length (event_types_bruno self))
                        (List.length (bruno_events self)) expected_count)) self
             = Returns tt s1 /\ logged (count_issues self) self s1).
  { unfold count_issues, all_match. destruct (_ && _).
    - eexists. split; [reflexivity | apply logged_add_pass].
    - eexists. split; [reflexivity | apply logged_add_error]. }
  destruct H1 as (s1 & E1 & L1). rewrite E1 in Ho. clear E1.
  unfold bind at 1 in Ho.
  assert (H2 : exists s2,
             (if nonempty (missing_in_bruno self)
              then for_each (Text.sorted_str (missing_in_bruno self))
                     (fun (_ : unit) event => results_add_error (MissingInBruno event)) tt
              else ret tt) s1
             = Returns tt s2
             /\ logged (map (fun t => Error (MissingInBruno t))
                           (Text.sorted_str (missing_in_bruno self))) s1 s2).
  { destruct (missing_in_bruno self) as [|t l] eqn:Em.
    - simpl. eexists. split; [reflexivity | apply logged_refl].
    - cbv [nonempty]. rewrite <- flat_map_singleton.
      loop_logged (fun t => [Error (MissingInBruno t)]).
      + intros [] x s. eexists tt, _. split; [reflexivity | apply logged_add_error].
      + destruct acc. eexists. split; [reflexivity | assumption]. }
  destruct H2 as (s2 & E2 & L2). rewrite E2 in Ho. clear E2.
  pose proof (logged_trans _ _ _ _ _ L1 L2) as L12.
  unfold coverage_issues.
  destruct (extra_in_bruno self) as [|v l] eqn:Ee.
  - simpl in Ho. subst o. simpl. rewrite app_nil_r. now split.
  - cbv [nonempty] in Ho. destruct (Py.sorted (v :: l)) as [l'|] eqn:Es.
    + rewrite <- flat_map_singleton.
      match type of Ho with
      | context [for_each ?xs ?b ?a ?s] =>
          assert (Hstep : forall acc x s', exists acc' s'',
                     b acc x s' = Returns acc' s''
                     /\ logged ((fun v => [Error (ExtraInBruno v)]) x) s' s'');
          [ | destruct (for_each_logged (fun v => [Error (ExtraInBruno v)]) b Hstep xs a s)
                as (acc3 & s3 & E3 & L3) ]
      end.
      * intros [] x s. eexists tt, _. split; [reflexivity | apply logged_add_error].
      * rewrite E3 in Ho. subst o. simpl. split; [|reflexivity].
        rewrite app_assoc. eapply logged_trans; eauto.
    + subst o. simpl. rewrite app_nil_r. now split.
Qed.

Lemma recorded_validate_event_counts (self : EventSystemAuditor) :
  recorded validate_event_counts self = count_issues self ++ coverage_issues self.
Proof. apply recorded_logged. apply validate_event_counts_logged. Qed.

(** *** Equality and sets of Python values *)

Lemma eqb_str_r (v : json) (t : string) : Py.eqb v (JStr t) = true -> v = JStr t.
Proof.
  destruct v; simpl; try discriminate.
  intros H. apply String.eqb_eq in H. now subst.
Qed.

Lemma eqb_str_l (v : json) (t : string) : Py.eqb (JStr t) v = true -> v = JStr t.
Proof.
  destruct v; simpl; try discriminate.
  intros H. apply String.eqb_eq in H. now subst.
Qed.

Lemma eqb_refl (v : json) : Py.hashable v = true -> Py.eqb v v = true.
Proof.
  destruct v; simpl; try discriminate; intros _;
    try reflexivity; try (apply Qeq_bool_iff; reflexivity).
  apply String.eqb_refl.
Qed.

Lemma mem_In (v : json) (s : list json) :
  Py.hashable v = true -> In v s -> Py.mem v s = true.
Proof.
  intros Hh Hin. apply existsb_exists. exists v. split; [assumption | now apply eqb_refl].
Qed.

Lemma mem_str (t : string) (s : list json) :
  Py.mem (JStr t) s = true <-> In (JStr t) s.
Proof.
  split.
  - intros H. apply existsb_exists in H as (v & Hv & He).
    apply eqb_str_l in He. now subst.
  - now apply mem_In.
Qed.

Lemma is_one_of_str (t : string) (s : list string) :
  is_one_of s (JStr t) = true <-> In t s.
Proof.
  unfold is_one_of. rewrite existsb_exists. split.
  - intros (t' & Ht & He). simpl in He. apply String.eqb_eq in He. now subst.
  - intros H. exists t. split; [assumption | apply String.eqb_refl].
Qed.

Lemma mem_add (v w : json) (s : list json) :
  Py.mem v s = true -> Py.mem v (Py.add w s) = true.
Proof.
  unfold Py.add. destruct (Py.mem w s); [auto|].
  unfold Py.mem. rewrite existsb_app. now intros ->.
Qed.

Lemma mem_add_same (v : json) (s : list json) :
  Py.hashable v = true -> Py.mem v (Py.add v s) = true.
Proof.
  intros Hh. unfold Py.add. destruct (Py.mem v s) eqn:E; [assumption|].
  unfold Py.mem. rewrite existsb_app. simpl. rewrite (eqb_refl v Hh).
  now rewrite orb_true_r.
Qed.

Lemma In_add (v w : json) (s : list json) :
  In v (Py.add w s) -> In v s \/ v = w.
Proof.
  unfold Py.add. destruct (Py.mem w s); [auto|].
  intros H. apply in_app_or in H as [H|[H|[]]]; auto.
Qed.

Lemma NoDup_add (v : json) (s : list json) :
  Py.hashable v = true -> NoDup s -> NoDup (Py.add v s).
Proof.
  intros Hh Hnd. unfold Py.add. destruct (Py.mem v s) eqn:E; [assumption|].
  apply NoDup_app; [assumption | repeat constructor; intros [] | ].
  intros x Hx [<-|[]]. rewrite (mem_In v s Hh Hx) in E. discriminate.
Qed.

(** *** The observed set of a corpus *)

Lemma observed_from_In (l : list BrunoEvent) (s : list json) (v : json) :
  In v (fold_left observe_step l s) ->
  In v s \/ exists e, In e l /\ event_type e = v.
Proof.
  revert s. induction l as [|e l IH]; simpl; intros s H; [auto|].
  apply IH in H as [H|(e' & He' & Hv)].
  - unfold observe_step in H. destruct (Py.hashable (event_type e)); [|auto].
    apply In_add in H as [H| ->]; [auto|]. right. exists e. auto.
  - right. exists e'. auto.
Qed.

Lemma observed_from_NoDup (l : list BrunoEvent) (s : list json) :
  NoDup s -> NoDup (fold_left observe_step l s).
Proof.
  revert s. induction l as [|e l IH]; simpl; intros s H; [assumption|].
  apply IH. unfold observe_step.
  destruct (Py.hashable (event_type e)) eqn:Hh; [now apply NoDup_add | assumption].
Qed.

Lemma observed_from_keeps (l : list BrunoEvent) (s : list json) (v : json) :
  Py.mem v s = true -> Py.mem v (fold_left observe_step l s) = true.
Proof.
  revert s. induction l as [|e l IH]; simpl; intros s H; [assumption|].
  apply IH. unfold observe_step.
  destruct (Py.hashable (event_type e)); [now apply mem_add | assumption].
Qed.

Lemma observed_from_mem (l : list BrunoEvent) (s : list json) (e : BrunoEvent) :
  In e l -> Py.hashable (event_type e) = true ->
  Py.mem (event_type e) (fold_left observe_step l s) = true.
Proof.
  revert s. induction l as [|x l IH]; simpl; intros s Hin Hh; [contradiction|].
  destruct Hin as [->|Hin]; [|now apply IH].
  apply observed_from_keeps. unfold observe_step. rewrite Hh. now apply mem_add_same.
Qed.

Lemma observed_In (l : list BrunoEvent) (v : json) :
  In v (observed l) -> exists e, In e l /\ event_type e = v.
Proof.
  intros H. apply (observed_from_In l [] v) in H as [[]|H]. exact H.
Qed.

Lemma observed_NoDup (l : list BrunoEvent) : NoDup (observed l).
Proof. apply (observed_from_NoDup l []). constructor. Qed.

Lemma observed_str (l : list BrunoEvent) (t : string) :
  In (JStr t) (observed l) <-> exists e, In e l /\ event_type e = JStr t.
Proof.
  split; [apply observed_In|].
  intros (e & He & Ht). apply mem_str. rewrite <- Ht.
  apply (observed_from_mem l [] e He). now rewrite Ht.
Qed.

(** *** [sorted] keeps what it sorts *)

Lemma sorted_count (p : issue -> bool) (f : json -> issue) (l l' : list json) :
  Py.sorted l = Some l' -> count p (map f l') = count p (map f l).
Proof.
  unfold Py.sorted. destruct l as [|x [|y l]].
  - now intros [= <-].
  - now intros [= <-].
  - destruct (forallb Py.is_str (x :: y :: l)).
    + intros [= <-]. exact (count_sort Py.str_le f p (x :: y :: l)).
    + destruct (forallb Py.is_number (x :: y :: l)); [|discriminate].
      intros [= <-]. exact (count_sort Py.num_le f p (x :: y :: l)).
Qed.

Lemma sorted_In (l l' : list json) (v : json) :
  Py.sorted l = Some l' -> In v l' -> In v l.
Proof.
  unfold Py.sorted. destruct l as [|x [|y l]].
  - now intros [= <-].
  - now intros [= <-].
  - destruct (forallb Py.is_str (x :: y :: l)).
    + intros [= <-]. apply Permutation_in.
      exact (sort_perm _ Py.str_le (x :: y :: l)).
    + destruct (forallb Py.is_number (x :: y :: l)); [|discriminate].
      intros [= <-]. apply Permutation_in.
      exact (sort_perm _ Py.num_le (x :: y :: l)).
Qed.

Lemma sorted_strings (l : list json) :
  (forall v, In v l -> Py.is_str v = true) -> exists l', Py.sorted l = Some l'.
Proof.
  intros H. unfold Py.sorted. destruct l as [|x [|y l]]; eauto.
  replace (forallb Py.is_str (x :: y :: l)) with true; eauto.
  symmetry. now apply forallb_forall.
Qed.

Lemma count_map_none {X} (p : issue -> bool) (f : X -> issue) (l : list X) :
  (forall y, In y l -> p (f y) = false) -> count p (map f l) = 0.
Proof.
  intros H. apply count_zero_iff. intros i Hi.
  apply in_map_iff in Hi as (y & <- & Hy). now apply H.
Qed.

(** In a list without repetition, the element that the test singles out
    is counted once. *)
Lemma count_map_one {X} (p : issue -> bool) (f : X -> issue) (l : list X) (x : X) :
  NoDup l -> In x l -> p (f x) = true ->
  (forall y, In y l -> p (f y) = true -> y = x) ->
  count p (map f l) = 1.
Proof.
  induction l as [|z l IH]; simpl; intros Hnd Hin Hpx Huniq; [contradiction|].
  inversion Hnd as [|? ? Hz Hnd']; subst. rewrite count_cons.
  destruct Hin as [->|Hin].
  - rewrite Hpx, count_map_none; [reflexivity|].
    intros y Hy. destruct (p (f y)) eqn:E; [|reflexivity].
    exfalso. apply Hz. rewrite <- (Huniq y (or_intror Hy) E). exact Hy.
  - destruct (p (f z)) eqn:E.
    + exfalso. apply Hz. rewrite (Huniq z (or_introl eq_refl) E). exact Hin.
    + simpl. apply IH; auto.
Qed.

Lemma coverage_not_count_mismatch (self : EventSystemAuditor) :
  filter is_count_mismatch (coverage_issues self) = [].
Proof.
  unfold coverage_issues. rewrite filter_app.
  assert (H : forall {X} (f : X -> message) (l : list X),
             (forall x, is_count_mismatch (Error (f x)) = false) ->
             filter is_count_mismatch (map (fun x => Error (f x)) l) = []).
  { intros X f l Hf. induction l as [|x l IH]; [reflexivity|].
    cbn [filter map]. now rewrite Hf. }
  rewrite H by reflexivity.
  destruct (Py.sorted (extra_in_bruno self)); [|reflexivity].
  now rewrite H.
Qed.

(** C3: the count reconciliation of [validate_event_counts] records no
    issue when the number of canonical types, the number of distinct
    observed types and the number of loaded samples are all 105, and
    otherwise exactly one Error, which carries the three numbers (and the
    expected one).  The other issues that the method records are those of
    the type coverage. *)
Theorem C3_count_reconciliation (self : EventSystemAuditor) :
  filter is_count_mismatch (recorded validate_event_counts self)
  = if ((List.length (event_types_go self) =? 105)
        && (List.length (event_types_bruno self) =? 105)
        && (List.length (bruno_events self) =? 105))%nat
    then []
    else [Error (EventCountMismatch (List.length (event_types_go self))
                   (List.length (event_types_bruno self))
                   (List.length (bruno_events self)) 105)].
Proof.
  rewrite recorded_validate_event_counts, filter_app, coverage_not_count_mismatch.
  rewrite app_nil_r. unfold count_issues, all_match.
  change expected_count with 105.
  destruct (_ && _); reflexivity.
Qed.

Lemma count_issues_not_coverage (p : issue -> bool) (self : EventSystemAuditor) :
  (forall a b c d, p (Error (EventCountMismatch a b c d)) = false) ->
  count p (count_issues self) = 0.
Proof.
  intros H. unfold count_issues. destruct (all_match self); [reflexivity|].
  rewrite count_cons, H. reflexivity.
Qed.

Lemma NoDup_filter_list {X} (f : X -> bool) (l : list X) : NoDup l -> NoDup (filter f l).
Proof.
  induction 1 as [|x l Hx Hnd IH]; simpl; [constructor|].
  destruct (f x); [|assumption].
  constructor; [|assumption]. intros H. apply filter_In in H. tauto.
Qed.

Section Coverage.
Variable self : EventSystemAuditor.
Hypothesis types_distinct : NoDup (event_types_go self).
Hypothesis types_observed : event_types_bruno self = observed (bruno_events self).

Lemma missing_iff (t : string) :
  In t (missing_in_bruno self) <->
  In t (event_types_go self)
  /\ ~ exists e, In e (bruno_events self) /\ event_type e = JStr t.
Proof.
  unfold missing_in_bruno. rewrite filter_In, negb_true_iff, types_observed.
  rewrite <- observed_str, <- mem_str.
  destruct (Py.mem (JStr t) (observed (bruno_events self))); intuition congruence.
Qed.

Lemma extra_iff (t : string) :
  In (JStr t) (extra_in_bruno self) <->
  (exists e, In e (bruno_events self) /\ event_type e = JStr t)
  /\ ~ In t (event_types_go self).
Proof.
  unfold extra_in_bruno. rewrite filter_In, negb_true_iff, types_observed.
  rewrite observed_str, <- is_one_of_str.
  destruct (is_one_of (event_types_go self) (JStr t)); intuition congruence.
Qed.

Lemma count_missing_coverage (t : string) :
  count (is_missing_coverage t) (recorded validate_event_counts self)
  = if in_dec string_dec t (missing_in_bruno self) then 1 else 0.
Proof.
  rewrite recorded_validate_event_counts, count_app.
  rewrite count_issues_not_coverage by reflexivity.
  unfold coverage_issues. rewrite count_app. unfold Text.sorted_str.
  rewrite count_sort.
  replace (count (is_missing_coverage t)
             match Py.sorted (extra_in_bruno self) with
             | Some l => map (fun v => Error (ExtraInBruno v)) l
             | None => []
             end) with 0.
  2:{ symmetry. destruct (Py.sorted (extra_in_bruno self)); [|reflexivity].
      now apply count_map_none. }
  destruct (in_dec string_dec t (missing_in_bruno self)) as [Hin|Hout].
  - rewrite (count_map_one _ _ _ t); auto.
    + apply NoDup_filter_list. exact types_distinct.
    + simpl. apply String.eqb_refl.
    + intros y _ Hy. simpl in Hy. now apply String.eqb_eq in Hy.
  - rewrite count_map_none; [reflexivity|].
    intros y Hy. simpl. apply String.eqb_neq. intros ->. contradiction.
Qed.

Hypothesis types_are_strings :
  forall e, In e (bruno_events self) -> Py.is_str (event_type e) = true.

Lemma extra_strings (v : json) :
  In v (extra_in_bruno self) -> Py.is_str v = true.
Proof.
  unfold extra_in_bruno. rewrite filter_In, types_observed.
  intros [H _]. apply observed_In in H as (e & He & <-). now apply types_are_strings.
Qed.

Lemma count_unknown_type (t : string) :
  count (is_unknown_type t) (recorded validate_event_counts self)
  = if existsb (fun v => match v with JStr t' => String.eqb t' t | _ => false end)
               (extra_in_bruno self)
    then 1 else 0.
Proof.
  rewrite recorded_validate_event_counts, count_app.
  rewrite count_issues_not_coverage by reflexivity.
  unfold coverage_issues. rewrite count_app.
  rewrite count_map_none by reflexivity.
  destruct (sorted_strings (extra_in_bruno self) extra_strings) as (l' & Hs).
  rewrite Hs, (sorted_count _ _ _ _ Hs). simpl.
  match goal with |- _ = if ?b then _ else _ => destruct b eqn:E end.
  - apply existsb_exists in E as (v & Hv & Ht).
    destruct v; try discriminate. apply String.eqb_eq in Ht. subst s.
    apply (count_map_one _ _ _ (JStr t)); auto.
    + apply NoDup_filter_list. rewrite types_observed. apply observed_NoDup.
    + simpl. apply String.eqb_refl.
    + intros y _ Hy. simpl in Hy. destruct y; try discriminate.
      apply String.eqb_eq in Hy. now subst.
  - apply count_map_none. intros y Hy. simpl.
    destruct y; try reflexivity.
    destruct (String.eqb s t) eqn:Est; [|reflexivity].
    rewrite <- E. symmetry. apply existsb_exists. exists (JStr s). now split.
Qed.
End Coverage.

Lemma empty_list {X} (l : list X) : (forall x, ~ In x l) -> l = [].
Proof. destruct l as [|x l]; [reflexivity|]. intros H. destruct (H x). now left. Qed.

(** C4: in the type coverage of [validate_event_counts], on a loaded
    state (canonical set without repetition, observed set computed from
    the corpus): a canonical type that is the type of no loaded sample
    gets exactly one missing-coverage Error, and a covered one none; a
    type of a loaded sample that is not canonical gets exactly one
    unknown-type Error when the event types of the corpus are strings (the
    method sorts the extra types before it reports them), and a canonical
    one never gets any; when the observed set and the canonical set are
    equal, no coverage Error is recorded. *)
Theorem C4_type_coverage (self : EventSystemAuditor) :
  NoDup (event_types_go self) ->
  event_types_bruno self = observed (bruno_events self) ->
  (forall t, In t (event_types_go self) ->
             (forall e, In e (bruno_events self) -> event_type e <> JStr t) ->
             count (is_missing_coverage t) (recorded validate_event_counts self) = 1)
  /\ (forall t, (exists e, In e (bruno_events self) /\ event_type e = JStr t) ->
                count (is_missing_coverage t) (recorded validate_event_counts self) = 0)
  /\ ((forall e, In e (bruno_events self) -> Py.is_str (event_type e) = true) ->
      forall e t, In e (bruno_events self) -> event_type e = JStr t ->
                  ~ In t (event_types_go self) ->
                  count (is_unknown_type t) (recorded validate_event_counts self) = 1)
  /\ (forall t, In t (event_types_go self) ->
                count (is_unknown_type t) (recorded validate_event_counts self) = 0)
  /\ ((forall v, In v (event_types_bruno self) <->
                 exists t, In t (event_types_go self) /\ v = JStr t) ->
      count is_coverage (recorded validate_event_counts self) = 0).
Proof.
  intros Hgo Hobs. repeat apply conj.
  - intros t Ht Hnone. rewrite (count_missing_coverage self Hgo t).
    destruct (in_dec string_dec t (missing_in_bruno self)) as [|Hout]; [reflexivity|].
    exfalso. apply Hout. apply (missing_iff self Hobs). split; [assumption|].
    intros (e & He & Hte). now apply (Hnone e).
  - intros t Hsome. rewrite (count_missing_coverage self Hgo t).
    destruct (in_dec string_dec t (missing_in_bruno self)) as [Hin|]; [|reflexivity].
    apply (missing_iff self Hobs) in Hin. tauto.
  - intros Hstr e t He Hte Hnot. rewrite (count_unknown_type self Hobs Hstr t).
    match goal with |- (if ?b then _ else _) = _ => replace b with true end;
      [reflexivity|].
    symmetry. apply existsb_exists. exists (JStr t). split.
    + apply (extra_iff self Hobs). split; [|assumption]. now exists e.
    + apply String.eqb_refl.
  - intros t Ht. rewrite recorded_validate_event_counts, count_app.
    rewrite count_issues_not_coverage by reflexivity.
    unfold coverage_issues. rewrite count_app, count_map_none by reflexivity.
    destruct (Py.sorted (extra_in_bruno self)) as [l'|] eqn:Es; [|reflexivity].
    apply count_map_none. intros v Hv. apply (sorted_In _ _ _ Es) in Hv.
    destruct v; try reflexivity. simpl. apply String.eqb_neq. intros ->.
    apply (extra_iff self Hobs) in Hv. tauto.
  - intros Hsets. rewrite recorded_validate_event_counts, count_app.
    rewrite count_issues_not_coverage by reflexivity.
    unfold coverage_issues.
    assert (Hm : missing_in_bruno self = []).
    { apply empty_list. intros t Ht. unfold missing_in_bruno in Ht.
      apply filter_In in Ht as [Ht Hmem]. apply negb_true_iff in Hmem.
      assert (Py.mem (JStr t) (event_types_bruno self) = true); [|congruence].
      apply mem_str, Hsets. now exists t. }
    assert (Hx : extra_in_bruno self = []).
    { apply empty_list. intros v Hv. unfold extra_in_bruno in Hv.
      apply filter_In in Hv as [Hv Hone]. apply negb_true_iff in Hone.
      apply Hsets in Hv as (t & Ht & ->).
      apply is_one_of_str in Ht. congruence. }
    rewrite Hm, Hx. reflexivity.
Qed.

Lemma C4_type_coverage_witness :
  (forall t, In t (event_types_go ex_coverage_auditor) ->
             (forall e, In e (bruno_events ex_coverage_auditor) -> event_type e <> JStr t) ->
             count (is_missing_coverage t)
                   (recorded validate_event_counts ex_coverage_auditor) = 1)
  /\ (forall t, (exists e, In e (bruno_events ex_coverage_auditor)
                           /\ event_type e = JStr t) ->
                count (is_missing_coverage t)
                      (recorded validate_event_counts ex_coverage_auditor) = 0)
  /\ ((forall e, In e (bruno_events ex_coverage_auditor) ->
                 Py.is_str (event_type e) = true) ->
      forall e t, In e (bruno_events ex_coverage_auditor) -> event_type e = JStr t ->
                  ~ In t (event_types_go ex_coverage_auditor) ->
                  count (is_unknown_type t)
                        (recorded validate_event_counts ex_coverage_auditor) = 1)
  /\ (forall t, In t (event_types_go ex_coverage_auditor) ->
                count (is_unknown_type t)
                      (recorded validate_event_counts ex_coverage_auditor) = 0)
  /\ ((forall v, In v (event_types_bruno ex_coverage_auditor) <->
                 exists t, In t (event_types_go ex_coverage_auditor) /\ v = JStr t) ->
      count is_coverage (recorded validate_event_counts ex_coverage_auditor) = 0).
Proof.
  apply (C4_type_coverage ex_coverage_auditor).
  - apply distinct_NoDup. reflexivity.
  - reflexivity.
Defined.

(* ------------------------------------------------------------------ *)
(** ** The loader: [parse_bru_file] and [parse_bruno_files] *)

(** A loop whose steps all return, described by a relation that composes
    along the list. *)
Lemma for_each_rel {X L} (R : list X -> EventSystemAuditor -> EventSystemAuditor -> Prop)
      (body : L -> X -> M L) :
  (forall s, R [] s s) ->
  (forall l1 l2 a b c, R l1 a b -> R l2 b c -> R (l1 ++ l2) a c) ->
  (forall acc x self, exists acc' self',
      body acc x self = Returns acc' self' /\ R [x] self self') ->
  forall l acc self, exists acc' self',
    for_each l body acc self = Returns acc' self' /\ R l self self'.
Proof.
  intros Rnil Rapp Hbody. induction l as [|x l IH]; intros acc self; simpl.
  - exists acc, self. split; [reflexivity | apply Rnil].
  - unfold bind. destruct (Hbody acc x self) as (acc1 & self1 & -> & H1).
    destruct (IH acc1 self1) as (acc2 & self2 & -> & H2).
    exists acc2, self2. split; [reflexivity|].
    change (x :: l) with ([x] ++ l). eapply Rapp; eauto.
Qed.

Section Loader.
Variable json_loads : string -> json + string.

Lemma parse_bru_file_read (f : bru_file) (self : EventSystemAuditor) :
  parse_bru_file json_loads f self
  = match read json_loads f with
    | NoBody => Returns None self
    | InvalidBody e =>
        Returns None
          (set_results (add_error (InvalidJSON (pathlib.name (bru_path f)) e)
                          (results self)) self)
    | NotADict v => Raises (no_get v) self
    | IsSample event => Returns (Some event) self
    end.
Proof.
  unfold parse_bru_file, read.
  destruct (Re.search_body_json (bru_text f)) as [g|]; [|reflexivity].
  destruct (json_loads (Text.strip g)) as [v|e]; [|reflexivity].
  destruct v; reflexivity.
Qed.

Lemma loads_nil (self : EventSystemAuditor) : loads json_loads [] self self.
Proof.
  unfold loads. simpl. rewrite app_nil_r.
  repeat split; try reflexivity; apply reports_nil.
Qed.

Lemma loads_app (l1 l2 : list bru_file) (a b c : EventSystemAuditor) :
  loads json_loads l1 a b -> loads json_loads l2 b c -> loads json_loads (l1 ++ l2) a c.
Proof.
  unfold loads.
  intros (A1 & A2 & A3 & A4 & A5 & A6 & A7) (B1 & B2 & B3 & B4 & B5 & B6 & B7).
  rewrite !flat_map_app, fold_left_app.
  split; [congruence|]. split; [congruence|]. split; [congruence|].
  split; [rewrite B4, A4; now rewrite app_assoc|].
  split; [rewrite B5, A5; reflexivity|].
  split; [eapply reports_trans; eauto | congruence].
Qed.

Lemma parse_bruno_files_loads (self : EventSystemAuditor) (files : list bru_file) :
  bruno_dir (base_dir self) = Some files ->
  exists self',
    parse_bruno_files json_loads self = Returns tt self'
    /\ loads json_loads (sorted_paths files) self self'.
Proof.
  intros Hdir. unfold parse_bruno_files, bind at 1. simpl. rewrite Hdir.
  match goal with
  | |- context [for_each ?xs ?b ?a0 ?s0] =>
      assert (Hstep : forall acc x s, exists acc' s',
                 b acc x s = Returns acc' s' /\ loads json_loads [x] s s');
      [ | destruct (for_each_rel (loads json_loads) b loads_nil loads_app Hstep xs a0 s0)
            as ([] & self' & -> & Hl) ]
  end.
  - intros [] f s. unfold try_except, bind at 1.
    rewrite parse_bru_file_read.
    unfold loads, file_sample, file_issues. simpl.
    destruct (read json_loads f) as [|e|v|event]; simpl.
    + exists tt, s. rewrite app_nil_r.
      repeat split; try reflexivity; apply reports_nil.
    + eexists tt, _. split; [reflexivity|]. simpl. rewrite app_nil_r.
      repeat split; try reflexivity; apply reports_add_error.
    + eexists tt, _. split; [reflexivity|]. simpl. rewrite app_nil_r.
      repeat split; try reflexivity; apply reports_add_error.
    + unfold bind, get, put. simpl. unfold observe_step.
      destruct (Py.hashable (event_type event)); simpl.
      * eexists tt, _. split; [reflexivity|]. simpl.
        repeat split; try reflexivity; apply reports_nil.
      * eexists tt, _. split; [reflexivity|]. simpl.
        repeat split; try reflexivity; apply reports_add_error.
  - exists self'. split; [reflexivity | assumption].
Qed.

Lemma parse_bruno_files_no_dir (self : EventSystemAuditor) :
  bruno_dir (base_dir self) = None ->
  exists self',
    parse_bruno_files json_loads self = Returns tt self'
    /\ logged [Error (CannotFindBrunoDir ["bruno"; "Ingestion"; "Events"])] self self'.
Proof.
  intros Hdir. unfold parse_bruno_files, bind at 1. simpl. rewrite Hdir.
  eexists. split; [reflexivity | apply logged_add_error].
Qed.
End Loader.

Lemma flat_map_filter_skip {X Y} (g : X -> list Y) (q : X -> bool) (l : list X) :
  (forall x, In x l -> q x = false -> g x = []) ->
  flat_map g (filter q l) = flat_map g l.
Proof.
  induction l as [|x l IH]; simpl; intros H; [reflexivity|].
  destruct (q x) eqn:E; simpl.
  - rewrite IH; auto.
  - rewrite (H x (or_introl eq_refl) E). simpl. apply IH. auto.
Qed.

Lemma results_eq (r r' : ValidationResult) :
  passed r = passed r' -> failed r = failed r' -> warnings r = warnings r' ->
  errors r = errors r' -> r = r'.
Proof. destruct r, r'. simpl. now intros -> -> -> ->. Qed.

Section LoaderFacts.
Variable json_loads : string -> json + string.

Let name_of (f : bru_file) : string := pathlib.name (bru_path f).

Lemma file_sample_path (x : bru_file) (ev : BrunoEvent) :
  In ev (file_sample json_loads x) -> file_of ev = name_of x.
Proof.
  unfold file_sample, read.
  destruct (Re.search_body_json (bru_text x)) as [g|]; [|intros []].
  destruct (json_loads (Text.strip g)) as [v|e]; [|intros []].
  destruct v; simpl; intros H; try contradiction.
  destruct H as [<-|[]]. reflexivity.
Qed.

Lemma file_issues_about (x : bru_file) (i : issue) :
  In i (file_issues json_loads x) -> message_file (message_of i) = Some (name_of x).
Proof.
  unfold file_issues. destruct (read json_loads x) as [|e|v|ev].
  - intros [].
  - intros [<-|[]]. reflexivity.
  - intros [<-|[]]. reflexivity.
  - destruct (Py.hashable (event_type ev)); [intros [] | intros [<-|[]]; reflexivity].
Qed.

Lemma file_issues_other (p : issue -> bool) (file : string) (x : bru_file) :
  (forall i, p i = true -> names_file file i = true) ->
  name_of x <> file ->
  count p (file_issues json_loads x) = 0.
Proof.
  intros Hp Hf. apply count_zero_iff. intros i Hi.
  apply file_issues_about in Hi.
  destruct (p i) eqn:Hpi; [|reflexivity].
  apply Hp in Hpi. now rewrite (names_file_other _ _ _ Hi Hf) in Hpi.
Qed.

Lemma recorded_loads (self : EventSystemAuditor) (files : list bru_file) :
  bruno_dir (base_dir self) = Some files ->
  recorded (parse_bruno_files json_loads) self
  = flat_map (file_issues json_loads) (sorted_paths files).
Proof.
  intros Hdir.
  destruct (parse_bruno_files_loads json_loads self files Hdir) as (self' & E & Hl).
  unfold recorded. rewrite E. simpl.
  destruct Hl as (_ & _ & _ & _ & _ & (Herr & _) & _). rewrite Herr.
  now rewrite skipn_app, skipn_all, Nat.sub_diag.
Qed.

Lemma sorted_names_distinct (files : list bru_file) :
  NoDup (bru_names files) -> NoDup (map name_of (sorted_paths files)).
Proof.
  intros H. eapply Permutation_NoDup; [|exact H].
  apply Permutation_map. symmetry. apply sorted_paths_perm.
Qed.

Lemma sorted_paths_In (files : list bru_file) (f : bru_file) :
  In f (sorted_paths files) <-> In f files.
Proof.
  split; apply Permutation_in;
    [apply sorted_paths_perm | symmetry; apply sorted_paths_perm].
Qed.

(** What one file contributes to the report, when file names are
    distinct. *)
Lemma count_file_issues (p : issue -> bool) (self : EventSystemAuditor)
      (files : list bru_file) (f : bru_file) :
  bruno_dir (base_dir self) = Some files ->
  NoDup (bru_names files) -> In f files ->
  (forall i, p i = true -> names_file (name_of f) i = true) ->
  count p (recorded (parse_bruno_files json_loads) self)
  = count p (file_issues json_loads f).
Proof.
  intros Hdir Hnd Hin Hp. rewrite (recorded_loads self files Hdir).
  apply (count_flat_map_unique p name_of).
  - now apply sorted_names_distinct.
  - now apply sorted_paths_In.
  - intros x _ Hx. now apply file_issues_other with (file := name_of f).
Qed.

(** A file that yields no sample leaves the corpus and the observed set
    as they are without it. *)
Lemma corpus_without (self : EventSystemAuditor) (files : list bru_file) (f : bru_file) :
  bruno_dir (base_dir self) = Some files ->
  NoDup (bru_names files) -> In f files ->
  file_sample json_loads f = [] ->
  let self' := final (parse_bruno_files json_loads self) in
  let self'' := final (parse_bruno_files json_loads
                         (set_bruno_dir (Some (without f files)) self)) in
  bruno_events self' = bruno_events self''
  /\ event_types_bruno self' = event_types_bruno self''
  /\ (forall ev, In ev (bruno_events self') ->
                 In ev (bruno_events self) \/ file_of ev <> name_of f)
  /\ (file_issues json_loads f = [] -> results self' = results self'').
Proof.
  intros Hdir Hnd Hin Hnone self' self''.
  destruct (parse_bruno_files_loads json_loads self files Hdir)
    as (s1 & E1 & _ & _ & _ & Hev1 & Hty1 & (He1 & Hf1 & Hw1) & Hp1).
  destruct (parse_bruno_files_loads json_loads
              (set_bruno_dir (Some (without f files)) self) (without f files) eq_refl)
    as (s2 & E2 & _ & _ & _ & Hev2 & Hty2 & (He2 & Hf2 & Hw2) & Hp2).
  subst self' self''. rewrite E1, E2. simpl in *.
  set (q := fun x : bru_file =>
              negb (String.eqb (pathlib.name (bru_path x)) (pathlib.name (bru_path f)))).
  assert (Hsp : sorted_paths (without f files) = filter q (sorted_paths files)).
  { symmetry. apply sorted_paths_filter. }
  rewrite Hsp in Hev2, Hty2, He2, Hf2, Hw2. clear Hsp.
  assert (Hskip : forall x, In x (sorted_paths files) -> q x = false -> x = f).
  { intros x Hx Hq. apply negb_false_iff, String.eqb_eq in Hq.
    apply (NoDup_map_inj name_of (sorted_paths files)); auto.
    - now apply sorted_names_distinct.
    - now apply sorted_paths_In. }
  assert (Hsame : flat_map (file_sample json_loads) (filter q (sorted_paths files))
                  = flat_map (file_sample json_loads) (sorted_paths files)).
  { apply flat_map_filter_skip. intros x Hx Hq. now rewrite (Hskip x Hx Hq). }
  rewrite Hsame in Hev2, Hty2.
  split; [congruence|]. split; [congruence|]. split.
  - intros ev Hev. rewrite Hev1 in Hev. apply in_app_or in Hev as [Hev|Hev]; [now left|].
    right. apply in_flat_map in Hev as (x & Hx & Hev). intros Heq.
    rewrite (file_sample_path x ev Hev) in Heq.
    assert (x = f) as ->.
    { apply (NoDup_map_inj name_of (sorted_paths files)); auto.
      - now apply sorted_names_distinct.
      - now apply sorted_paths_In. }
    rewrite Hnone in Hev. contradiction.
  - intros Hquiet.
    assert (Hsame' : flat_map (file_issues json_loads) (filter q (sorted_paths files))
                     = flat_map (file_issues json_loads) (sorted_paths files)).
    { apply flat_map_filter_skip. intros x Hx Hq. now rewrite (Hskip x Hx Hq). }
    rewrite Hsame' in He2, Hf2, Hw2.
    apply results_eq; congruence.
Qed.
End LoaderFacts.

(** *** The corpus that the loader builds is well formed *)

Lemma In_keys_set {V} (k x : string) (v : V) (d : Py.dict V) :
  In x (Py.keys (Py.set k v d)) -> x = k \/ In x (Py.keys d).
Proof.
  unfold Py.keys. induction d as [|[k' v'] d IH]; simpl.
  - intros [<-|[]]. now left.
  - destruct (String.eqb_spec k' k) as [->|Hne]; simpl.
    + intros [<-|H]; auto.
    + intros [<-|H]; auto. apply IH in H. tauto.
Qed.

Lemma keys_set_NoDup {V} (k : string) (v : V) (d : Py.dict V) :
  NoDup (Py.keys d) -> NoDup (Py.keys (Py.set k v d)).
Proof.
  unfold Py.keys. induction d as [|[k' v'] d IH]; simpl; intros H.
  - repeat constructor. intros [].
  - inversion H as [|? ? Hk Hd]; subst.
    destruct (String.eqb_spec k' k) as [->|Hne]; simpl.
    + now constructor.
    + constructor; [|now apply IH].
      intros Hin. apply (In_keys_set k k' v d) in Hin as [->|Hin]; auto.
Qed.

Lemma of_members_NoDup {V} (members : list (string * V)) :
  NoDup (Py.keys (Py.of_members members)).
Proof.
  unfold Py.of_members.
  assert (H : forall d : Py.dict V, NoDup (Py.keys d) ->
              NoDup (Py.keys (fold_left (fun d kv => Py.set (fst kv) (snd kv) d) members d))).
  { induction members as [|[k v] l IH]; simpl; intros d Hd; [assumption|].
    apply IH. now apply keys_set_NoDup. }
  apply H. constructor.
Qed.

Section LoadedCorpus.
Variable json_loads : string -> json + string.

Lemma file_sample_keys (x : bru_file) (ev : BrunoEvent) :
  In ev (file_sample json_loads x) -> NoDup (Py.keys (payload ev)).
Proof.
  unfold file_sample, read.
  destruct (Re.search_body_json (bru_text x)) as [g|]; [|intros []].
  destruct (json_loads (Text.strip g)) as [v|e]; [|intros []].
  destruct v; simpl; intros H; try contradiction.
  destruct H as [<-|[]]. simpl. apply of_members_NoDup.
Qed.

Lemma file_sample_short (x : bru_file) :
  file_sample json_loads x = []
  \/ exists ev, file_sample json_loads x = [ev].
Proof. unfold file_sample. destruct (read json_loads x); eauto. Qed.

Lemma samples_named_apart (l : list bru_file) :
  NoDup (bru_names l) -> NoDup (file_names (flat_map (file_sample json_loads) l)).
Proof.
  unfold bru_names, file_names.
  induction l as [|x l IH]; simpl; intros H; [constructor|].
  inversion H as [|? ? Hx Hl]; subst. rewrite map_app.
  destruct (file_sample_short x) as [E|(ev & E)]; rewrite E; simpl; [now apply IH|].
  constructor; [|now apply IH].
  intros Hin. apply in_map_iff in Hin as (ev' & Hname & Hev').
  apply in_flat_map in Hev' as (y & Hy & Hev').
  apply Hx. apply in_map_iff. exists y. split; [|assumption].
  rewrite <- (file_sample_path json_loads y ev' Hev'), Hname.
  apply (file_sample_path json_loads x ev). rewrite E. now left.
Qed.

(** From an empty corpus and a directory whose file names are distinct,
    the loader builds a corpus in which file names are distinct and the
    keys of each payload are distinct. *)
Lemma loaded_corpus_well_formed (self : EventSystemAuditor) (files : list bru_file) :
  bruno_dir (base_dir self) = Some files ->
  NoDup (bru_names files) ->
  bruno_events self = [] ->
  let self' := final (parse_bruno_files json_loads self) in
  NoDup (file_names (bruno_events self'))
  /\ forall e, In e (bruno_events self') -> NoDup (Py.keys (payload e)).
Proof.
  intros Hdir Hnd Hempty self'.
  destruct (parse_bruno_files_loads json_loads self files Hdir)
    as (s & E & _ & _ & _ & Hev & _).
  subst self'. rewrite E. simpl. rewrite Hev, Hempty. simpl. split.
  - apply samples_named_apart.
    eapply Permutation_NoDup; [|exact Hnd].
    apply Permutation_map. symmetry. apply sorted_paths_perm.
  - intros e He. apply in_flat_map in He as (x & _ & He).
    now apply (file_sample_keys x).
Qed.
End LoadedCorpus.

(* ------------------------------------------------------------------ *)
(** ** The whole run *)

Lemma keeps_corpus_refl (self : EventSystemAuditor) : keeps_corpus self self.
Proof.
  unfold keeps_corpus. repeat split; auto. exists [].
  split; [apply reports_nil | intros i []].
Qed.

Lemma keeps_corpus_trans (a b c : EventSystemAuditor) :
  keeps_corpus a b -> keeps_corpus b c -> keeps_corpus a c.
Proof.
  intros (A1 & A2 & A3 & A4 & l1 & A5 & A6) (B1 & B2 & B3 & B4 & l2 & B5 & B6).
  unfold keeps_corpus. repeat split; try congruence; auto.
  exists (l1 ++ l2). split; [eapply reports_trans; eauto|].
  intros i Hi. apply in_app_or in Hi as [Hi|Hi]; auto.
Qed.

Lemma keeps_corpus_logged (l : list issue) (a b : EventSystemAuditor) :
  (forall i, In i l -> message_file (message_of i) = None) ->
  logged l a b -> keeps_corpus a b.
Proof.
  intros Hl [(D1 & D2 & D3 & D4 & D5) R]. unfold keeps_corpus.
  repeat split; auto; [now rewrite D4 | now exists l].
Qed.

Lemma NoDup_add_str (x : string) (s : list string) : NoDup s -> NoDup (Py.add_str x s).
Proof.
  intros H. unfold Py.add_str. destruct (existsb (String.eqb x) s) eqn:E; [assumption|].
  apply NoDup_app; [assumption | repeat constructor; intros [] |].
  intros y Hy [<-|[]].
  assert (existsb (String.eqb x) s = true); [|congruence].
  apply existsb_exists. exists x. split; [assumption | apply String.eqb_refl].
Qed.

Lemma parse_go_struct_keeps (self : EventSystemAuditor) :
  exists self', parse_go_struct self = Returns tt self' /\ keeps_corpus self self'.
Proof.
  unfold parse_go_struct, bind at 1. simpl.
  destruct (events_go (base_dir self)) as [content|].
  - destruct (Re.search_raw_event content) as [struct_body|].
    + match goal with
      | |- context [for_each ?xs ?b ?a0 ?s0] =>
          assert (Hstep : forall acc x s, exists acc' s',
                     b acc x s = Returns acc' s' /\ (fun _ => keeps_corpus) [x] s s');
          [ | destruct (for_each_rel (fun _ => keeps_corpus) b
                          (fun s => keeps_corpus_refl s)
                          (fun _ _ u v w => keeps_corpus_trans u v w) Hstep xs a0 s0)
                as ([] & self' & -> & Hk) ]
      end.
      * intros [] [[field_name go_type] json_tag] s. unfold bind, get, put.
        eexists tt, _. split; [reflexivity|]. simpl.
        unfold keeps_corpus. simpl. repeat split; auto.
        exists []. split; [apply reports_nil | intros i []].
      * exists self'. split; [reflexivity | assumption].
    + eexists. split; [reflexivity|].
      eapply keeps_corpus_logged; [|apply logged_add_error].
      intros i [<-|[]]. reflexivity.
  - eexists. split; [reflexivity|].
    eapply keeps_corpus_logged; [|apply logged_add_error].
    intros i [<-|[]]. reflexivity.
Qed.

Lemma parse_event_types_enum_keeps (self : EventSystemAuditor) :
  exists self', parse_event_types_enum self = Returns tt self' /\ keeps_corpus self self'.
Proof.
  unfold parse_event_types_enum, bind at 1. simpl.
  destruct (event_types_generated_go (base_dir self)) as [content|].
  - match goal with
    | |- context [for_each ?xs ?b ?a0 ?s0] =>
        assert (Hstep : forall acc x s, exists acc' s',
                   b acc x s = Returns acc' s' /\ (fun _ => keeps_corpus) [x] s s');
        [ | destruct (for_each_rel (fun _ => keeps_corpus) b
                        (fun s => keeps_corpus_refl s)
                        (fun _ _ u v w => keeps_corpus_trans u v w) Hstep xs a0 s0)
              as ([] & self' & -> & Hk) ]
    end.
    + intros [] event_value s. unfold bind, get, put.
      eexists tt, _. split; [reflexivity|]. simpl.
      unfold keeps_corpus. simpl. repeat split; auto.
      * apply NoDup_add_str.
      * exists []. split; [apply reports_nil | intros i []].
    + exists self'. split; [reflexivity | assumption].
  - eexists. split; [reflexivity|].
    eapply keeps_corpus_logged; [|apply logged_add_error].
    intros i [<-|[]]. reflexivity.
Qed.

Lemma consistent_reports (l : list issue) (r r' : ValidationResult) :
  consistent r -> reports l r r' -> consistent r'.
Proof.
  unfold consistent. intros H (E & F & _). rewrite F, E, count_app, H. reflexivity.
Qed.

Lemma reports_failed_le (l : list issue) (r r' : ValidationResult) :
  reports l r r' -> failed r <= failed r'.
Proof. intros (_ & F & _). lia. Qed.

Lemma ready_logged (l : list issue) (self self' : EventSystemAuditor) :
  ready self -> logged l self self' -> ready self'.
Proof.
  intros (R1 & R2 & R3 & R4) [(D1 & D2 & D3 & D4 & D5) Hr]. unfold ready.
  rewrite D3, D4, D5. repeat split; auto.
  - eapply consistent_reports; eauto.
  - intros H. apply R4 in H. apply reports_failed_le in Hr. lia.
Qed.

Lemma count_error_positive (l : list issue) (i : issue) :
  In i l -> is_error i = true -> count is_error l >= 1.
Proof.
  intros Hin Hi. unfold count.
  assert (H : In i (filter is_error l)) by (apply filter_In; auto).
  destruct (filter is_error l); [contradiction | simpl; lia].
Qed.

Section Run.
Variable json_loads : string -> json + string.

(** An unhashable type in the corpus has left an Error in the report of
    the loader. *)
Lemma unhashable_sample_fails (files : list bru_file) (e : BrunoEvent) :
  In e (flat_map (file_sample json_loads) files) ->
  Py.hashable (event_type e) = false ->
  count is_error (flat_map (file_issues json_loads) files) >= 1.
Proof.
  intros He Hh. apply in_flat_map in He as (x & Hx & He).
  apply count_error_positive
    with (i := Error (FailedToParse (pathlib.name (bru_path x))
                        (unhashable (event_type e)))); [|reflexivity].
  apply in_flat_map. exists x. split; [assumption|].
  unfold file_sample, file_issues in *.
  destruct (read json_loads x) as [| | |ev]; try contradiction.
  destruct He as [->|[]]. rewrite Hh. now left.
Qed.

Lemma parsers_ready (base : directory) :
  exists s1 s2 s3,
    parse_go_struct (init base) = Returns tt s1
    /\ parse_event_types_enum s1 = Returns tt s2
    /\ parse_bruno_files json_loads s2 = Returns tt s3
    /\ ready s3.
Proof.
  destruct (parse_go_struct_keeps (init base)) as (s1 & E1 & K1).
  destruct (parse_event_types_enum_keeps s1) as (s2 & E2 & K2).
  pose proof (keeps_corpus_trans _ _ _ K1 K2) as (B & Ev & Ty & Nd & l & Hr & _).
  simpl in Ev, Ty, Nd.
  assert (Hc2 : consistent (results s2)).
  { eapply consistent_reports; [|exact Hr]. reflexivity. }
  destruct (bruno_dir (base_dir s2)) as [files|] eqn:Hdir.
  - destruct (parse_bruno_files_loads json_loads s2 files Hdir)
      as (s3 & E3 & _ & _ & G3 & Ev3 & Ty3 & Hr3 & _).
    exists s1, s2, s3. repeat split; auto.
    + rewrite G3. apply Nd. constructor.
    + rewrite Ty3, Ev3, Ty, Ev. reflexivity.
    + eapply consistent_reports; eauto.
    + intros (e & He & Hh). rewrite Ev3, Ev in He. simpl in He.
      pose proof (unhashable_sample_fails _ e He Hh).
      destruct Hr3 as (_ & F & _). lia.
  - destruct (parse_bruno_files_no_dir json_loads s2 Hdir) as (s3 & E3 & L3).
    exists s1, s2, s3. split; [assumption|]. split; [assumption|].
    split; [assumption|].
    eapply ready_logged; [|exact L3].
    unfold ready. rewrite Ty, Ev. split; [apply Nd; constructor|].
    split; [reflexivity|]. split; [assumption|].
    intros (e & [] & _).
Qed.
End Run.

Lemma filter_nil {X} (f : X -> bool) (l : list X) :
  filter f l = [] -> forall x, In x l -> f x = false.
Proof.
  intros H x Hx. destruct (f x) eqn:E; [|reflexivity].
  assert (Hin : In x (filter f l)) by (apply filter_In; auto).
  rewrite H in Hin. contradiction.
Qed.

Lemma NoDup_map_JStr (l : list string) : NoDup l -> NoDup (map JStr l).
Proof.
  induction 1 as [|x l Hx Hnd IH]; simpl; constructor; [|assumption].
  intros H. apply in_map_iff in H as (y & [= ->] & Hy). contradiction.
Qed.

Lemma count_error_map {X} (f : X -> message) (l : list X) :
  count is_error (map (fun x => Error (f x)) l) = List.length l.
Proof.
  unfold count. induction l as [|x l IH]; simpl; [reflexivity | now rewrite IH].
Qed.

(** When a type of the corpus is not canonical, the method records an
    Error before it sorts the extra types: the count mismatch, or else a
    missing canonical type. *)
Lemma extra_type_fails (self : EventSystemAuditor) :
  NoDup (event_types_go self) ->
  extra_in_bruno self <> [] ->
  count is_error (count_issues self ++ coverage_issues self) >= 1.
Proof.
  intros Hgo Hextra. rewrite count_app. unfold count_issues.
  destruct (all_match self) eqn:Ha; [|rewrite count_cons; simpl; lia].
  unfold all_match in Ha. apply andb_prop in Ha as [Ha _].
  apply andb_prop in Ha as [Hg Hb].
  apply Nat.eqb_eq in Hg, Hb.
  assert (Hmiss : missing_in_bruno self <> []).
  { intros Hm. apply Hextra. apply empty_list. intros v Hv.
    unfold extra_in_bruno in Hv. apply filter_In in Hv as [Hv Hone].
    apply negb_true_iff in Hone.
    assert (Hincl : incl (event_types_bruno self) (map JStr (event_types_go self))).
    { apply NoDup_length_incl.
      - now apply NoDup_map_JStr.
      - rewrite length_map. lia.
      - intros w Hw. apply in_map_iff in Hw as (t & <- & Ht).
        apply mem_str. pose proof (filter_nil _ _ Hm t Ht) as Hf.
        now apply negb_false_iff in Hf. }
    apply Hincl in Hv. apply in_map_iff in Hv as (t & <- & Ht).
    apply is_one_of_str in Ht. congruence. }
  unfold coverage_issues. rewrite count_app, count_error_map.
  unfold Text.sorted_str.
  rewrite (Permutation_length (sort_perm _ String.leb (missing_in_bruno self))).
  destruct (missing_in_bruno self); [contradiction | simpl; lia].
Qed.

Section Exit.
Variable json_loads : string -> json + string.

(** The outcome of a run: what [run_audit] returns is the report of the
    auditor; a run that raises has recorded an Error before. *)
Lemma run_audit_outcome (base : directory) :
  consistent (results (final (run_audit json_loads (init base))))
  /\ match run_audit json_loads (init base) with
     | Returns r s => r = results s
     | Raises _ s => failed (results s) >= 1
     end.
Proof.
  destruct (parsers_ready json_loads base) as (s1 & s2 & s3 & E1 & E2 & E3 & R3).
  destruct (validate_bruno_payloads_logged s3) as (s4 & E4 & L4).
  pose proof (ready_logged _ _ _ R3 L4) as R4.
  destruct (validate_guid_fields_prefix s4) as (l1 & l2 & Hsplit & L5 & _ & Hc5).
  remember (run_audit json_loads (init base)) as o eqn:Ho.
  unfold run_audit, bind, get, ret in Ho. rewrite E1, E2, E3, E4 in Ho.
  destruct (validate_guid_fields s4) as [[] s5|x s5]; simpl in L5, Hc5.
  - pose proof (ready_logged _ _ _ R4 L5) as R5.
    destruct (validate_event_counts_logged s5) as [L6 C6].
    pose proof (ready_logged _ _ _ R5 L6) as (_ & _ & Hcons & _).
    destruct (validate_event_counts s5) as [[] s6|y s6]; simpl in L6, C6, Hcons;
      subst o; simpl; (split; [assumption|]); [reflexivity|].
    destruct R5 as (Hgo & _ & _ & _).
    assert (Hextra : extra_in_bruno s5 <> []).
    { destruct (extra_in_bruno s5); discriminate. }
    pose proof (extra_type_fails s5 Hgo Hextra).
    pose proof (logged_failed _ _ _ L6). lia.
  - pose proof (ready_logged _ _ _ R4 L5) as (_ & _ & Hcons & _).
    subst o. simpl. split; [assumption|].
    destruct Hc5 as (e & l2' & -> & He).
    destruct R4 as (_ & _ & _ & Hbad).
    assert (Hfail : failed (results s4) >= 1).
    { apply Hbad. exists e. split.
      - rewrite Hsplit. apply in_or_app. right. now left.
      - unfold guid_raises in He. apply andb_prop in He as [_ He].
        now apply negb_true_iff in He. }
    pose proof (logged_failed _ _ _ L5). lia.
Qed.

End Exit.

Lemma names_no_file (file : string) (i : issue) :
  message_file (message_of i) = None -> names_file file i = false.
Proof. unfold names_file. now intros ->. Qed.

Lemma coverage_names_no_file (file : string) (self : EventSystemAuditor) :
  count (names_file file) (count_issues self ++ coverage_issues self) = 0.
Proof.
  rewrite count_app, count_issues_not_coverage by reflexivity.
  unfold coverage_issues. rewrite count_app, count_map_none by reflexivity.
  destruct (Py.sorted (extra_in_bruno self)); [|reflexivity].
  now rewrite count_map_none.
Qed.

Section RunIssues.
Variable json_loads : string -> json + string.

(** Over a whole run, the issues that name a file from which the loader
    takes no sample are those that the loader records for it. *)
Lemma run_names_file (base : directory) (files : list bru_file) (f : bru_file) :
  bruno_dir base = Some files ->
  NoDup (bru_names files) ->
  In f files ->
  file_sample json_loads f = [] ->
  count (names_file (pathlib.name (bru_path f)))
        (errors (results (final (run_audit json_loads (init base)))))
  = count (names_file (pathlib.name (bru_path f))) (file_issues json_loads f).
Proof.
  intros Hdir Hnd Hin Hnone.
  set (file := pathlib.name (bru_path f)).
  destruct (parse_go_struct_keeps (init base)) as (s1 & E1 & K1).
  destruct (parse_event_types_enum_keeps s1) as (s2 & E2 & K2).
  pose proof (keeps_corpus_trans _ _ _ K1 K2)
    as (B & Ev & _ & _ & l12 & (Herr2 & _) & Hnone12).
  simpl in B, Ev, Herr2.
  assert (Hdir2 : bruno_dir (base_dir s2) = Some files) by now rewrite B.
  destruct (parse_bruno_files_loads json_loads s2 files Hdir2)
    as (s3 & E3 & _ & _ & _ & Ev3 & _ & (Herr3 & _) & _).
  rewrite Ev in Ev3. simpl in Ev3.
  destruct (validate_bruno_payloads_logged s3) as (s4 & E4 & L4).
  pose proof (logged_errors _ _ _ L4) as Herr4.
  assert (Ev4 : bruno_events s4 = bruno_events s3) by apply L4.
  destruct (validate_guid_fields_prefix s4) as (l1 & l2 & Hsplit & L5 & _ & _).
  pose proof (logged_errors _ _ _ L5) as Herr5.
  (* no sample of the corpus comes from the file *)
  assert (Hother : forall e, In e (bruno_events s3) -> file_of e <> file).
  { intros e He Heq. rewrite Ev3 in He. apply in_flat_map in He as (x & Hx & He).
    rewrite (file_sample_path json_loads x e He) in Heq.
    assert (x = f) as ->.
    { apply (NoDup_map_inj (fun y => pathlib.name (bru_path y)) (sorted_paths files));
        auto.
      - now apply sorted_names_distinct.
      - now apply sorted_paths_In. }
    rewrite Hnone in He. contradiction. }
  (* the issues recorded up to the identity pass *)
  assert (Hupto : count (names_file file) (errors (results (final (validate_guid_fields s4))))
                  = count (names_file file) (file_issues json_loads f)).
  { rewrite Herr5, Herr4, Herr3, Herr2. simpl. rewrite !count_app.
    replace (count (names_file file) l12) with 0.
    2:{ symmetry. apply count_zero_iff. intros i Hi.
        apply names_no_file. now apply Hnone12. }
    replace (count (names_file file)
               (flat_map (payload_issues (go_fields s3)) (bruno_events s3))) with 0.
    2:{ symmetry. apply count_flat_map_zero. intros e He.
        apply payload_issues_other_sample with (file := file); auto. }
    replace (count (names_file file) (flat_map guid_issues l1)) with 0.
    2:{ symmetry. apply count_flat_map_zero. intros e He.
        apply guid_issues_other_sample with (file := file); auto.
        apply Hother. rewrite <- Ev4, Hsplit. apply in_or_app. now left. }
    rewrite (count_flat_map_unique _ (fun y => pathlib.name (bru_path y))
               _ _ f (sorted_names_distinct files Hnd)
               (proj2 (sorted_paths_In files f) Hin)).
    - lia.
    - intros x _ Hx. now apply file_issues_other with (file := file). }
  remember (run_audit json_loads (init base)) as o eqn:Ho.
  unfold run_audit, bind, get, ret in Ho. rewrite E1, E2, E3, E4 in Ho.
  destruct (validate_guid_fields s4) as [[] s5|x s5]; simpl in Hupto.
  - destruct (validate_event_counts_logged s5) as [L6 _].
    pose proof (logged_errors _ _ _ L6) as Herr6.
    assert (Hfinal : final o = final (validate_event_counts s5)).
    { subst o. now destruct (validate_event_counts s5) as [[] s6|y s6]. }
    rewrite Hfinal, Herr6, count_app, coverage_names_no_file. lia.
  - subst o. exact Hupto.
Qed.
End RunIssues.

(* ------------------------------------------------------------------ *)
(** ** Replacing the directory of samples *)

Section Frames.
Variable files : option (list bru_file).

Lemma frames_ret {A} (a : A) : frames files (ret a).
Proof. intros self. reflexivity. Qed.

Lemma frames_raise {A} (e : exn) : frames files (@raise A e).
Proof. intros self. reflexivity. Qed.

Lemma frames_bind {A B} (m : M A) (k : A -> M B) :
  frames files m -> (forall a, frames files (k a)) -> frames files (bind m k).
Proof.
  intros Hm Hk self. unfold bind. rewrite Hm.
  destruct (m self) as [a s|e s]; simpl; [apply Hk | reflexivity].
Qed.

(** A method that reads [self] frames when what it reads is untouched. *)
Lemma frames_get {B} (k : EventSystemAuditor -> M B) :
  (forall self, k (set_bruno_dir files self) = k self) ->
  (forall self, frames files (k self)) ->
  frames files (bind get k).
Proof.
  intros Hsame Hk self. unfold bind, get. rewrite Hsame. apply Hk.
Qed.

Lemma frames_add_error (msg : message) : frames files (results_add_error msg).
Proof. intros self. reflexivity. Qed.

Lemma frames_add_warning (msg : message) : frames files (results_add_warning msg).
Proof. intros self. reflexivity. Qed.

Lemma frames_add_pass : frames files results_add_pass.
Proof. intros self. reflexivity. Qed.

Lemma frames_for_each {X L} (body : L -> X -> M L) (l : list X) :
  (forall acc x, frames files (body acc x)) ->
  forall acc, frames files (for_each l body acc).
Proof.
  intros Hbody. induction l as [|x l IH]; intros acc; simpl.
  - apply frames_ret.
  - apply frames_bind; [apply Hbody | intros acc'; apply IH].
Qed.

Lemma frames_in_set (x : json) (s : list string) : frames files (in_set x s).
Proof.
  unfold in_set. destruct (Py.in_literal x s); [apply frames_ret | apply frames_raise].
Qed.

Lemma frames_parse_go_struct : frames files parse_go_struct.
Proof.
  unfold parse_go_struct. apply frames_get; [reflexivity|]. intros self.
  destruct (events_go (base_dir self)) as [content|]; [|apply frames_add_error].
  destruct (Re.search_raw_event content) as [struct_body|]; [|apply frames_add_error].
  apply frames_for_each. intros [] [[field_name go_type] json_tag] s.
  reflexivity.
Qed.

Lemma frames_parse_event_types_enum : frames files parse_event_types_enum.
Proof.
  unfold parse_event_types_enum. apply frames_get; [reflexivity|]. intros self.
  destruct (event_types_generated_go (base_dir self)) as [content|];
    [|apply frames_add_error].
  apply frames_for_each. intros [] event_value s. reflexivity.
Qed.

Lemma frames_validate_bruno_payloads : frames files validate_bruno_payloads.
Proof.
  unfold validate_bruno_payloads. apply frames_get; [reflexivity|]. intros self.
  apply frames_bind.
  - apply frames_for_each. intros locals event.
    destruct (negb (Py.contains "type" (payload event))).
    + apply frames_bind; [apply frames_add_error | intros; apply frames_ret].
    + apply frames_for_each. intros locals' [field_name field_value].
      destruct (negb (Py.contains field_name (go_fields self))); [|apply frames_ret].
      destruct (String.eqb field_name "event_type");
        [|destruct (String.eqb field_name "guid")];
        (apply frames_bind; [apply frames_add_error | intros; apply frames_ret]).
  - intros locals. destruct (_ && _); [apply frames_add_pass | apply frames_ret].
Qed.

Lemma frames_validate_guid_fields : frames files validate_guid_fields.
Proof.
  unfold validate_guid_fields. apply frames_get; [reflexivity|]. intros self.
  apply frames_bind.
  - apply frames_for_each. intros found event. cbv zeta.
    destruct (Py.contains "guid" (payload event)).
    + apply frames_bind; [apply frames_add_error | intros; apply frames_ret].
    + apply frames_bind; [apply frames_in_set|]. intros [|].
      * apply frames_bind; [|intros; apply frames_ret].
        destruct (negb _); [apply frames_add_warning | apply frames_ret].
      * apply frames_bind; [apply frames_in_set|]. intros [|]; [|apply frames_ret].
        apply frames_bind; [|intros; apply frames_ret].
        destruct (negb _); [apply frames_add_warning | apply frames_ret].
  - intros found. apply frames_get; [reflexivity|]. intros s.
    destruct (_ && _); [apply frames_add_pass | apply frames_ret].
Qed.

Lemma frames_validate_event_counts : frames files validate_event_counts.
Proof.
  unfold validate_event_counts. apply frames_get; [reflexivity|]. intros self.
  cbv zeta. apply frames_bind.
  - destruct (_ && _); [apply frames_add_pass | apply frames_add_error].
  - intros _. apply frames_bind.
    + destruct (nonempty _); [|apply frames_ret].
      apply frames_for_each. intros [] event. apply frames_add_error.
    + intros _. destruct (nonempty _); [|apply frames_ret].
      destruct (Py.sorted _); [|apply frames_raise].
      apply frames_for_each. intros [] event. apply frames_add_error.
Qed.
End Frames.

Lemma auditor_eq (a b : EventSystemAuditor) :
  base_dir a = base_dir b -> go_fields a = go_fields b ->
  bruno_events a = bruno_events b -> event_types_go a = event_types_go b ->
  event_types_bruno a = event_types_bruno b -> results a = results b -> a = b.
Proof. destruct a, b. simpl. now intros -> -> -> -> -> ->. Qed.

Section RunWithout.
Variable json_loads : string -> json + string.

(** A run on a directory from which a silent file (no sample, no issue)
    is removed goes as the run on the whole directory. *)
Lemma run_without_silent_file (base : directory) (files : list bru_file) (f : bru_file) :
  bruno_dir base = Some files ->
  NoDup (bru_names files) ->
  In f files ->
  file_sample json_loads f = [] ->
  file_issues json_loads f = [] ->
  run_audit json_loads (set_bruno_dir (Some (without f files)) (init base))
  = map_final (set_bruno_dir (Some (without f files)))
              (run_audit json_loads (init base)).
Proof.
  intros Hdir Hnd Hin Hnone Hquiet.
  set (g := set_bruno_dir (Some (without f files))).
  destruct (parse_go_struct_keeps (init base)) as (s1 & E1 & K1).
  destruct (parse_event_types_enum_keeps s1) as (s2 & E2 & K2).
  pose proof (keeps_corpus_trans _ _ _ K1 K2) as (B & _).
  simpl in B.
  assert (Hdir2 : bruno_dir (base_dir s2) = Some files) by now rewrite B.
  destruct (parse_bruno_files_loads json_loads s2 files Hdir2)
    as (s3 & E3 & B3 & G3 & T3 & _).
  destruct (parse_bruno_files_loads json_loads (g s2) (without f files) eq_refl)
    as (s3' & E3' & B3' & G3' & T3' & _).
  destruct (corpus_without json_loads s2 files f Hdir2 Hnd Hin Hnone)
    as (Hev & Hty & _ & Hres).
  fold g in Hev, Hty, Hres. rewrite E3, E3' in Hev, Hty, Hres. simpl in Hev, Hty, Hres.
  specialize (Hres Hquiet).
  assert (Hs3 : s3' = g s3).
  { simpl in B3', G3', T3'.
    apply auditor_eq; simpl; [rewrite B3', B3; reflexivity | congruence ..]. }
  assert (H1 : parse_go_struct (g (init base)) = Returns tt (g s1)).
  { unfold g. rewrite (frames_parse_go_struct _ (init base)), E1. reflexivity. }
  assert (H2 : parse_event_types_enum (g s1) = Returns tt (g s2)).
  { unfold g. rewrite (frames_parse_event_types_enum _ s1), E2. reflexivity. }
  set (rest := (validate_bruno_payloads ;;
                validate_guid_fields ;;
                validate_event_counts ;;
                self <- get ;;
                ret (results self))).
  assert (Hleft : run_audit json_loads (g (init base)) = rest (g s3)).
  { unfold run_audit. unfold bind at 1. rewrite H1. unfold bind at 1. rewrite H2.
    unfold bind at 1. rewrite E3', Hs3. reflexivity. }
  assert (Hright : run_audit json_loads (init base) = rest s3).
  { unfold run_audit. unfold bind at 1. rewrite E1. unfold bind at 1. rewrite E2.
    unfold bind at 1. rewrite E3. reflexivity. }
  rewrite Hleft, Hright. unfold g, rest.
  apply (frames_bind (Some (without f files))).
  - apply frames_validate_bruno_payloads.
  - intros _. apply frames_bind; [apply frames_validate_guid_fields|].
    intros _. apply frames_bind; [apply frames_validate_event_counts|].
    intros _. apply frames_get; [reflexivity|]. intros s. apply frames_ret.
Qed.
End RunWithout.

Section LoaderClaims.
Variable json_loads : string -> json + string.

(** C6: a sample file whose body block is not valid JSON gets exactly
    one issue, the invalid-JSON Error naming the file, from the loader
    and over the whole run on that directory; the loader returns no
    sample for it, no sample of the corpus comes from it, and the corpus
    and the observed set of types (hence the sample count of the count
    reconciliation) are what they are without the file. *)
Theorem C6_invalid_body_is_dropped (self : EventSystemAuditor)
        (files : list bru_file) (f : bru_file) (g e : string) :
  bruno_dir (base_dir self) = Some files ->
  NoDup (bru_names files) ->
  In f files ->
  Re.search_body_json (bru_text f) = Some g ->
  json_loads (Text.strip g) = inr e ->
  let file := pathlib.name (bru_path f) in
  let self' := final (parse_bruno_files json_loads self) in
  let self'' := final (parse_bruno_files json_loads
                         (set_bruno_dir (Some (without f files)) self)) in
  (forall s, parse_bru_file json_loads f s
             = Returns None (set_results (add_error (InvalidJSON file e) (results s)) s))
  /\ count (names_file file) (recorded (parse_bruno_files json_loads) self) = 1
  /\ count (is_invalid_json file) (recorded (parse_bruno_files json_loads) self) = 1
  /\ (forall ev, In ev (bruno_events self') ->
                 In ev (bruno_events self) \/ file_of ev <> file)
  /\ bruno_events self' = bruno_events self''
  /\ event_types_bruno self' = event_types_bruno self''
  /\ List.length (bruno_events self') = List.length (bruno_events self'')
  /\ count (names_file file)
           (errors (results (final (run_audit json_loads (init (base_dir self)))))) = 1.
Proof.
  intros Hdir Hnd Hin Hbody Hjson file self' self''.
  assert (Hread : read json_loads f = InvalidBody e).
  { unfold read. now rewrite Hbody, Hjson. }
  assert (Hnone : file_sample json_loads f = []).
  { unfold file_sample. now rewrite Hread. }
  assert (Hiss : file_issues json_loads f = [Error (InvalidJSON file e)]).
  { unfold file_issues. now rewrite Hread. }
  destruct (corpus_without json_loads self files f Hdir Hnd Hin Hnone)
    as (Hev & Hty & Hfrom & _).
  split; [intros s; now rewrite parse_bru_file_read, Hread|].
  split.
  { rewrite (count_file_issues json_loads _ self files f Hdir Hnd Hin); [|auto].
    rewrite Hiss. unfold count, names_file. simpl. fold file.
    now rewrite String.eqb_refl. }
  split.
  { rewrite (count_file_issues json_loads _ self files f Hdir Hnd Hin).
    - rewrite Hiss. unfold count. simpl. fold file. now rewrite String.eqb_refl.
    - intros [[]|] Hi; try discriminate. exact Hi. }
  split; [exact Hfrom|]. split; [exact Hev|]. split; [exact Hty|].
  split; [fold self' self'' in Hev; now rewrite Hev|].
  unfold file at 1.
  rewrite (run_names_file json_loads (base_dir self) files f Hdir Hnd Hin Hnone), Hiss.
  unfold count, names_file. simpl. fold file. now rewrite String.eqb_refl.
Qed.

(** C9: a sample file without a [body:json] block is skipped in silence:
    the loader returns no sample and leaves the auditor as it was, no
    issue of any severity names the file (in the loader and over the
    whole run on that directory), no sample of the corpus comes from it,
    and the corpus, the observed set, the report of the loader, the
    report of the whole run and the exit status are what they are when
    the file is not in the directory. *)
Theorem C9_file_without_body_is_skipped (self : EventSystemAuditor)
        (files : list bru_file) (f : bru_file) :
  bruno_dir (base_dir self) = Some files ->
  NoDup (bru_names files) ->
  In f files ->
  Re.search_body_json (bru_text f) = None ->
  let file := pathlib.name (bru_path f) in
  let self' := final (parse_bruno_files json_loads self) in
  let self'' := final (parse_bruno_files json_loads
                         (set_bruno_dir (Some (without f files)) self)) in
  (forall s, parse_bru_file json_loads f s = Returns None s)
  /\ count (names_file file) (recorded (parse_bruno_files json_loads) self) = 0
  /\ (forall ev, In ev (bruno_events self') ->
                 In ev (bruno_events self) \/ file_of ev <> file)
  /\ bruno_events self' = bruno_events self''
  /\ event_types_bruno self' = event_types_bruno self''
  /\ results self' = results self''
  /\ count (names_file file)
           (errors (results (final (run_audit json_loads (init (base_dir self)))))) = 0
  /\ results (final (run_audit json_loads
                       (init (base_dir (set_bruno_dir (Some (without f files)) self)))))
     = results (final (run_audit json_loads (init (base_dir self))))
  /\ main json_loads (base_dir (set_bruno_dir (Some (without f files)) self))
     = main json_loads (base_dir self).
Proof.
  intros Hdir Hnd Hin Hbody file self' self''.
  assert (Hread : read json_loads f = NoBody).
  { unfold read. now rewrite Hbody. }
  assert (Hnone : file_sample json_loads f = []).
  { unfold file_sample. now rewrite Hread. }
  assert (Hiss : file_issues json_loads f = []).
  { unfold file_issues. now rewrite Hread. }
  destruct (corpus_without json_loads self files f Hdir Hnd Hin Hnone)
    as (Hev & Hty & Hfrom & Hres).
  split; [intros s; now rewrite parse_bru_file_read, Hread|].
  split.
  { rewrite (count_file_issues json_loads _ self files f Hdir Hnd Hin); [|auto].
    now rewrite Hiss. }
  split; [exact Hfrom|]. split; [exact Hev|]. split; [exact Hty|].
  split; [now apply Hres|]. unfold file.
  split.
  { now rewrite (run_names_file json_loads (base_dir self) files f Hdir Hnd Hin Hnone),
      Hiss. }
  pose proof (run_without_silent_file json_loads (base_dir self) files f
                Hdir Hnd Hin Hnone Hiss) as Hrun.
  change (set_bruno_dir (Some (without f files)) (init (base_dir self)))
    with (init (base_dir (set_bruno_dir (Some (without f files)) self))) in Hrun.
  unfold main. rewrite Hrun.
  destruct (run_audit json_loads (init (base_dir self))); simpl; split; reflexivity.
Qed.
End LoaderClaims.

Lemma C6_invalid_body_is_dropped_witness :
  (forall s, parse_bru_file example_json_loads ex_bad_file s
             = Returns None
                 (set_results
                    (add_error
                       (InvalidJSON "Bad.bru" "Expecting value: line 1 column 1 (char 0)")
                       (results s)) s))
  /\ count (names_file "Bad.bru")
           (recorded (parse_bruno_files example_json_loads) ex_bad_auditor) = 1
  /\ count (is_invalid_json "Bad.bru")
           (recorded (parse_bruno_files example_json_loads) ex_bad_auditor) = 1
  /\ (forall ev,
         In ev (bruno_events (final (parse_bruno_files example_json_loads ex_bad_auditor))) ->
         In ev (bruno_events ex_bad_auditor) \/ file_of ev <> "Bad.bru")
  /\ bruno_events (final (parse_bruno_files example_json_loads ex_bad_auditor))
     = bruno_events
         (final (parse_bruno_files example_json_loads
                   (set_bruno_dir (Some (without ex_bad_file ex_bad_files)) ex_bad_auditor)))
  /\ event_types_bruno (final (parse_bruno_files example_json_loads ex_bad_auditor))
     = event_types_bruno
         (final (parse_bruno_files example_json_loads
                   (set_bruno_dir (Some (without ex_bad_file ex_bad_files)) ex_bad_auditor)))
  /\ List.length (bruno_events (final (parse_bruno_files example_json_loads ex_bad_auditor)))
     = List.length
         (bruno_events
            (final (parse_bruno_files example_json_loads
                      (set_bruno_dir (Some (without ex_bad_file ex_bad_files))
                                     ex_bad_auditor))))
  /\ count (names_file "Bad.bru")
           (errors (results (final (run_audit example_json_loads
                                      (init (base_dir ex_bad_auditor)))))) = 1.
Proof.
  apply (C6_invalid_body_is_dropped example_json_loads ex_bad_auditor ex_bad_files
           ex_bad_file (String Text.nl "oops")).
  - reflexivity.
  - apply distinct_NoDup. reflexivity.
  - right. now left.
  - reflexivity.
  - reflexivity.
Defined.

Lemma C9_file_without_body_is_skipped_witness :
  (forall s, parse_bru_file example_json_loads ex_empty_file s = Returns None s)
  /\ count (names_file "Empty.bru")
           (recorded (parse_bruno_files example_json_loads) ex_empty_auditor) = 0
  /\ (forall ev,
         In ev (bruno_events (final (parse_bruno_files example_json_loads ex_empty_auditor))) ->
         In ev (bruno_events ex_empty_auditor) \/ file_of ev <> "Empty.bru")
  /\ bruno_events (final (parse_bruno_files example_json_loads ex_empty_auditor))
     = bruno_events
         (final (parse_bruno_files example_json_loads
                   (set_bruno_dir (Some (without ex_empty_file ex_empty_files))
                                  ex_empty_auditor)))
  /\ event_types_bruno (final (parse_bruno_files example_json_loads ex_empty_auditor))
     = event_types_bruno
         (final (parse_bruno_files example_json_loads
                   (set_bruno_dir (Some (without ex_empty_file ex_empty_files))
                                  ex_empty_auditor)))
  /\ results (final (parse_bruno_files example_json_loads ex_empty_auditor))
     = results
         (final (parse_bruno_files example_json_loads
                   (set_bruno_dir (Some (without ex_empty_file ex_empty_files))
                                  ex_empty_auditor)))
  /\ count (names_file "Empty.bru")
           (errors (results (final (run_audit example_json_loads
                                      (init (base_dir ex_empty_auditor)))))) = 0
  /\ results (final (run_audit example_json_loads
                       (init (base_dir (set_bruno_dir
                                         (Some (without ex_empty_file ex_empty_files))
                                         ex_empty_auditor)))))
     = results (final (run_audit example_json_loads (init (base_dir ex_empty_auditor))))
  /\ main example_json_loads
          (base_dir (set_bruno_dir (Some (without ex_empty_file ex_empty_files))
                                   ex_empty_auditor))
     = main example_json_loads (base_dir ex_empty_auditor).
Proof.
  apply (C9_file_without_body_is_skipped example_json_loads ex_empty_auditor
           ex_empty_files ex_empty_file).
  - reflexivity.
  - apply distinct_NoDup. reflexivity.
  - right. now left.
  - reflexivity.
Defined.

(* ------------------------------------------------------------------ *)
(** ** Texts and matchers *)

Lemma append_nil_r (s : string) : (s ++ "")%string = s.
Proof. induction s as [|c s IH]; simpl; [reflexivity | now rewrite IH]. Qed.

Lemma append_assoc (a b c : string) : ((a ++ b) ++ c)%string = (a ++ (b ++ c))%string.
Proof. induction a as [|x a IH]; simpl; [reflexivity | now rewrite IH]. Qed.

Lemma append_empty (a b : string) : (a ++ b)%string = EmptyString -> a = "" /\ b = "".
Proof. destruct a; simpl; [now split | discriminate]. Qed.

Lemma all_chars_app (cls : ascii -> bool) (a b : string) :
  all_chars cls (a ++ b) = all_chars cls a && all_chars cls b.
Proof.
  induction a as [|x a IH]; simpl; [reflexivity|].
  now rewrite IH, andb_assoc.
Qed.

Section MatcherFacts.
Variable R : Type.

Lemma lit_inv (p : string) (k : string -> option R) (s : string) (r : R) :
  Re.lit p k s = Some r -> exists s', s = (p ++ s')%string /\ k s' = Some r.
Proof.
  revert s. induction p as [|c p IH]; intros s H; simpl in H.
  - exists s. split; [reflexivity | assumption].
  - destruct s as [|d s]; [discriminate|].
    destruct (Ascii.eqb_spec c d) as [->|]; [|discriminate].
    apply IH in H as (s' & -> & Hk). exists s'. split; [reflexivity | assumption].
Qed.

Lemma lit_app (p : string) (k : string -> option R) (s : string) :
  Re.lit p k (p ++ s) = k s.
Proof.
  induction p as [|c p IH]; simpl; [reflexivity|].
  now rewrite Ascii.eqb_refl.
Qed.

Lemma star_inv (cls : ascii -> bool) (k : string -> string -> option R)
      (acc s : string) (r : R) :
  Re.star cls k acc s = Some r ->
  exists t s', s = (t ++ s')%string /\ all_chars cls t = true
               /\ k (acc ++ t)%string s' = Some r.
Proof.
  revert acc. induction s as [|c s IH]; intros acc H; simpl in H.
  - exists "", "". rewrite (append_nil_r acc). repeat split; auto.
  - destruct (cls c) eqn:Ec.
    + destruct (Re.star cls k (acc ++ String c "") s) as [r'|] eqn:Es.
      * injection H as <-. apply IH in Es as (t & s' & -> & Ht & Hk).
        exists (String c t), s'. simpl. rewrite Ec, Ht.
        rewrite append_assoc in Hk. repeat split; auto.
      * exists "", (String c s). rewrite (append_nil_r acc). repeat split; auto.
    + exists "", (String c s). rewrite (append_nil_r acc). repeat split; auto.
Qed.

Lemma plus_inv (cls : ascii -> bool) (k : string -> string -> option R)
      (s : string) (r : R) :
  Re.plus cls k s = Some r ->
  exists t s', s = (t ++ s')%string /\ t <> "" /\ all_chars cls t = true
               /\ k t s' = Some r.
Proof.
  unfold Re.plus. destruct s as [|c s]; [discriminate|].
  destruct (cls c) eqn:Ec; [|discriminate].
  intros H. apply star_inv in H as (t & s' & -> & Ht & Hk).
  exists (String c t), s'. simpl. rewrite Ec, Ht. repeat split; auto.
  discriminate.
Qed.

Lemma star_lazy_inv (cls : ascii -> bool) (k : string -> string -> option R)
      (acc s : string) (r : R) :
  Re.star_lazy cls k acc s = Some r ->
  exists t s', s = (t ++ s')%string /\ all_chars cls t = true
               /\ k (acc ++ t)%string s' = Some r
               /\ forall t1 t2, t = (t1 ++ t2)%string -> t2 <> "" ->
                                k (acc ++ t1)%string (t2 ++ s')%string = None.
Proof.
  revert acc. induction s as [|c s IH]; intros acc H; simpl in H.
  - destruct (k acc "") as [r'|] eqn:Ek; [|discriminate].
    exists "", "". rewrite (append_nil_r acc). repeat split; auto.
    + congruence.
    + intros t1 t2 E. symmetry in E. apply append_empty in E as [_ ->]. tauto.
  - destruct (k acc (String c s)) as [r'|] eqn:Ek.
    + exists "", (String c s). rewrite (append_nil_r acc). repeat split; auto.
      * congruence.
      * intros t1 t2 E. symmetry in E. apply append_empty in E as [_ ->]. tauto.
    + destruct (cls c) eqn:Ec; [|discriminate].
      apply IH in H as (t & s' & -> & Ht & Hk & Hmin).
      exists (String c t), s'. simpl. rewrite Ec, Ht.
      rewrite append_assoc in Hk. repeat split; auto.
      intros [|d t1] t2 E Hne; simpl in E.
      * subst t2. rewrite append_nil_r. exact Ek.
      * injection E as <- ->. specialize (Hmin t1 t2 eq_refl Hne).
        now rewrite append_assoc in Hmin.
Qed.

Lemma star_lazy_complete (cls : ascii -> bool) (k : string -> string -> option R)
      (acc t s : string) (r : R) :
  all_chars cls t = true -> k (acc ++ t)%string s = Some r ->
  exists r', Re.star_lazy cls k acc (t ++ s) = Some r'.
Proof.
  revert acc. induction t as [|c t IH]; intros acc Ht Hk.
  - rewrite append_nil_r in Hk. simpl.
    destruct s as [|d s]; simpl; rewrite Hk; eauto.
  - simpl in Ht. apply andb_prop in Ht as [Ec Ht]. simpl.
    destruct (k acc (String c (t ++ s))) as [r'|]; [eauto|].
    rewrite Ec. apply IH; [assumption|]. now rewrite append_assoc.
Qed.

Lemma search_inv (m : string -> option R) (s : string) (r : R) :
  Re.search m s = Some r ->
  exists pre s', s = (pre ++ s')%string /\ m s' = Some r.
Proof.
  induction s as [|c s IH]; simpl; intros H.
  - destruct (m "") eqn:E; [|discriminate]. exists "", "". split; [reflexivity | congruence].
  - destruct (m (String c s)) eqn:E.
    + exists "", (String c s). split; [reflexivity | congruence].
    + apply IH in H as (pre & s' & -> & Hm). exists (String c pre), s'. auto.
Qed.

(** The match that [re.search] returns starts at the leftmost position
    at which the matcher succeeds. *)
Lemma search_first (m : string -> option R) (s : string) (r : R) :
  Re.search m s = Some r ->
  exists pre s',
    s = (pre ++ s')%string /\ m s' = Some r
    /\ forall p1 s1, s = (p1 ++ s1)%string ->
                     String.length p1 < String.length pre -> m s1 = None.
Proof.
  induction s as [|c s IH]; simpl; intros H.
  - destruct (m "") eqn:E; [|discriminate]. exists "", "".
    split; [reflexivity|]. split; [congruence|].
    intros p1 s1 _ Hlt. simpl in Hlt. lia.
  - destruct (m (String c s)) eqn:E.
    + exists "", (String c s). split; [reflexivity|]. split; [congruence|].
      intros p1 s1 _ Hlt. simpl in Hlt. lia.
    + apply IH in H as (pre & s' & -> & Hm & Hmin).
      exists (String c pre), s'. split; [reflexivity|]. split; [assumption|].
      intros [|d p1] s1 E1 Hlt; simpl in E1.
      * now subst s1.
      * injection E1 as _ E1. simpl in Hlt. apply (Hmin p1 s1 E1). lia.
Qed.

Lemma search_none (m : string -> option R) (s : string) :
  Re.search m s = None ->
  forall pre s', s = (pre ++ s')%string -> m s' = None.
Proof.
  induction s as [|c s IH]; simpl; intros H pre s' E.
  - symmetry in E. apply append_empty in E as [_ ->].
    destruct (m ""); [discriminate | reflexivity].
  - destruct (m (String c s)) eqn:Em; [discriminate|].
    destruct pre as [|d pre]; simpl in E.
    + now subst s'.
    + injection E as _ E. eapply IH; eauto.
Qed.
End MatcherFacts.

Lemma finditer_at_In {G} (m : string -> option (G * string)) (g : G) (s : string)
      (skip : nat) :
  In g (Re.finditer_at m s skip) ->
  exists pre s' rest, s = (pre ++ s')%string /\ m s' = Some (g, rest).
Proof.
  revert skip. induction s as [|c s IH]; intros skip H.
  - destruct skip; simpl in H; [|contradiction].
    destruct (m "") as [[g0 rest]|] eqn:E; [|contradiction].
    destruct H as [<-|[]]. exists "", "", rest. auto.
  - destruct skip as [|n]; simpl in H.
    + destruct (m (String c s)) as [[g0 rest]|] eqn:E.
      * destruct H as [<-|H].
        -- exists "", (String c s), rest. auto.
        -- apply IH in H as (pre & s' & rest' & -> & Hm).
           exists (String c pre), s', rest'. auto.
      * apply IH in H as (pre & s' & rest' & -> & Hm).
        exists (String c pre), s', rest'. auto.
    + apply IH in H as (pre & s' & rest' & -> & Hm).
      exists (String c pre), s', rest'. auto.
Qed.

(* ------------------------------------------------------------------ *)
(** ** The blocks and the declarations that the parsers read *)

Lemma all_chars_any (s : string) : all_chars Re.any s = true.
Proof. induction s as [|c s IH]; simpl; [reflexivity | assumption]. Qed.

(** A block: the text after [opening], up to the first closing line. *)
Lemma block_some (opening content g : string) :
  Re.search
    (Re.lit opening
       (Re.star_lazy Re.any
          (fun g r => Re.lit closing (fun _ => Some g) r) EmptyString))
    content = Some g ->
  (exists pre post, content = (pre ++ opening ++ g ++ closing ++ post)%string)
  /\ ~ occurs closing g.
Proof.
  intros H. apply search_inv in H as (pre & s1 & -> & H).
  apply lit_inv in H as (s2 & -> & H).
  apply star_lazy_inv in H as (t & s3 & -> & _ & Hk & Hmin).
  cbv beta in Hk. apply lit_inv in Hk as (post & -> & Hg).
  injection Hg as <-. simpl. split.
  - exists pre, post. reflexivity.
  - intros (a & b & ->).
    specialize (Hmin a (closing ++ b)%string eq_refl).
    cbv beta in Hmin. rewrite append_assoc, lit_app in Hmin.
    assert (Some a = None); [|discriminate]. apply Hmin. discriminate.
Qed.

Lemma block_none (opening content : string) :
  Re.search
    (Re.lit opening
       (Re.star_lazy Re.any
          (fun g r => Re.lit closing (fun _ => Some g) r) EmptyString))
    content = None ->
  forall pre g post, content <> (pre ++ opening ++ g ++ closing ++ post)%string.
Proof.
  intros H pre g post E.
  pose proof (search_none _ _ _ H pre _ E) as Hm.
  rewrite lit_app in Hm.
  destruct (star_lazy_complete _ Re.any
              (fun g r => Re.lit closing (fun _ => Some g) r)
              EmptyString g (closing ++ post)%string g (all_chars_any g))
    as (r' & Hr).
  - cbv beta. rewrite lit_app. reflexivity.
  - congruence.
Qed.

(** The block that the search returns is the one of the first opening
    after which a closing line follows. *)
Lemma block_first (opening content g : string) :
  Re.search
    (Re.lit opening
       (Re.star_lazy Re.any
          (fun g r => Re.lit closing (fun _ => Some g) r) EmptyString))
    content = Some g ->
  exists pre post,
    content = (pre ++ opening ++ g ++ closing ++ post)%string
    /\ ~ occurs closing g
    /\ forall pre' g' post',
         content = (pre' ++ opening ++ g' ++ closing ++ post')%string ->
         String.length pre <= String.length pre'.
Proof.
  intros H. apply search_first in H as (pre & s1 & -> & H & Hfirst).
  apply lit_inv in H as (s2 & -> & H).
  apply star_lazy_inv in H as (t & s3 & -> & _ & Hk & Hmin).
  cbv beta in Hk. apply lit_inv in Hk as (post & -> & Hg).
  injection Hg as <-. simpl. exists pre, post.
  split; [reflexivity|]. split.
  - intros (a & b & ->).
    specialize (Hmin a (closing ++ b)%string eq_refl).
    cbv beta in Hmin. rewrite append_assoc, lit_app in Hmin.
    assert (Some a = None); [|discriminate]. apply Hmin. discriminate.
  - intros pre' g' post' E.
    destruct (le_lt_dec (String.length pre) (String.length pre')) as [Hle|Hlt];
      [assumption|].
    exfalso. pose proof (Hfirst pre' _ E Hlt) as Hnone.
    rewrite lit_app in Hnone.
    destruct (star_lazy_complete _ Re.any
                (fun g r => Re.lit closing (fun _ => Some g) r)
                EmptyString g' (closing ++ post')%string g' (all_chars_any g'))
      as (r' & Hr).
    + cbv beta. rewrite lit_app. reflexivity.
    + assert (Hboth : Some r' = None) by (rewrite <- Hr; exact Hnone).
      discriminate.
Qed.

(** X1: the request body that [parse_bru_file] reads.  When the text
    holds a [body:json {] after which a closing line follows, the search
    succeeds; the body is the text that follows the first such opening (no
    text of that form starts earlier) and stops before the first closing
    line after it: the body holds no closing line itself.  A file has no
    body exactly when no [body:json {] is followed by a closing line. *)
Theorem body_block_extent (content : string) :
  match Re.search_body_json content with
  | Some g =>
      exists pre post,
        content = (pre ++ "body:json {" ++ g ++ closing ++ post)%string
        /\ ~ occurs closing g
        /\ forall pre' g' post',
             content = (pre' ++ "body:json {" ++ g' ++ closing ++ post')%string ->
             String.length pre <= String.length pre'
  | None =>
      forall pre g post,
        content <> (pre ++ "body:json {" ++ g ++ closing ++ post)%string
  end.
Proof.
  destruct (Re.search_body_json content) as [g|] eqn:E.
  - now apply block_first.
  - now apply block_none.
Qed.

(** A text with two blocks: the body is the one of the first. *)
Lemma example_two_blocks :
  Re.search_body_json
    (line "body:json {" ++ line "first" ++ line "}"
     ++ line "body:json {" ++ line "second" ++ line "}")%string
  = Some (String Text.nl "first").
Proof. reflexivity. Qed.

(** *** Loops that only assign *)

Lemma for_each_put {X} (upd : X -> EventSystemAuditor -> EventSystemAuditor)
      (body : unit -> X -> M unit) :
  (forall acc x s, body acc x s = Returns tt (upd x s)) ->
  forall l acc s,
    for_each l body acc s = Returns tt (fold_left (fun s x => upd x s) l s).
Proof.
  intros Hb. induction l as [|x l IH]; intros [] s; simpl; [reflexivity|].
  unfold bind. rewrite Hb. apply IH.
Qed.

(** *** The declarations of the enumeration *)

Lemma match_const_inv (s g rest : string) :
  Re.match_const s = Some (g, rest) ->
  run_of (Re.other_than Re.dquote) g
  /\ exists w sp1 sp2 sp3,
      s = ("Event" ++ w ++ sp1 ++ "EventType" ++ sp2 ++ "=" ++ sp3
           ++ quoted g ++ rest)%string
      /\ run_of Re.isword w /\ run_of Text.isspace sp1
      /\ run_of Text.isspace sp2 /\ run_of Text.isspace sp3.
Proof.
  unfold Re.match_const. intros H.
  apply lit_inv in H as (s1 & -> & H).
  apply plus_inv in H as (w & s2 & -> & Hw & Hw' & H).
  apply plus_inv in H as (sp1 & s3 & -> & H1 & H1' & H).
  apply lit_inv in H as (s4 & -> & H).
  apply plus_inv in H as (sp2 & s5 & -> & H2 & H2' & H).
  apply lit_inv in H as (s6 & -> & H).
  apply plus_inv in H as (sp3 & s7 & -> & H3 & H3' & H).
  apply lit_inv in H as (s8 & -> & H).
  apply plus_inv in H as (t & s9 & -> & Ht & Ht' & H).
  apply lit_inv in H as (s10 & -> & H).
  injection H as <- <-.
  split; [now split|].
  exists w, sp1, sp2, sp3. unfold run_of, quoted.
  repeat split; auto.
  simpl. rewrite !append_assoc. reflexivity.
Qed.

Lemma In_add_str (x t : string) (s : list string) :
  In t (Py.add_str x s) <-> In t s \/ t = x.
Proof.
  unfold Py.add_str. destruct (existsb (String.eqb x) s) eqn:E.
  - split; [tauto|]. intros [H| ->]; [assumption|].
    apply existsb_exists in E as (y & Hy & Exy).
    apply String.eqb_eq in Exy. now subst.
  - rewrite in_app_iff. simpl. intuition congruence.
Qed.

Lemma enum_fold (l : list string) (s : EventSystemAuditor) :
  let s' :=
    fold_left
      (fun s x => set_event_types_go (Py.add_str x (event_types_go s)) s) l s in
  (base_dir s' = base_dir s /\ go_fields s' = go_fields s
   /\ bruno_events s' = bruno_events s
   /\ event_types_bruno s' = event_types_bruno s /\ results s' = results s)
  /\ (forall t, In t (event_types_go s') <-> In t (event_types_go s) \/ In t l)
  /\ (NoDup (event_types_go s) -> NoDup (event_types_go s')).
Proof.
  revert s. induction l as [|x l IH]; intros s; simpl.
  - repeat split; auto; tauto.
  - destruct (IH (set_event_types_go (Py.add_str x (event_types_go s)) s))
      as ((B & G & E & T & Rs) & Hin & Hnd).
    simpl in B, G, E, T, Rs, Hin, Hnd. repeat split; auto.
    + intros H. apply Hin in H as [H|H]; [|tauto].
      apply In_add_str in H. intuition.
    + intros [H|[<-|H]]; apply Hin; auto; left; apply In_add_str; auto.
    + intros H. apply Hnd. now apply NoDup_add_str.
Qed.

Lemma parse_event_types_enum_run (self : EventSystemAuditor) (content : string) :
  event_types_generated_go (base_dir self) = Some content ->
  parse_event_types_enum self
  = Returns tt
      (fold_left
         (fun s x => set_event_types_go (Py.add_str x (event_types_go s)) s)
         (Re.finditer Re.match_const content) self).
Proof.
  intros H. unfold parse_event_types_enum, bind at 1, get. rewrite H.
  apply (for_each_put
           (fun x s => set_event_types_go (Py.add_str x (event_types_go s)) s)).
  intros [] x s. reflexivity.
Qed.

(** X2: when the enumeration source exists, [parse_event_types_enum]
    returns and records nothing, also when the source declares no
    constant; it keeps the canonical set free of repetitions; every type
    it adds is the nonempty literal, free of double quotes, of a
    declaration [Event<Name> EventType = Q<type>Q] of the source (with
    [Q] the double quote); and every match of the pattern is in the set
    afterwards. *)
Theorem enum_constants (self : EventSystemAuditor) (content : string) :
  event_types_generated_go (base_dir self) = Some content ->
  completes (parse_event_types_enum self) = true
  /\ results (final (parse_event_types_enum self)) = results self
  /\ (NoDup (event_types_go self) ->
      NoDup (event_types_go (final (parse_event_types_enum self))))
  /\ (forall t, In t (event_types_go (final (parse_event_types_enum self))) ->
        In t (event_types_go self)
        \/ (run_of (Re.other_than Re.dquote) t
            /\ exists pre w sp1 sp2 sp3 post,
                content = (pre ++ "Event" ++ w ++ sp1 ++ "EventType" ++ sp2
                           ++ "=" ++ sp3 ++ quoted t ++ post)%string
                /\ run_of Re.isword w /\ run_of Text.isspace sp1
                /\ run_of Text.isspace sp2 /\ run_of Text.isspace sp3))
  /\ (forall t, In t (Re.finditer Re.match_const content) ->
        In t (event_types_go (final (parse_event_types_enum self)))).
Proof.
  intros H. rewrite (parse_event_types_enum_run self content H).
  cbn [completes final].
  destruct (enum_fold (Re.finditer Re.match_const content) self)
    as ((_ & _ & _ & _ & Rs) & Hin & Hnd).
  repeat split; auto.
  - intros t Ht. apply Hin in Ht as [Ht|Ht]; [now left | right].
    apply finditer_at_In in Ht as (pre & s' & rest & -> & Hm).
    apply match_const_inv in Hm as (Hrun & w & sp1 & sp2 & sp3 & -> & Hw).
    split; [assumption|].
    exists pre, w, sp1, sp2, sp3, rest. split; [reflexivity | assumption].
  - intros t Ht. apply Hin. now right.
Qed.

Lemma enum_constants_witness :
  completes (parse_event_types_enum ex_fresh_auditor) = true
  /\ results (final (parse_event_types_enum ex_fresh_auditor))
     = results ex_fresh_auditor
  /\ (NoDup (event_types_go ex_fresh_auditor) ->
      NoDup (event_types_go (final (parse_event_types_enum ex_fresh_auditor))))
  /\ (forall t, In t (event_types_go (final (parse_event_types_enum ex_fresh_auditor))) ->
        In t (event_types_go ex_fresh_auditor)
        \/ (run_of (Re.other_than Re.dquote) t
            /\ exists pre w sp1 sp2 sp3 post,
                example_enum_go
                = (pre ++ "Event" ++ w ++ sp1 ++ "EventType" ++ sp2
                   ++ "=" ++ sp3 ++ quoted t ++ post)%string
                /\ run_of Re.isword w /\ run_of Text.isspace sp1
                /\ run_of Text.isspace sp2 /\ run_of Text.isspace sp3))
  /\ (forall t, In t (Re.finditer Re.match_const example_enum_go) ->
        In t (event_types_go (final (parse_event_types_enum ex_fresh_auditor)))).
Proof. exact (enum_constants ex_fresh_auditor example_enum_go eq_refl). Defined.

(** The enumeration of the example holds the one type [jump]. *)
Lemma example_enum_types :
  event_types_go (final (parse_event_types_enum ex_fresh_auditor)) = ["jump"].
Proof. reflexivity. Qed.

(** *** The fields of the schema *)

Lemma match_field_inv (s g1 g2 g3 rest : string) :
  Re.match_field s = Some ((g1, g2, g3), rest) ->
  run_of Re.isword g1 /\ run_of Re.isgotype g2
  /\ run_of (Re.other_than Re.dquote) g3
  /\ exists sp1 sp2,
      s = (g1 ++ sp1 ++ g2 ++ sp2 ++ "`json:" ++ quoted g3 ++ "`" ++ rest)%string
      /\ run_of Text.isspace sp1 /\ run_of Text.isspace sp2.
Proof.
  unfold Re.match_field. intros H.
  apply plus_inv in H as (w & s2 & -> & Hw & Hw' & H).
  apply plus_inv in H as (sp1 & s3 & -> & H1 & H1' & H).
  apply plus_inv in H as (ty & s4 & -> & Hty & Hty' & H).
  apply plus_inv in H as (sp2 & s5 & -> & H2 & H2' & H).
  apply lit_inv in H as (s6 & -> & H).
  apply plus_inv in H as (t & s7 & -> & Ht & Ht' & H).
  apply lit_inv in H as (s8 & -> & H).
  injection H as <- <- <- <-.
  unfold run_of. repeat split; auto.
  exists sp1, sp2. repeat split; auto.
  unfold quoted. simpl. rewrite !append_assoc. reflexivity.
Qed.

Lemma split_hd_no_sep (sep : ascii) (s : string) :
  all_chars (Re.other_than sep) (hd EmptyString (Text.split sep s)) = true.
Proof.
  induction s as [|c s IH]; simpl; [reflexivity|].
  destruct (Ascii.eqb c sep) eqn:E; simpl; [reflexivity|].
  assert (Hc : Re.other_than sep c = true).
  { unfold Re.other_than. now rewrite Ascii.eqb_sym, E. }
  destruct (Text.split sep s) as [|h t]; simpl in *; now rewrite Hc.
Qed.

Lemma split_hd_all (cls : ascii -> bool) (sep : ascii) (s : string) :
  all_chars cls s = true ->
  all_chars cls (hd EmptyString (Text.split sep s)) = true.
Proof.
  induction s as [|c s IH]; simpl; [reflexivity|].
  intros H. apply andb_prop in H as [Hc Hs].
  destruct (Ascii.eqb c sep); simpl; [reflexivity|].
  specialize (IH Hs).
  destruct (Text.split sep s) as [|h t]; simpl in *; now rewrite Hc.
Qed.

Lemma In_set {V} (k k' : string) (v v' : V) (d : Py.dict V) :
  In (k', v') (Py.set k v d) -> (k' = k /\ v' = v) \/ In (k', v') d.
Proof.
  induction d as [|[k0 v0] d IH]; simpl.
  - intros [H|[]]. left. split; congruence.
  - destruct (String.eqb k0 k).
    + intros [H|H]; [left; split; congruence | right; now right].
    + intros [H|H]; [right; now left|].
      apply IH in H as [H|H]; [now left | right; now right].
Qed.

Lemma contains_set {V} (k k' : string) (v : V) (d : Py.dict V) :
  Py.contains k' (Py.set k v d) = String.eqb k k' || Py.contains k' d.
Proof.
  unfold Py.contains. induction d as [|[k0 v0] d IH]; simpl.
  - now rewrite orb_false_r.
  - destruct (String.eqb_spec k0 k) as [->|Hne]; simpl.
    + now destruct (String.eqb k k').
    + rewrite IH. now destruct (String.eqb k0 k'), (String.eqb k k').
Qed.

Lemma fields_fold (l : list (string * string * string)) (s : EventSystemAuditor) :
  let s' :=
    fold_left
      (fun s m => set_go_fields
                    (Py.set (field_key (snd m)) (field_of_match m) (go_fields s)) s)
      l s in
  (base_dir s' = base_dir s /\ bruno_events s' = bruno_events s
   /\ event_types_go s' = event_types_go s
   /\ event_types_bruno s' = event_types_bruno s /\ results s' = results s)
  /\ (NoDup (Py.keys (go_fields s)) -> NoDup (Py.keys (go_fields s')))
  /\ (forall k f, In (k, f) (go_fields s') ->
        In (k, f) (go_fields s)
        \/ exists m, In m l /\ k = field_key (snd m) /\ f = field_of_match m)
  /\ (forall k, Py.contains k (go_fields s') = true <->
        Py.contains k (go_fields s) = true
        \/ exists m, In m l /\ k = field_key (snd m)).
Proof.
  revert s. induction l as [|m l IH]; intros s; simpl.
  - repeat split; auto. intros [H|(m & [] & _)]. exact H.
  - destruct (IH (set_go_fields
                    (Py.set (field_key (snd m)) (field_of_match m) (go_fields s)) s))
      as ((B & E & G & T & Rs) & Hnd & Hin & Hc).
    simpl in B, E, G, T, Rs, Hnd, Hin, Hc. repeat split; auto.
    + intros H. apply Hnd. now apply keys_set_NoDup.
    + intros k f H. apply Hin in H as [H|(m' & Hm' & Hk)].
      * apply In_set in H as [[-> ->]|H]; [right | now left].
        exists m. repeat split; auto.
      * right. exists m'. split; [now right | assumption].
    + intros H. apply Hc in H as [H|(m' & Hm' & Hk)].
      * rewrite contains_set in H. apply orb_prop in H as [H|H]; [right | now left].
        apply String.eqb_eq in H. exists m. split; [now left | now symmetry].
      * right. exists m'. split; [now right | assumption].
    + intros [H|(m' & [<-|Hm'] & Hk)]; apply Hc.
      * left. rewrite contains_set, H. apply orb_true_r.
      * left. rewrite contains_set. subst k. now rewrite String.eqb_refl.
      * right. exists m'. now split.
Qed.

Lemma parse_go_struct_run (self : EventSystemAuditor) (content body : string) :
  events_go (base_dir self) = Some content ->
  Re.search_raw_event content = Some body ->
  parse_go_struct self
  = Returns tt
      (fold_left
         (fun s m => set_go_fields
                       (Py.set (field_key (snd m)) (field_of_match m) (go_fields s)) s)
         (Re.finditer Re.match_field body) self).
Proof.
  intros H Hb. unfold parse_go_struct, bind at 1, get. rewrite H, Hb.
  apply (for_each_put
           (fun m s => set_go_fields
                         (Py.set (field_key (snd m)) (field_of_match m) (go_fields s)) s)).
  intros [] [[n ty] tag] s. reflexivity.
Qed.

(** X3: when the schema source holds the [RawEvent] struct,
    [parse_go_struct] returns and records nothing.  Starting from an empty
    field mapping, the keys of the mapping are distinct; every entry is
    stored under its own [json_name], which holds no comma and no double
    quote; it comes from a field declaration of the struct body, of the
    form [<name> <type> `json:Q<tag>Q`] (with [Q] the double quote), whose
    name is a nonempty run of word characters, whose key is the part of
    the tag before its first comma, and which is required exactly when no
    comma-separated part of the tag is [omitempty]; the key of every match
    of the field pattern is in the mapping; and the struct body is the
    text up to the first closing line after [type RawEvent struct {]. *)
Theorem schema_fields (self : EventSystemAuditor) (content body : string) :
  events_go (base_dir self) = Some content ->
  Re.search_raw_event content = Some body ->
  go_fields self = [] ->
  completes (parse_go_struct self) = true
  /\ results (final (parse_go_struct self)) = results self
  /\ NoDup (Py.keys (go_fields (final (parse_go_struct self))))
  /\ (forall k f, In (k, f) (go_fields (final (parse_go_struct self))) ->
        json_name f = k
        /\ all_chars (Re.other_than ","%char) k = true
        /\ all_chars (Re.other_than Re.dquote) k = true
        /\ run_of Re.isword (name f) /\ run_of Re.isgotype (go_type f)
        /\ exists tag pre sp1 sp2 post,
            body = (pre ++ name f ++ sp1 ++ go_type f ++ sp2
                    ++ "`json:" ++ quoted tag ++ "`" ++ post)%string
            /\ run_of Text.isspace sp1 /\ run_of Text.isspace sp2
            /\ k = hd EmptyString (Text.split ","%char tag)
            /\ is_required f
               = negb (existsb (String.eqb "omitempty") (Text.split ","%char tag)))
  /\ (forall m, In m (Re.finditer Re.match_field body) ->
        Py.contains (hd EmptyString (Text.split ","%char (snd m)))
                    (go_fields (final (parse_go_struct self))) = true)
  /\ (exists pre post,
         content = (pre ++ "type RawEvent struct {" ++ body ++ closing ++ post)%string)
  /\ ~ occurs closing body.
Proof.
  intros H Hb Hempty. rewrite (parse_go_struct_run self content body H Hb).
  cbn [completes final].
  destruct (fields_fold (Re.finditer Re.match_field body) self)
    as ((_ & _ & _ & _ & Rs) & Hnd & Hin & Hc).
  rewrite Hempty in *.
  split; [reflexivity|]. split; [assumption|].
  split; [apply Hnd; constructor|].
  split; [|split; [|exact (block_some "type RawEvent struct {" content body Hb)]].
  - intros k f Hkf. apply Hin in Hkf as [[]|([[n ty] tag] & Hm & -> & ->)].
    apply finditer_at_In in Hm as (pre & s' & rest & -> & Hm).
    apply match_field_inv in Hm as (Hn & Hty & Htag & sp1 & sp2 & -> & H1 & H2).
    simpl. unfold field_key.
    split; [reflexivity|]. split; [apply split_hd_no_sep|].
    split; [apply split_hd_all, Htag|]. split; [assumption|]. split; [assumption|].
    exists tag, pre, sp1, sp2, rest. repeat split; auto; apply H1 || apply H2.
  - intros m Hm. apply Hc. right. exists m. now split.
Qed.

Lemma schema_fields_witness :
  completes (parse_go_struct ex_fresh_auditor) = true
  /\ results (final (parse_go_struct ex_fresh_auditor)) = results ex_fresh_auditor
  /\ NoDup (Py.keys (go_fields (final (parse_go_struct ex_fresh_auditor))))
  /\ (forall k f, In (k, f) (go_fields (final (parse_go_struct ex_fresh_auditor))) ->
        json_name f = k
        /\ all_chars (Re.other_than ","%char) k = true
        /\ all_chars (Re.other_than Re.dquote) k = true
        /\ run_of Re.isword (name f) /\ run_of Re.isgotype (go_type f)
        /\ exists tag pre sp1 sp2 post,
            example_struct_body
            = (pre ++ name f ++ sp1 ++ go_type f ++ sp2
               ++ "`json:" ++ quoted tag ++ "`" ++ post)%string
            /\ run_of Text.isspace sp1 /\ run_of Text.isspace sp2
            /\ k = hd EmptyString (Text.split ","%char tag)
            /\ is_required f
               = negb (existsb (String.eqb "omitempty") (Text.split ","%char tag)))
  /\ (forall m, In m (Re.finditer Re.match_field example_struct_body) ->
        Py.contains (hd EmptyString (Text.split ","%char (snd m)))
                    (go_fields (final (parse_go_struct ex_fresh_auditor))) = true)
  /\ (exists pre post,
         example_events_go
         = (pre ++ "type RawEvent struct {" ++ example_struct_body
            ++ closing ++ post)%string)
  /\ ~ occurs closing example_struct_body.
Proof.
  exact (schema_fields ex_fresh_auditor example_events_go example_struct_body
           eq_refl eq_refl eq_refl).
Defined.

(** The schema of the example: three keys, of which [type] is required. *)
Lemma example_schema :
  map (fun kf => (fst kf, is_required (snd kf)))
      (go_fields (final (parse_go_struct ex_fresh_auditor)))
  = [("type", true); ("match_id", false); ("player_guid", false)].
Proof. reflexivity. Qed.

(* ------------------------------------------------------------------ *)
(** ** The loader, file by file *)

Lemma observed_from_hashable (l : list BrunoEvent) (s : list json) :
  (forall v, In v s -> Py.hashable v = true) ->
  forall v, In v (fold_left observe_step l s) -> Py.hashable v = true.
Proof.
  revert s. induction l as [|e l IH]; intros s Hs v Hv; simpl in Hv; [auto|].
  apply (IH (observe_step s e)); [|assumption].
  intros w Hw. unfold observe_step in Hw.
  destruct (Py.hashable (event_type e)) eqn:E; [|auto].
  apply In_add in Hw as [Hw| ->]; auto.
Qed.

Section LoaderCases.
Variable json_loads : string -> json + string.

(** X4: a body that decodes to a value other than an object (an array
    of events, a string, a number) makes [parse_bru_file] raise an
    [AttributeError]; the loader catches it, records exactly one issue
    naming the file, the failed-to-parse Error with the text of the
    exception, and goes on: no sample of the corpus comes from the
    file, the corpus and the observed set are what they are without
    it, and no other issue names the file over the whole run. *)
Theorem non_object_body_is_rejected (self : EventSystemAuditor)
        (files : list bru_file) (f : bru_file) (g : string) (v : json) :
  bruno_dir (base_dir self) = Some files ->
  NoDup (bru_names files) ->
  In f files ->
  Re.search_body_json (bru_text f) = Some g ->
  json_loads (Text.strip g) = inl v ->
  (forall members, v <> JObj members) ->
  let file := pathlib.name (bru_path f) in
  let e := AttributeError
             ("'" ++ Py.type_name v ++ "' object has no attribute 'get'")%string in
  let self' := final (parse_bruno_files json_loads self) in
  let self'' := final (parse_bruno_files json_loads
                         (set_bruno_dir (Some (without f files)) self)) in
  (forall s, parse_bru_file json_loads f s = Raises e s)
  /\ completes (parse_bruno_files json_loads self) = true
  /\ count (names_file file) (recorded (parse_bruno_files json_loads) self) = 1
  /\ In (Error (FailedToParse file e)) (recorded (parse_bruno_files json_loads) self)
  /\ (forall ev, In ev (bruno_events self') ->
                 In ev (bruno_events self) \/ file_of ev <> file)
  /\ bruno_events self' = bruno_events self''
  /\ event_types_bruno self' = event_types_bruno self''
  /\ count (names_file file)
           (errors (results (final (run_audit json_loads (init (base_dir self)))))) = 1.
Proof.
  intros Hdir Hnd Hin Hbody Hjson Hv file e self' self''.
  assert (Hread : read json_loads f = NotADict v).
  { unfold read. rewrite Hbody, Hjson. destruct v; try reflexivity.
    now destruct (Hv members). }
  assert (Hnone : file_sample json_loads f = []).
  { unfold file_sample. now rewrite Hread. }
  assert (Hiss : file_issues json_loads f = [Error (FailedToParse file e)]).
  { unfold file_issues. now rewrite Hread. }
  destruct (corpus_without json_loads self files f Hdir Hnd Hin Hnone)
    as (Hev & Hty & Hfrom & _).
  split; [intros s; now rewrite parse_bru_file_read, Hread|].
  split.
  { destruct (parse_bruno_files_loads json_loads self files Hdir) as (s & -> & _).
    reflexivity. }
  split.
  { rewrite (count_file_issues json_loads _ self files f Hdir Hnd Hin); [|auto].
    rewrite Hiss. unfold count, names_file. simpl. fold file.
    now rewrite String.eqb_refl. }
  split.
  { rewrite (recorded_loads json_loads self files Hdir).
    apply in_flat_map. exists f. split; [now apply sorted_paths_In|].
    rewrite Hiss. now left. }
  split; [exact Hfrom|]. split; [exact Hev|]. split; [exact Hty|].
  unfold file at 1.
  rewrite (run_names_file json_loads (base_dir self) files f Hdir Hnd Hin Hnone), Hiss.
  unfold count, names_file. simpl. fold file. now rewrite String.eqb_refl.
Qed.

(** X5: a body that decodes to an object always yields a sample, the
    only one of the corpus with the name of the file: its payload is
    the decoded object with distinct keys, its type the value of
    [type] or the empty string when the key is absent, its name the
    stripped [name] of the [meta] block or else the stem of the file.
    When the type can be hashed it joins the observed set and the
    loader records nothing for the file.  When it cannot (an array or
    an object) the sample stays in the corpus all the same, the type
    stays out of the observed set, and the loader records exactly one
    issue naming the file, the failed-to-parse Error with the text of
    the [TypeError]. *)
Theorem object_body_is_loaded (self : EventSystemAuditor)
        (files : list bru_file) (f : bru_file) (g : string)
        (members : list (string * json)) :
  bruno_dir (base_dir self) = Some files ->
  NoDup (bru_names files) ->
  In f files ->
  Re.search_body_json (bru_text f) = Some g ->
  json_loads (Text.strip g) = inl (JObj members) ->
  bruno_events self = [] ->
  event_types_bruno self = [] ->
  let file := pathlib.name (bru_path f) in
  let ty := Py.get "type" (JStr EmptyString) (Py.of_members members) in
  let self' := final (parse_bruno_files json_loads self) in
  (exists ev,
      In ev (bruno_events self')
      /\ file_path ev = bru_path f
      /\ payload ev = Py.of_members members
      /\ event_type ev = ty
      /\ event_name ev = match Re.search_meta_name (bru_text f) with
                         | Some n => Text.strip n
                         | None => pathlib.stem (bru_path f)
                         end
      /\ forall ev', In ev' (bruno_events self') -> file_of ev' = file -> ev' = ev)
  /\ NoDup (Py.keys (Py.of_members members))
  /\ (Py.contains "type" (Py.of_members members) = false -> ty = JStr EmptyString)
  /\ (forall v, In v (event_types_bruno self') -> Py.hashable v = true)
  /\ if Py.hashable ty then
       Py.mem ty (event_types_bruno self') = true
       /\ count (names_file file) (recorded (parse_bruno_files json_loads) self) = 0
     else
       count (names_file file) (recorded (parse_bruno_files json_loads) self) = 1
       /\ In (Error (FailedToParse file
                       (TypeError ("unhashable type: '" ++ Py.type_name ty ++ "'")%string)))
             (recorded (parse_bruno_files json_loads) self).
Proof.
  intros Hdir Hnd Hin Hbody Hjson Hev0 Hty0 file ty self'.
  set (ev := {| file_path := bru_path f;
                event_name := match Re.search_meta_name (bru_text f) with
                              | Some n => Text.strip n
                              | None => pathlib.stem (bru_path f)
                              end;
                event_type := ty;
                payload := Py.of_members members |}).
  assert (Hread : read json_loads f = IsSample ev).
  { unfold read. now rewrite Hbody, Hjson. }
  assert (Hsample : file_sample json_loads f = [ev]).
  { unfold file_sample. now rewrite Hread. }
  assert (Hsorted : In f (sorted_paths files)) by now apply sorted_paths_In.
  destruct (parse_bruno_files_loads json_loads self files Hdir)
    as (s & E & _ & _ & _ & Hevs & Htys & _ & _).
  assert (Hfinal : self' = s) by (unfold self'; now rewrite E).
  rewrite Hev0 in Hevs. rewrite Hty0 in Htys. simpl in Hevs.
  assert (Hinev : In ev (bruno_events s)).
  { rewrite Hevs. apply in_flat_map. exists f. split; [assumption|].
    rewrite Hsample. now left. }
  rewrite Hfinal.
  split.
  { exists ev. repeat split; auto.
    intros ev' Hev' Hname.
    apply (NoDup_map_inj file_of (bruno_events s)); auto.
    rewrite Hevs. apply samples_named_apart. now apply sorted_names_distinct. }
  split; [apply of_members_NoDup|].
  split.
  { intros Hc. unfold ty, Py.get. unfold Py.contains in Hc.
    destruct (find (fun kv => String.eqb (fst kv) "type") (Py.of_members members))
      as [kv|] eqn:Ef; [|reflexivity].
    apply find_some in Ef as [Hkv Hk].
    assert (existsb (fun kv => String.eqb (fst kv) "type") (Py.of_members members)
            = true); [|congruence].
    apply existsb_exists. now exists kv. }
  split.
  { rewrite Htys. apply observed_from_hashable. intros v []. }
  assert (Hissues : file_issues json_loads f
                    = if Py.hashable ty then []
                      else [Error (FailedToParse file (unhashable ty))]).
  { unfold file_issues. now rewrite Hread. }
  destruct (Py.hashable ty) eqn:Hh.
  - split.
    + rewrite Htys. apply (observed_from_mem _ _ ev); [|exact Hh].
      rewrite <- Hevs. exact Hinev.
    + rewrite (count_file_issues json_loads _ self files f Hdir Hnd Hin); [|auto].
      now rewrite Hissues.
  - split.
    + rewrite (count_file_issues json_loads _ self files f Hdir Hnd Hin); [|auto].
      rewrite Hissues. unfold count, names_file. simpl. fold file.
      now rewrite String.eqb_refl.
    + rewrite (recorded_loads json_loads self files Hdir).
      apply in_flat_map. exists f. split; [assumption|].
      rewrite Hissues. now left.
Qed.
End LoaderCases.

Lemma non_object_body_is_rejected_witness :
  (forall s, parse_bru_file example_json_loads_more ex_batch_file s
             = Raises (AttributeError "'list' object has no attribute 'get'") s)
  /\ completes (parse_bruno_files example_json_loads_more ex_batch_auditor) = true
  /\ count (names_file "Batch.bru")
           (recorded (parse_bruno_files example_json_loads_more) ex_batch_auditor) = 1
  /\ In (Error (FailedToParse "Batch.bru"
                  (AttributeError "'list' object has no attribute 'get'")))
        (recorded (parse_bruno_files example_json_loads_more) ex_batch_auditor)
  /\ (forall ev,
         In ev (bruno_events
                  (final (parse_bruno_files example_json_loads_more ex_batch_auditor))) ->
         In ev (bruno_events ex_batch_auditor) \/ file_of ev <> "Batch.bru")
  /\ bruno_events (final (parse_bruno_files example_json_loads_more ex_batch_auditor))
     = bruno_events
         (final (parse_bruno_files example_json_loads_more
                   (set_bruno_dir (Some (without ex_batch_file ex_batch_files))
                      ex_batch_auditor)))
  /\ event_types_bruno
       (final (parse_bruno_files example_json_loads_more ex_batch_auditor))
     = event_types_bruno
         (final (parse_bruno_files example_json_loads_more
                   (set_bruno_dir (Some (without ex_batch_file ex_batch_files))
                      ex_batch_auditor)))
  /\ count (names_file "Batch.bru")
           (errors (results (final (run_audit example_json_loads_more
                                      (init (base_dir ex_batch_auditor)))))) = 1.
Proof.
  apply (non_object_body_is_rejected example_json_loads_more ex_batch_auditor
           ex_batch_files ex_batch_file (String Text.nl jump_batch)
           (JArr [JObj [("type", JStr "jump"); ("player_guid", JStr "abc")]])).
  - reflexivity.
  - apply distinct_NoDup. reflexivity.
  - simpl. tauto.
  - reflexivity.
  - reflexivity.
  - discriminate.
Defined.

Lemma object_body_is_loaded_witness :
  (exists ev,
      In ev (bruno_events
               (final (parse_bruno_files example_json_loads_more ex_list_type_auditor)))
      /\ file_path ev = bru_path ex_list_type_file
      /\ payload ev = Py.of_members [("type", JArr [JStr "jump"])]
      /\ event_type ev
         = Py.get "type" (JStr EmptyString) (Py.of_members [("type", JArr [JStr "jump"])])
      /\ event_name ev = match Re.search_meta_name (bru_text ex_list_type_file) with
                         | Some n => Text.strip n
                         | None => pathlib.stem (bru_path ex_list_type_file)
                         end
      /\ forall ev',
          In ev' (bruno_events
                    (final (parse_bruno_files example_json_loads_more
                              ex_list_type_auditor))) ->
          file_of ev' = "Listed.bru" -> ev' = ev)
  /\ NoDup (Py.keys (Py.of_members [("type", JArr [JStr "jump"])]))
  /\ (Py.contains "type" (Py.of_members [("type", JArr [JStr "jump"])]) = false ->
      Py.get "type" (JStr EmptyString) (Py.of_members [("type", JArr [JStr "jump"])])
      = JStr EmptyString)
  /\ (forall v,
         In v (event_types_bruno
                 (final (parse_bruno_files example_json_loads_more
                           ex_list_type_auditor))) ->
         Py.hashable v = true)
  /\ count (names_file "Listed.bru")
           (recorded (parse_bruno_files example_json_loads_more) ex_list_type_auditor)
     = 1
  /\ In (Error (FailedToParse "Listed.bru" (TypeError "unhashable type: 'list'")))
        (recorded (parse_bruno_files example_json_loads_more) ex_list_type_auditor).
Proof.
  apply (object_body_is_loaded example_json_loads_more ex_list_type_auditor
           ex_list_type_files ex_list_type_file (String Text.nl jump_list_type)
           [("type", JArr [JStr "jump"])]).
  - reflexivity.
  - apply distinct_NoDup. reflexivity.
  - simpl. tauto.
  - reflexivity.
  - reflexivity.
  - reflexivity.
  - reflexivity.
Defined.

(** The corpus of that example holds both samples, in the order of the
    file names, and its observed set the one type that can be hashed. *)
Lemma example_list_type_corpus :
  map (fun e => (file_of e, event_type e))
      (bruno_events (final (parse_bruno_files example_json_loads_more
                              ex_list_type_auditor)))
  = [("Jump.bru", JStr "jump"); ("Listed.bru", JArr [JStr "jump"])]
  /\ event_types_bruno (final (parse_bruno_files example_json_loads_more
                                 ex_list_type_auditor))
     = [JStr "jump"].
Proof. split; reflexivity. Qed.

(* ------------------------------------------------------------------ *)
(** ** The order of the corpus *)

Lemma sorted_perm_eq {A} (R : A -> A -> Prop) (l l' : list A) :
  (forall x y, In x l -> In y l -> R x y -> R y x -> x = y) ->
  StronglySorted R l -> StronglySorted R l' -> Permutation l l' -> l = l'.
Proof.
  revert l'. induction l as [|x l IH]; intros l' Hanti Hs Hs' Hp.
  - now apply Permutation_nil in Hp.
  - destruct l' as [|y l'].
    { symmetry in Hp. now apply Permutation_nil in Hp. }
    apply StronglySorted_inv in Hs as [Hs Hx].
    apply StronglySorted_inv in Hs' as [Hs' Hy].
    rewrite Forall_forall in Hx, Hy.
    assert (Exy : x = y).
    { assert (Hxin : In x (y :: l')) by (apply (Permutation_in _ Hp); now left).
      assert (Hyin : In y (x :: l))
        by (apply (Permutation_in _ (Permutation_sym Hp)); now left).
      destruct Hxin as [->|Hxin]; [reflexivity|].
      destruct Hyin as [->|Hyin]; [reflexivity|].
      apply Hanti; [now left | now right | now apply Hx | now apply Hy]. }
    subst y. f_equal. apply IH; auto.
    + intros a b Ha Hb. apply Hanti; now right.
    + now apply Permutation_cons_inv in Hp.
Qed.

Lemma sorted_paths_sorted (files : list bru_file) :
  StronglySorted
    (fun f g => String.leb (pathlib.name (bru_path f)) (pathlib.name (bru_path g)) = true)
    (sorted_paths files).
Proof.
  apply (sort_sorted bru_file
           (fun f g => String.leb (pathlib.name (bru_path f)) (pathlib.name (bru_path g)))).
  - intros x y. apply String.leb_total.
  - intros x y z. apply string_leb_trans.
Qed.

Lemma sorted_paths_listing (files files' : list bru_file) :
  NoDup (bru_names files) -> Permutation files files' ->
  sorted_paths files = sorted_paths files'.
Proof.
  intros Hnd Hp.
  apply (sorted_perm_eq
           (fun f g => String.leb (pathlib.name (bru_path f))
                                  (pathlib.name (bru_path g)) = true)).
  - intros x y Hx Hy Hxy Hyx.
    apply (NoDup_map_inj (fun f => pathlib.name (bru_path f)) (sorted_paths files));
      auto.
    + now apply sorted_names_distinct.
    + now apply String.leb_antisym.
  - apply sorted_paths_sorted.
  - apply sorted_paths_sorted.
  - rewrite sorted_paths_perm, Hp. symmetry. apply sorted_paths_perm.
Qed.

Lemma sorted_names_ascending (files : list bru_file) :
  NoDup (bru_names files) ->
  StronglySorted ascending (bru_names (sorted_paths files)).
Proof.
  intros Hnd. pose proof (sorted_names_distinct files Hnd) as Hd.
  pose proof (sorted_paths_sorted files) as Hs.
  unfold bru_names. induction Hs as [|x l Hs IH Hx]; simpl; [constructor|].
  simpl in Hd. apply NoDup_cons_iff in Hd as [Hnot Hd].
  constructor; [now apply IH|].
  apply Forall_forall. intros n Hn. split.
  - apply in_map_iff in Hn as (y & <- & Hy).
    rewrite Forall_forall in Hx. now apply Hx.
  - intros <-. contradiction.
Qed.

Section CorpusOrder.
Variable json_loads : string -> json + string.

Lemma sample_names_sorted (l : list bru_file) :
  StronglySorted ascending (bru_names l) ->
  StronglySorted ascending (file_names (flat_map (file_sample json_loads) l)).
Proof.
  unfold bru_names, file_names.
  induction l as [|x l IH]; simpl; intros Hs; [constructor|].
  apply StronglySorted_inv in Hs as [Hs Hx].
  rewrite map_app. specialize (IH Hs).
  destruct (file_sample_short json_loads x) as [->|(ev & Hev)]; [exact IH|].
  rewrite Hev. simpl. constructor; [exact IH|].
  assert (Hname : file_of ev = pathlib.name (bru_path x)).
  { apply (file_sample_path json_loads). rewrite Hev. now left. }
  rewrite Hname. apply Forall_forall. intros n Hn.
  apply in_map_iff in Hn as (e & <- & He).
  apply in_flat_map in He as (y & Hy & He).
  rewrite (file_sample_path json_loads y e He).
  rewrite Forall_forall in Hx. apply Hx.
  exact (in_map (fun f => pathlib.name (bru_path f)) l y Hy).
Qed.

(** X6: the loader goes through the files in the order of their names,
    whatever the order in which the directory lists them: the file names
    of the corpus are strictly ascending, and two listings of the same
    files give the same corpus, the same observed set and the same
    report. *)
Theorem corpus_order (self : EventSystemAuditor) (files files' : list bru_file) :
  bruno_dir (base_dir self) = Some files ->
  NoDup (bru_names files) ->
  Permutation files files' ->
  bruno_events self = [] ->
  let self' := final (parse_bruno_files json_loads self) in
  let self'' := final (parse_bruno_files json_loads
                         (set_bruno_dir (Some files') self)) in
  StronglySorted ascending (file_names (bruno_events self'))
  /\ bruno_events self' = bruno_events self''
  /\ event_types_bruno self' = event_types_bruno self''
  /\ results self' = results self''.
Proof.
  intros Hdir Hnd Hp Hev0 self' self''.
  destruct (parse_bruno_files_loads json_loads self files Hdir)
    as (s & E & _ & _ & _ & Hevs & Htys & Hrep & Hpass).
  assert (Hdir' : bruno_dir (base_dir (set_bruno_dir (Some files') self)) = Some files')
    by reflexivity.
  destruct (parse_bruno_files_loads json_loads _ files' Hdir')
    as (s' & E' & _ & _ & _ & Hevs' & Htys' & Hrep' & Hpass').
  unfold self', self''. rewrite E, E'. simpl final.
  rewrite <- (sorted_paths_listing files files' Hnd Hp) in Hevs', Htys', Hrep'.
  simpl in Hevs', Htys', Hrep', Hpass'.
  split.
  { rewrite Hevs, Hev0. simpl. apply sample_names_sorted.
    now apply sorted_names_ascending. }
  split; [congruence|]. split; [congruence|].
  destruct Hrep as (R1 & R2 & R3), Hrep' as (R1' & R2' & R3').
  apply results_eq; congruence.
Qed.
End CorpusOrder.

Lemma corpus_order_witness :
  StronglySorted ascending
    (file_names (bruno_events
                   (final (parse_bruno_files example_json_loads ex_listing_auditor))))
  /\ bruno_events (final (parse_bruno_files example_json_loads ex_listing_auditor))
     = bruno_events
         (final (parse_bruno_files example_json_loads
                   (set_bruno_dir (Some (rev ex_listing)) ex_listing_auditor)))
  /\ event_types_bruno (final (parse_bruno_files example_json_loads ex_listing_auditor))
     = event_types_bruno
         (final (parse_bruno_files example_json_loads
                   (set_bruno_dir (Some (rev ex_listing)) ex_listing_auditor)))
  /\ results (final (parse_bruno_files example_json_loads ex_listing_auditor))
     = results
         (final (parse_bruno_files example_json_loads
                   (set_bruno_dir (Some (rev ex_listing)) ex_listing_auditor))).
Proof.
  apply (corpus_order example_json_loads ex_listing_auditor ex_listing (rev ex_listing)).
  - reflexivity.
  - apply distinct_NoDup. reflexivity.
  - apply Permutation_rev.
  - reflexivity.
Defined.

(** The corpus of that example: the two samples in the order of the file
    names, which is not the order of the listing. *)
Lemma example_listing_corpus :
  file_names (bruno_events
                (final (parse_bruno_files example_json_loads ex_listing_auditor)))
  = ["Jump.bru"; "Walk.bru"].
Proof. reflexivity. Qed.

(* ------------------------------------------------------------------ *)
(** ** The identity pass, rule by rule *)

Lemma single_player_not_combat (t : string) :
  In t single_player_events -> is_one_of combat_events (JStr t) = false.
Proof.
  intros H.
  assert (Hall : forallb (fun t => negb (is_one_of combat_events (JStr t)))
                         single_player_events = true) by reflexivity.
  rewrite forallb_forall in Hall. apply Hall in H. now apply negb_true_iff in H.
Qed.

Lemma recorded_validate_guid_fields (self : EventSystemAuditor) :
  (forall x, In x (bruno_events self) -> Py.hashable (event_type x) = true) ->
  recorded validate_guid_fields self = flat_map guid_issues (bruno_events self).
Proof.
  intros Hh. apply recorded_logged. now apply validate_guid_fields_logged.
Qed.

Lemma count_guid_sample (self : EventSystemAuditor) (e : BrunoEvent) :
  NoDup (file_names (bruno_events self)) ->
  (forall x, In x (bruno_events self) -> Py.hashable (event_type x) = true) ->
  In e (bruno_events self) ->
  count (names_file (file_of e)) (recorded validate_guid_fields self)
  = count (names_file (file_of e)) (guid_issues e)
  /\ forall i, In i (guid_issues e) -> In i (recorded validate_guid_fields self).
Proof.
  intros Hnd Hh Hin. rewrite (recorded_validate_guid_fields self Hh). split.
  - apply (count_flat_map_unique _ file_of); auto.
    intros x _ Hx. now apply guid_issues_other_sample with (file := file_of e).
  - intros i Hi. apply in_flat_map. now exists e.
Qed.

(** X7: the paired-identity rule.  A sample without the bare [guid] key
    whose type is one of the attacker-and-victim types gets no issue from
    the identity pass when it carries both [attacker_guid] and
    [victim_guid]; otherwise it gets exactly one issue, a Warning that
    lists which of [attacker_guid], [victim_guid] and [player_guid] it
    does carry, in that order. *)
Theorem paired_identity_rule (self : EventSystemAuditor) (e : BrunoEvent) (t : string) :
  NoDup (file_names (bruno_events self)) ->
  (forall x, In x (bruno_events self) -> Py.hashable (event_type x) = true) ->
  In e (bruno_events self) ->
  has_key "guid" e = false ->
  event_type e = JStr t ->
  In t combat_events ->
  if has_key "attacker_guid" e && has_key "victim_guid" e then
    count (names_file (file_of e)) (recorded validate_guid_fields self) = 0
  else
    count (names_file (file_of e)) (recorded validate_guid_fields self) = 1
    /\ In (Warning (CombatShouldHave (file_of e)
                      (filter (fun k => has_key k e)
                              ["attacker_guid"; "victim_guid"; "player_guid"])))
          (recorded validate_guid_fields self).
Proof.
  intros Hnd Hh Hin Hguid Hty Ht.
  destruct (count_guid_sample self e Hnd Hh Hin) as [Hcount Hsub].
  assert (Hc : is_one_of combat_events (event_type e) = true).
  { rewrite Hty. now apply is_one_of_str. }
  unfold guid_issues in Hcount, Hsub. rewrite Hguid, Hc in Hcount, Hsub.
  simpl filter.
  destruct (has_key "attacker_guid" e), (has_key "victim_guid" e);
    simpl in Hcount, Hsub |- *.
  - assumption.
  - split; [|apply Hsub; now left].
    rewrite Hcount. unfold count, names_file. simpl. now rewrite String.eqb_refl.
  - split; [|apply Hsub; now left].
    rewrite Hcount. unfold count, names_file. simpl. now rewrite String.eqb_refl.
  - split; [|apply Hsub; now left].
    rewrite Hcount. unfold count, names_file. simpl. now rewrite String.eqb_refl.
Qed.

Lemma paired_identity_rule_witness :
  count (names_file "Kill.bru") (recorded validate_guid_fields ex_paired_auditor) = 1
  /\ In (Warning (CombatShouldHave "Kill.bru" ["attacker_guid"]))
        (recorded validate_guid_fields ex_paired_auditor).
Proof.
  apply (paired_identity_rule ex_paired_auditor ex_kill_attacker "player_kill").
  - apply distinct_NoDup. reflexivity.
  - intros x [<-|[<-|[]]]; reflexivity.
  - simpl. tauto.
  - reflexivity.
  - reflexivity.
  - simpl. tauto.
Defined.

(** X8: the single-identity rule.  A sample without the bare [guid] key
    whose type is one of the single-actor types gets no issue from the
    identity pass when it carries [player_guid], and otherwise exactly
    one issue, the Warning that asks for [player_guid]. *)
Theorem single_identity_rule (self : EventSystemAuditor) (e : BrunoEvent) (t : string) :
  NoDup (file_names (bruno_events self)) ->
  (forall x, In x (bruno_events self) -> Py.hashable (event_type x) = true) ->
  In e (bruno_events self) ->
  has_key "guid" e = false ->
  event_type e = JStr t ->
  In t single_player_events ->
  if has_key "player_guid" e then
    count (names_file (file_of e)) (recorded validate_guid_fields self) = 0
  else
    count (names_file (file_of e)) (recorded validate_guid_fields self) = 1
    /\ In (Warning (SinglePlayerShouldHave (file_of e)))
          (recorded validate_guid_fields self).
Proof.
  intros Hnd Hh Hin Hguid Hty Ht.
  destruct (count_guid_sample self e Hnd Hh Hin) as [Hcount Hsub].
  assert (Hc : is_one_of combat_events (event_type e) = false).
  { rewrite Hty. now apply single_player_not_combat. }
  assert (Hs : is_one_of single_player_events (event_type e) = true).
  { rewrite Hty. now apply is_one_of_str. }
  unfold guid_issues in Hcount, Hsub. rewrite Hguid, Hc, Hs in Hcount, Hsub.
  destruct (has_key "player_guid" e); simpl in Hcount, Hsub.
  - assumption.
  - split; [|apply Hsub; now left].
    rewrite Hcount. unfold count, names_file. simpl. now rewrite String.eqb_refl.
Qed.

Lemma single_identity_rule_witness :
  count (names_file "Jump.bru") (recorded validate_guid_fields ex_paired_auditor) = 1
  /\ In (Warning (SinglePlayerShouldHave "Jump.bru"))
        (recorded validate_guid_fields ex_paired_auditor).
Proof.
  apply (single_identity_rule ex_paired_auditor ex_jump "jump").
  - apply distinct_NoDup. reflexivity.
  - intros x [<-|[<-|[]]]; reflexivity.
  - simpl. tauto.
  - reflexivity.
  - reflexivity.
  - simpl. tauto.
Defined.

(* ------------------------------------------------------------------ *)
(** ** The order of the coverage report *)

Lemma leb_sorted_ascending (l : list string) :
  StronglySorted (fun x y => String.leb x y = true) l -> NoDup l ->
  StronglySorted ascending l.
Proof.
  induction 1 as [|x l Hs IH Hx]; intros Hnd; [constructor|].
  apply NoDup_cons_iff in Hnd as [Hnot Hnd].
  constructor; [now apply IH|].
  rewrite Forall_forall in Hx. apply Forall_forall. intros y Hy. split.
  - now apply Hx.
  - intros <-. contradiction.
Qed.

Lemma sorted_str_ascending (l : list string) :
  NoDup l -> StronglySorted ascending (Text.sorted_str l).
Proof.
  intros Hnd. apply leb_sorted_ascending.
  - apply (sort_sorted string String.leb).
    + apply String.leb_total.
    + apply string_leb_trans.
  - eapply Permutation_NoDup; [|exact Hnd].
    symmetry. apply sort_perm.
Qed.

Lemma sorted_str_In (l : list string) (t : string) :
  In t (Text.sorted_str l) <-> In t l.
Proof.
  split; apply Permutation_in; [|symmetry]; apply sort_perm.
Qed.

Lemma str_values_map (l : list json) :
  (forall v, In v l -> Py.is_str v = true) -> map JStr (str_values l) = l.
Proof.
  induction l as [|v l IH]; intros H; [reflexivity|].
  assert (Hv : Py.is_str v = true) by (apply H; now left).
  destruct v; try discriminate. simpl. f_equal. apply IH.
  intros w Hw. apply H. now right.
Qed.

Lemma insert_map_JStr (x : string) (l : list string) :
  Text.insert Py.str_le (JStr x) (map JStr l) = map JStr (Text.insert String.leb x l).
Proof.
  induction l as [|y l IH]; simpl; [reflexivity|].
  destruct (String.leb x y); simpl; [reflexivity | now rewrite IH].
Qed.

Lemma sorted_map_JStr (l : list string) :
  Py.sorted (map JStr l) = Some (map JStr (Text.sorted_str l)).
Proof.
  assert (Hsort : Text.sort Py.str_le (map JStr l) = map JStr (Text.sorted_str l)).
  { unfold Text.sorted_str. induction l as [|x l IH]; simpl; [reflexivity|].
    now rewrite IH, insert_map_JStr. }
  assert (Hstr : forallb Py.is_str (map JStr l) = true).
  { apply forallb_forall. intros v Hv. apply in_map_iff in Hv as (t & <- & _).
    reflexivity. }
  destruct l as [|x [|y l]]; try reflexivity.
  unfold Py.sorted. cbn [map] in *. now rewrite Hstr, Hsort.
Qed.

Lemma In_str_values (l : list json) (t : string) :
  In t (str_values l) <-> In (JStr t) l.
Proof.
  unfold str_values. rewrite in_flat_map. split.
  - intros (v & Hv & Ht). destruct v; try contradiction.
    destruct Ht as [->|[]]. assumption.
  - intros H. exists (JStr t). split; [assumption | now left].
Qed.

(** X9: the order of the report of [validate_event_counts] on a loaded
    state whose event types are strings.  The method returns, and what it
    records is, in this order: the count mismatch, if any; one Error per
    canonical type that no sample has, in strictly ascending order of the
    type; one Error per type of a sample that is not canonical, in
    strictly ascending order of the type. *)
Theorem coverage_report_order (self : EventSystemAuditor) :
  NoDup (event_types_go self) ->
  event_types_bruno self = observed (bruno_events self) ->
  (forall e, In e (bruno_events self) -> Py.is_str (event_type e) = true) ->
  exists missing extra,
    completes (validate_event_counts self) = true
    /\ recorded validate_event_counts self
       = ((if ((List.length (event_types_go self) =? 105)
               && (List.length (event_types_bruno self) =? 105)
               && (List.length (bruno_events self) =? 105))%nat
           then []
           else [Error (EventCountMismatch (List.length (event_types_go self))
                          (List.length (event_types_bruno self))
                          (List.length (bruno_events self)) 105)])
          ++ map (fun t => Error (MissingInBruno t)) missing
          ++ map (fun t => Error (ExtraInBruno (JStr t))) extra)%list
    /\ StronglySorted ascending missing
    /\ StronglySorted ascending extra
    /\ (forall t, In t missing <->
                  In t (event_types_go self)
                  /\ ~ exists e, In e (bruno_events self) /\ event_type e = JStr t)
    /\ (forall t, In t extra <->
                  (exists e, In e (bruno_events self) /\ event_type e = JStr t)
                  /\ ~ In t (event_types_go self)).
Proof.
  intros Hgo Hobs Hstr.
  pose proof (extra_strings self Hobs Hstr) as Hextra.
  pose proof (str_values_map _ Hextra) as Hmap.
  pose proof (sorted_map_JStr (str_values (extra_in_bruno self))) as Hsorted.
  rewrite Hmap in Hsorted.
  exists (Text.sorted_str (missing_in_bruno self)),
         (Text.sorted_str (str_values (extra_in_bruno self))).
  split.
  { destruct (validate_event_counts_logged self) as [_ ->].
    rewrite Hsorted. now destruct (extra_in_bruno self). }
  split.
  { rewrite recorded_validate_event_counts. unfold count_issues, coverage_issues, all_match.
    rewrite Hsorted, map_map. reflexivity. }
  split.
  { apply sorted_str_ascending. unfold missing_in_bruno. now apply NoDup_filter_list. }
  split.
  { apply sorted_str_ascending.
    apply (NoDup_map_inv JStr). rewrite Hmap.
    unfold extra_in_bruno. apply NoDup_filter_list. rewrite Hobs. apply observed_NoDup. }
  split.
  - intros t. rewrite sorted_str_In. now apply missing_iff.
  - intros t. rewrite sorted_str_In, In_str_values. now apply extra_iff.
Qed.

Lemma coverage_report_order_witness :
  exists missing extra,
    completes (validate_event_counts ex_coverage_auditor) = true
    /\ recorded validate_event_counts ex_coverage_auditor
       = ((if ((List.length (event_types_go ex_coverage_auditor) =? 105)
               && (List.length (event_types_bruno ex_coverage_auditor) =? 105)
               && (List.length (bruno_events ex_coverage_auditor) =? 105))%nat
           then []
           else [Error (EventCountMismatch
                          (List.length (event_types_go ex_coverage_auditor))
                          (List.length (event_types_bruno ex_coverage_auditor))
                          (List.length (bruno_events ex_coverage_auditor)) 105)])
          ++ map (fun t => Error (MissingInBruno t)) missing
          ++ map (fun t => Error (ExtraInBruno (JStr t))) extra)%list
    /\ StronglySorted ascending missing
    /\ StronglySorted ascending extra
    /\ (forall t, In t missing <->
                  In t (event_types_go ex_coverage_auditor)
                  /\ ~ exists e, In e (bruno_events ex_coverage_auditor)
                                 /\ event_type e = JStr t)
    /\ (forall t, In t extra <->
                  (exists e, In e (bruno_events ex_coverage_auditor)
                             /\ event_type e = JStr t)
                  /\ ~ In t (event_types_go ex_coverage_auditor)).
Proof.
  apply (coverage_report_order ex_coverage_auditor).
  - apply distinct_NoDup. reflexivity.
  - reflexivity.
  - intros e [<-|[<-|[]]]; reflexivity.
Defined.

(** The report of that example: the mismatch, the two missing types in
    ascending order, the unknown type. *)
Lemma example_coverage_report :
  recorded validate_event_counts ex_coverage_auditor
  = [Error (EventCountMismatch 3 2 2 105);
     Error (MissingInBruno "say"); Error (MissingInBruno "walk");
     Error (ExtraInBruno (JStr "fly"))].
Proof. reflexivity. Qed.

(* ------------------------------------------------------------------ *)
(** ** The counter of passed checks *)

(** A loop whose steps all return, described by an invariant on the
    elements done, the local variables and the auditor. *)
Lemma for_each_inv {X L} (P : list X -> L -> EventSystemAuditor -> Prop)
      (body : L -> X -> M L) (ok : X -> Prop) :
  (forall done acc x self, ok x -> P done acc self ->
      exists acc' self',
        body acc x self = Returns acc' self' /\ P (done ++ [x]) acc' self') ->
  forall l done acc self,
    (forall x, In x l -> ok x) -> P done acc self ->
    exists acc' self',
      for_each l body acc self = Returns acc' self' /\ P (done ++ l) acc' self'.
Proof.
  intros Hbody. induction l as [|x l IH]; intros done acc self Hok HP; simpl.
  - exists acc, self. rewrite app_nil_r. split; [reflexivity | assumption].
  - unfold bind.
    destruct (Hbody done acc x self (Hok x (or_introl eq_refl)) HP)
      as (acc1 & self1 & -> & H1).
    destruct (IH (done ++ [x]) acc1 self1 (fun y Hy => Hok y (or_intror Hy)) H1)
      as (acc2 & self2 & -> & H2).
    exists acc2, self2. rewrite <- app_assoc in H2. split; [reflexivity | assumption].
Qed.

Lemma nonempty_app {A} (a b : list A) : nonempty (a ++ b) = nonempty a || nonempty b.
Proof. now destruct a. Qed.

Lemma nonempty_snoc {A} (a : list A) (x : A) : nonempty (a ++ [x]) = true.
Proof. now destruct a. Qed.

Lemma validate_bruno_payloads_passed (self : EventSystemAuditor) :
  passed (results (final (validate_bruno_payloads self)))
  = passed (results self)
    + (if nonempty (flat_map (payload_issues (go_fields self)) (bruno_events self))
       then 0 else 1).
Proof.
  remember (validate_bruno_payloads self) as o eqn:Ho.
  unfold validate_bruno_payloads, bind at 1 in Ho. simpl in Ho. unfold bind at 1 in Ho.
  set (P := fun (done : list BrunoEvent) (locals : payload_locals)
                (s : EventSystemAuditor) =>
              passed (results s) = passed (results self)
              /\ found_any locals
                 = nonempty (flat_map (payload_issues (go_fields self)) done)).
  match type of Ho with
  | context [for_each ?xs ?b ?a0 ?s0] =>
      assert (Hstep : forall done acc x s, True -> P done acc s ->
                 exists acc' s', b acc x s = Returns acc' s' /\ P (done ++ [x]) acc' s');
      [ clear Ho
      | destruct (for_each_inv P b (fun _ => True) Hstep xs [] a0 s0
                    (fun _ _ => I) (conj eq_refl eq_refl))
          as (locals & s1 & E & Hp & Hf);
        rewrite E in Ho ]
  end.
  - intros done acc e s _ [Hp Hf]. unfold P.
    rewrite flat_map_app, nonempty_app. simpl flat_map. rewrite app_nil_r.
    unfold payload_issues at 2, has_key, file_of.
    destruct (Py.contains "type" (payload e)); cbn [negb].
    + set (Q := fun (donek : list (string * json)) (locals : payload_locals)
                    (s' : EventSystemAuditor) =>
                  passed (results s') = passed (results self)
                  /\ found_any locals
                     = found_any acc
                       || nonempty (flat_map (key_issues (go_fields self)
                                                (pathlib.name (file_path e))) donek)).
      match goal with
      | |- context [for_each ?ys ?c ?a1 ?s1] =>
          assert (Hin : forall donek acc1 kv s', True -> Q donek acc1 s' ->
                     exists acc' s'',
                       c acc1 kv s' = Returns acc' s'' /\ Q (donek ++ [kv]) acc' s'');
          [ | destruct (for_each_inv Q c (fun _ => True) Hin ys [] a1 s1
                          (fun _ _ => I)
                          (conj Hp (eq_sym (orb_false_r (found_any acc)))))
                as (acc' & s' & -> & Hp' & Hf') ]
      end.
      * intros donek acc1 [k v] s' _ [Hp1 Hf1]. unfold Q.
        rewrite flat_map_app, nonempty_app. simpl flat_map. rewrite app_nil_r.
        unfold key_issues. simpl fst.
        destruct (Py.contains k (go_fields self)); cbn [negb].
        -- exists acc1, s'. split; [reflexivity|]. split; [assumption|].
           simpl. now rewrite orb_false_r.
        -- simpl nonempty. rewrite !orb_true_r.
           destruct (String.eqb k "event_type");
             [| destruct (String.eqb k "guid")];
             unfold bind, results_add_error, ret;
             eexists _, _; (split; [reflexivity|]); (split; [exact Hp1|]);
             unfold found_any; simpl; rewrite ?nonempty_snoc, ?orb_true_r;
             reflexivity.
      * exists acc', s'. split; [reflexivity|]. split; [assumption|].
        simpl in Hf'. now rewrite Hf', Hf.
    + unfold bind, results_add_error, ret. eexists _, _.
      split; [reflexivity|]. split; [exact Hp|].
      unfold found_any. simpl. now rewrite nonempty_snoc, !orb_true_r.
  - simpl in Hf. unfold found_any in Hf.
    rewrite <- Hf.
    destruct (nonempty (field_mismatches locals)),
             (nonempty (unknown_fields locals)),
             (nonempty (missing_type locals));
      simpl in Ho; subst o; simpl; lia.
Qed.

Lemma validate_guid_fields_passed_when (self : EventSystemAuditor) :
  (forall x, In x (bruno_events self) -> guid_raises x = false) ->
  passed (results (final (validate_guid_fields self)))
  = passed (results self)
    + (if negb (existsb (has_key "guid") (bruno_events self))
          && (warnings (results (final (validate_guid_fields self))) =? 0)%nat
       then 1 else 0).
Proof.
  intros Hh.
  remember (validate_guid_fields self) as o eqn:Ho.
  unfold validate_guid_fields, bind at 1 in Ho. simpl in Ho. unfold bind at 1 in Ho.
  set (P := fun (done : list BrunoEvent) (found : bool) (s : EventSystemAuditor) =>
              passed (results s) = passed (results self)
              /\ found = existsb (has_key "guid") done).
  match type of Ho with
  | context [for_each ?xs ?b ?a0 ?s0] =>
      assert (Hstep : forall done acc x s,
                 guid_raises x = false -> P done acc s ->
                 exists acc' s', b acc x s = Returns acc' s' /\ P (done ++ [x]) acc' s');
      [ clear Ho
      | destruct (for_each_inv P b (fun x => guid_raises x = false)
                    Hstep xs [] a0 s0 Hh (conj eq_refl eq_refl))
          as (found & s1 & E & Hp & Hf);
        rewrite E in Ho ]
  end.
  - intros done found e s He [Hp Hf]. unfold P.
    rewrite existsb_app. simpl existsb. rewrite orb_false_r. unfold has_key at 2.
    unfold guid_raises, has_key in He.
    generalize combat_events, single_player_events. intros combat single.
    destruct (Py.contains "guid" (payload e)); cbv iota.
    + unfold bind, results_add_error, ret. eexists _, _.
      split; [reflexivity|]. split; [exact Hp | now rewrite orb_true_r].
    + simpl in He. apply negb_false_iff in He.
      rewrite orb_false_r. unfold in_set, Py.in_literal. rewrite He.
      unfold bind at 1. unfold ret at 1.
      match goal with
      | |- context [existsb ?f combat] => destruct (existsb f combat)
      end.
      * destruct (negb _); unfold bind, results_add_warning, ret; eexists _, _;
          (split; [reflexivity|]); (split; [exact Hp | exact Hf]).
      * unfold bind at 1. unfold ret at 1.
        match goal with
        | |- context [existsb ?f single] => destruct (existsb f single)
        end.
        -- destruct (negb _); unfold bind, results_add_warning, ret; eexists _, _;
             (split; [reflexivity|]); (split; [exact Hp | exact Hf]).
        -- unfold ret. eexists _, _. split; [reflexivity|]. split; [exact Hp | exact Hf].
  - simpl in Hf. rewrite <- Hf. unfold bind, get in Ho.
    destruct (negb found && (warnings (results s1) =? 0)%nat) eqn:Ec;
      subst o; simpl; rewrite Ec; lia.
Qed.

Lemma validate_guid_fields_passed (self : EventSystemAuditor) :
  (forall x, In x (bruno_events self) -> Py.hashable (event_type x) = true) ->
  passed (results (final (validate_guid_fields self)))
  = passed (results self)
    + (if negb (existsb (has_key "guid") (bruno_events self))
          && (warnings (results (final (validate_guid_fields self))) =? 0)%nat
       then 1 else 0).
Proof.
  intros Hh. apply validate_guid_fields_passed_when.
  intros x Hx. unfold guid_raises. rewrite (Hh x Hx). apply andb_false_r.
Qed.

Lemma for_each_add_error {X} (f : X -> message) (l : list X) (self : EventSystemAuditor) :
  exists self',
    for_each l (fun (_ : unit) x => results_add_error (f x)) tt self = Returns tt self'
    /\ passed (results self') = passed (results self).
Proof.
  revert self. induction l as [|x l IH]; intros self; simpl.
  - exists self. split; reflexivity.
  - unfold bind, results_add_error at 1.
    destruct (IH (set_results (add_error (f x) (results self)) self)) as (s & -> & Hs).
    exists s. split; [reflexivity | exact Hs].
Qed.

Lemma validate_event_counts_passed (self : EventSystemAuditor) :
  passed (results (final (validate_event_counts self)))
  = passed (results self) + (if all_match self then 1 else 0).
Proof.
  remember (validate_event_counts self) as o eqn:Ho.
  unfold validate_event_counts, bind at 1 in Ho. simpl in Ho.
  fold (missing_in_bruno self) in Ho.
  change (filter (fun v : json =>
                    negb (existsb (fun t : string => Py.eqb v (JStr t))
                            (event_types_go self)))
                 (event_types_bruno self))
    with (extra_in_bruno self) in Ho.
  unfold bind at 1 in Ho.
  assert (H1 : exists s1,
             (if ((List.length (event_types_go self) =? expected_count)
                  && (List.length (event_types_bruno self) =? expected_count)
                  && (List.length (bruno_events self) =? expected_count))%nat
              then results_add_pass
              else results_add_error
                     (EventCountMismatch (List.length (event_types_go self))
                        (List.length (event_types_bruno self))
                        (List.length (bruno_events self)) expected_count)) self
             = Returns tt s1
             /\ passed (results s1)
                = passed (results self) + (if all_match self then 1 else 0)).
  { unfold all_match. destruct (_ && _).
    - eexists. split; [reflexivity | reflexivity].
    - eexists. split; [reflexivity | simpl; lia]. }
  destruct H1 as (s1 & E1 & P1). rewrite E1 in Ho. clear E1.
  unfold bind at 1 in Ho.
  assert (H2 : exists s2,
             (if nonempty (missing_in_bruno self)
              then for_each (Text.sorted_str (missing_in_bruno self))
                     (fun (_ : unit) event => results_add_error (MissingInBruno event)) tt
              else ret tt) s1
             = Returns tt s2
             /\ passed (results s2) = passed (results s1)).
  { destruct (nonempty (missing_in_bruno self)).
    - apply for_each_add_error.
    - eexists. split; reflexivity. }
  destruct H2 as (s2 & E2 & P2). rewrite E2 in Ho. clear E2.
  destruct (nonempty (extra_in_bruno self)).
  - destruct (Py.sorted (extra_in_bruno self)) as [l'|].
    + destruct (for_each_add_error ExtraInBruno l' s2) as (s3 & E3 & P3).
      rewrite E3 in Ho. subst o. simpl. congruence.
    + subst o. simpl. congruence.
  - subst o. simpl. congruence.
Qed.

(* ------------------------------------------------------------------ *)
(** ** A whole run, phase by phase *)

Lemma parse_go_struct_init (base : directory) :
  exists s1,
    parse_go_struct (init base) = Returns tt s1
    /\ base_dir s1 = base /\ bruno_events s1 = [] /\ event_types_go s1 = []
    /\ event_types_bruno s1 = []
    /\ results s1
       = match events_go base with
         | None => add_error (CannotFind ["internal"; "models"; "events.go"])
                             (results (init base))
         | Some content =>
             match Re.search_raw_event content with
             | None => add_error CannotFindRawEvent (results (init base))
             | Some _ => results (init base)
             end
         end.
Proof.
  destruct (events_go base) as [content|] eqn:Heg.
  - destruct (Re.search_raw_event content) as [body|] eqn:Hb.
    + rewrite (parse_go_struct_run (init base) content body Heg Hb).
      eexists. split; [reflexivity|].
      destruct (fields_fold (Re.finditer Re.match_field body) (init base))
        as ((B & E & G & T & Rs) & _).
      simpl in B, E, G, T, Rs. auto.
    + unfold parse_go_struct, bind, get. simpl. rewrite Heg, Hb.
      eexists. split; [reflexivity|]. simpl. auto.
  - unfold parse_go_struct, bind, get. simpl. rewrite Heg.
    eexists. split; [reflexivity|]. simpl. auto.
Qed.

Lemma parse_event_types_enum_from (self : EventSystemAuditor) :
  event_types_go self = [] ->
  exists s2,
    parse_event_types_enum self = Returns tt s2
    /\ base_dir s2 = base_dir self /\ go_fields s2 = go_fields self
    /\ bruno_events s2 = bruno_events self
    /\ event_types_bruno s2 = event_types_bruno self
    /\ NoDup (event_types_go s2)
    /\ (forall t, In t (event_types_go s2) -> run_of (Re.other_than Re.dquote) t)
    /\ results s2
       = match event_types_generated_go (base_dir self) with
         | None =>
             add_error (CannotFind ["internal"; "models"; "event_types_generated.go"])
                       (results self)
         | Some _ => results self
         end.
Proof.
  intros Hempty.
  destruct (event_types_generated_go (base_dir self)) as [content|] eqn:Hen.
  - rewrite (parse_event_types_enum_run self content Hen).
    eexists. split; [reflexivity|].
    destruct (enum_fold (Re.finditer Re.match_const content) self)
      as ((B & G & E & T & Rs) & Hin & Hnd).
    simpl in B, G, E, T, Rs, Hin, Hnd. rewrite Hempty in *.
    repeat split; auto.
    + apply Hnd. constructor.
    + apply Hin in H as [[]|H].
      apply finditer_at_In in H as (pre & s' & rest & _ & Hm).
      now apply match_const_inv in Hm as ((Hne & _) & _).
    + apply Hin in H as [[]|H].
      apply finditer_at_In in H as (pre & s' & rest & _ & Hm).
      now apply match_const_inv in Hm as ((_ & Hall) & _).
  - unfold parse_event_types_enum, bind, get. simpl. rewrite Hen.
    eexists. split; [reflexivity|]. simpl. rewrite Hempty.
    repeat split; auto; try constructor; intros t [].
Qed.

Section WholeRun.
Variable json_loads : string -> json + string.

(** The auditor after its three parsing phases and the field-membership
    pass, and how the run goes on. *)
Lemma run_audit_phases (base : directory) :
  exists s3 s4,
    run_audit json_loads (init base) = identity_and_counts s4
    /\ bruno_events s3 = corpus json_loads base
    /\ event_types_bruno s3 = observed (corpus json_loads base)
    /\ NoDup (event_types_go s3)
    /\ (forall t, In t (event_types_go s3) -> run_of (Re.other_than Re.dquote) t)
    /\ errors (results s3) = source_issues base ++ loader_issues json_loads base
    /\ passed (results s3) = 0
    /\ warnings (results s3) = 0
    /\ failed (results s3) = count is_error (errors (results s3))
    /\ count is_warning (errors (results s3)) = 0
    /\ logged (flat_map (payload_issues (go_fields s3)) (bruno_events s3)) s3 s4
    /\ passed (results s4)
       = if nonempty (flat_map (payload_issues (go_fields s3)) (bruno_events s3))
         then 0 else 1.
Proof.
  destruct (parse_go_struct_init base) as (s1 & E1 & B1 & Ev1 & Go1 & Ty1 & R1).
  destruct (parse_event_types_enum_from s1 Go1)
    as (s2 & E2 & B2 & _ & Ev2 & Ty2 & Nd2 & Run2 & R2).
  rewrite B1 in B2, R2. rewrite Ev1 in Ev2. rewrite Ty1 in Ty2.
  assert (Hres2 : errors (results s2) = source_issues base
                  /\ passed (results s2) = 0 /\ warnings (results s2) = 0
                  /\ failed (results s2) = count is_error (errors (results s2))).
  { rewrite R2, R1. unfold source_issues.
    destruct (events_go base) as [content|];
      [destruct (Re.search_raw_event content)|];
      destruct (event_types_generated_go base); simpl; auto. }
  destruct Hres2 as (Herr2 & Hp2 & Hw2 & Hf2).
  assert (H3 : exists s3,
             parse_bruno_files json_loads s2 = Returns tt s3
             /\ bruno_events s3 = corpus json_loads base
             /\ event_types_bruno s3 = observed (corpus json_loads base)
             /\ event_types_go s3 = event_types_go s2
             /\ errors (results s3) = source_issues base ++ loader_issues json_loads base
             /\ passed (results s3) = 0 /\ warnings (results s3) = 0
             /\ failed (results s3) = count is_error (errors (results s3))).
  { unfold corpus, loader_issues.
    destruct (bruno_dir base) as [files|] eqn:Hdir.
    - assert (Hdir2 : bruno_dir (base_dir s2) = Some files) by now rewrite B2.
      destruct (parse_bruno_files_loads json_loads s2 files Hdir2)
        as (s3 & E3 & _ & _ & G3 & Ev3 & Ty3 & (Herr3 & Hf3 & Hw3) & Hp3).
      exists s3. rewrite Ev2 in Ev3. rewrite Ty2 in Ty3.
      repeat split; auto; try congruence.
      + rewrite Hw3, Hw2. apply count_zero_iff. intros i Hi.
        apply in_flat_map in Hi as (x & _ & Hi). unfold file_issues in Hi.
        destruct (read json_loads x) as [|e|v|ev]; simpl in Hi.
        * contradiction.
        * now destruct Hi as [<-|[]].
        * now destruct Hi as [<-|[]].
        * destruct (Py.hashable (event_type ev)); [contradiction|].
          now destruct Hi as [<-|[]].
      + rewrite Hf3, Herr3, Herr2, Hf2, Herr2, count_app. reflexivity.
    - assert (Hdir2 : bruno_dir (base_dir s2) = None) by now rewrite B2.
      exists (set_results
                (add_error (CannotFindBrunoDir ["bruno"; "Ingestion"; "Events"])
                   (results s2)) s2).
      split.
      { unfold parse_bruno_files, bind, get. simpl. now rewrite Hdir2. }
      simpl. rewrite Herr2. repeat split; auto.
      rewrite count_app, <- Herr2, <- Hf2. unfold count. simpl. lia. }
  destruct H3 as (s3 & E3 & Ev3 & Ty3 & G3 & Herr3 & Hp3 & Hw3 & Hf3).
  destruct (validate_bruno_payloads_logged s3) as (s4 & E4 & L4).
  pose proof (validate_bruno_payloads_passed s3) as P4.
  rewrite E4 in P4. simpl in P4. rewrite Hp3 in P4.
  exists s3, s4. split.
  { unfold run_audit, identity_and_counts, bind at 1. rewrite E1.
    unfold bind at 1. rewrite E2. unfold bind at 1. rewrite E3.
    unfold bind at 1. rewrite E4. reflexivity. }
  rewrite G3. simpl in P4.
  do 8 (split; [assumption|]). split; [|split; assumption].
  rewrite Herr3, count_app. unfold source_issues, loader_issues.
  replace (count is_warning
             match bruno_dir base with
             | Some files => flat_map (file_issues json_loads) (sorted_paths files)
             | None => [Error (CannotFindBrunoDir ["bruno"; "Ingestion"; "Events"])]
             end) with 0.
  - destruct (events_go base) as [content|];
      [destruct (Re.search_raw_event content)|];
      destruct (event_types_generated_go base); reflexivity.
  - symmetry. destruct (bruno_dir base) as [files|]; [|reflexivity].
    apply count_zero_iff. intros i Hi.
    apply in_flat_map in Hi as (x & _ & Hi). unfold file_issues in Hi.
    destruct (read json_loads x) as [|e|v|ev]; simpl in Hi.
    + contradiction.
    + now destruct Hi as [<-|[]].
    + now destruct Hi as [<-|[]].
    + destruct (Py.hashable (event_type ev)); [contradiction|].
      now destruct Hi as [<-|[]].
Qed.
End WholeRun.

Lemma identity_and_counts_eq (self : EventSystemAuditor) :
  identity_and_counts self
  = match validate_guid_fields self with
    | Returns _ s5 =>
        match validate_event_counts s5 with
        | Returns _ s6 => Returns (results s6) s6
        | Raises e s6 => Raises e s6
        end
    | Raises e s5 => Raises e s5
    end.
Proof.
  unfold identity_and_counts, bind, get, ret.
  destruct (validate_guid_fields self) as [[] s5|e s5]; [|reflexivity].
  destruct (validate_event_counts s5) as [[] s6|e s6]; reflexivity.
Qed.

Lemma filter_all {A} (f : A -> bool) (l : list A) :
  (forall x, In x l -> f x = true) -> filter f l = l.
Proof.
  induction l as [|x l IH]; simpl; intros H; [reflexivity|].
  rewrite (H x (or_introl eq_refl)). f_equal. apply IH. intros y Hy. apply H. now right.
Qed.

Section RunEdges.
Variable json_loads : string -> json + string.

(** X10: a repository without its directory of samples.  The run
    returns and the process exits with 1; the corpus and the observed
    set are empty; the report holds, after what the two Go parsers
    recorded, the Error for the missing directory, the count mismatch
    with zero observed types and zero samples, and one missing-coverage
    Error per canonical type in ascending order; the field-membership
    pass and the identity pass, which find nothing to check, are the two
    checks counted as passed, and no Warning is recorded. *)
Theorem missing_samples_directory (base : directory) :
  bruno_dir base = None ->
  let self := final (run_audit json_loads (init base)) in
  completes (run_audit json_loads (init base)) = true
  /\ main json_loads base = 1
  /\ bruno_events self = []
  /\ event_types_bruno self = []
  /\ errors (results self)
     = (source_issues base
        ++ [Error (CannotFindBrunoDir ["bruno"; "Ingestion"; "Events"]);
            Error (EventCountMismatch (List.length (event_types_go self)) 0 0 105)]
        ++ map (fun t => Error (MissingInBruno t))
               (Text.sorted_str (event_types_go self)))%list
  /\ passed (results self) = 2
  /\ warnings (results self) = 0.
Proof.
  intros Hdir self.
  destruct (run_audit_phases json_loads base)
    as (s3 & s4 & Hrun & Ev3 & Ty3 & Nd3 & _ & Herr3 & _ & Hw3 & _ & _ & L4 & P4).
  unfold corpus in Ev3, Ty3. unfold loader_issues in Herr3. rewrite Hdir in *.
  change (observed []) with (@nil json) in Ty3.
  rewrite Ev3 in L4, P4. simpl in L4, P4.
  destruct L4 as ((_ & _ & Ev4 & G4 & Ty4) & Herr4 & _ & Hw4).
  rewrite app_nil_r in Herr4. simpl in Hw4. rewrite Ev3 in Ev4. rewrite Ty3 in Ty4.
  assert (Hh : forall x, In x (bruno_events s4) -> Py.hashable (event_type x) = true).
  { rewrite Ev4. intros x []. }
  destruct (validate_guid_fields_logged s4 Hh) as [C5 L5].
  pose proof (validate_guid_fields_passed s4 Hh) as P5.
  rewrite identity_and_counts_eq in Hrun.
  destruct (validate_guid_fields s4) as [[] s5|x s5]; [|discriminate].
  simpl in L5, P5. rewrite Ev4 in L5, P5. simpl in L5, P5.
  destruct L5 as ((_ & _ & Ev5 & G5 & Ty5) & Herr5 & _ & Hw5).
  rewrite app_nil_r in Herr5. simpl in Hw5.
  rewrite Ev4 in Ev5. rewrite Ty4 in Ty5.
  assert (W5 : warnings (results s5) = 0) by (unfold count in *; simpl in *; lia).
  rewrite W5 in P5. simpl in P5.
  destruct (validate_event_counts_logged s5) as [L6 C6].
  pose proof (validate_event_counts_passed s5) as P6.
  assert (Hextra : extra_in_bruno s5 = []).
  { unfold extra_in_bruno. now rewrite Ty5. }
  assert (Hmissing : missing_in_bruno s5 = event_types_go s5).
  { unfold missing_in_bruno. rewrite Ty5. apply filter_all. reflexivity. }
  assert (Hall : all_match s5 = false).
  { unfold all_match. rewrite Ev5. simpl. apply andb_false_r. }
  unfold count_issues, coverage_issues in L6.
  rewrite Hextra, Hmissing, Hall, Ty5, Ev5 in L6. rewrite Hextra in C6.
  rewrite Hall in P6. simpl in L6.
  destruct (validate_event_counts s5) as [[] s6|x s6]; [|discriminate].
  simpl in L6, P6.
  destruct L6 as ((_ & _ & Ev6 & G6 & Ty6) & Herr6 & Hf6 & Hw6).
  assert (Hself : self = s6) by (unfold self; now rewrite Hrun).
  rewrite Hself.
  split; [now rewrite Hrun|].
  split.
  { unfold main. rewrite Hrun. unfold is_success.
    assert (Hne : failed (results s6) <> 0)
      by (rewrite Hf6, count_cons; simpl; lia).
    now apply Nat.eqb_neq in Hne as ->. }
  split; [congruence|]. split; [congruence|].
  split.
  { rewrite Herr6, Herr5, Herr4, Herr3, G6, app_nil_r, <- !app_assoc. reflexivity. }
  split; [lia|].
  rewrite Hw6, count_cons, W5, app_nil_r. simpl.
  rewrite count_map_none; [reflexivity | reflexivity].
Qed.
End RunEdges.

Lemma missing_samples_directory_witness :
  completes (run_audit example_json_loads (init ex_no_samples)) = true
  /\ main example_json_loads ex_no_samples = 1
  /\ bruno_events (final (run_audit example_json_loads (init ex_no_samples))) = []
  /\ event_types_bruno (final (run_audit example_json_loads (init ex_no_samples))) = []
  /\ errors (results (final (run_audit example_json_loads (init ex_no_samples))))
     = (source_issues ex_no_samples
        ++ [Error (CannotFindBrunoDir ["bruno"; "Ingestion"; "Events"]);
            Error (EventCountMismatch
                     (List.length
                        (event_types_go
                           (final (run_audit example_json_loads (init ex_no_samples)))))
                     0 0 105)]
        ++ map (fun t => Error (MissingInBruno t))
               (Text.sorted_str
                  (event_types_go
                     (final (run_audit example_json_loads (init ex_no_samples))))))%list
  /\ passed (results (final (run_audit example_json_loads (init ex_no_samples)))) = 2
  /\ warnings (results (final (run_audit example_json_loads (init ex_no_samples)))) = 0.
Proof. exact (missing_samples_directory example_json_loads ex_no_samples eq_refl). Defined.

(** The report of that example. *)
Lemma example_no_samples_report :
  errors (results (final (run_audit example_json_loads (init ex_no_samples))))
  = [Error (CannotFindBrunoDir ["bruno"; "Ingestion"; "Events"]);
     Error (EventCountMismatch 1 0 0 105);
     Error (MissingInBruno "jump")].
Proof. reflexivity. Qed.

(* ------------------------------------------------------------------ *)
(** ** A run that raises *)

Lemma for_each_raises {X L} (stops : X -> bool) (exn_of : X -> exn)
      (body : L -> X -> M L) :
  (forall acc x s,
      if stops x then body acc x s = Raises (exn_of x) s
      else exists acc' s', body acc x s = Returns acc' s') ->
  forall l acc s,
    (exists x, In x l /\ stops x = true) ->
    exists x s', In x l /\ stops x = true
                 /\ for_each l body acc s = Raises (exn_of x) s'.
Proof.
  intros Hbody. induction l as [|x l IH]; intros acc s (y & Hy & Hs).
  - contradiction.
  - simpl for_each. unfold bind. specialize (Hbody acc x s).
    destruct (stops x) eqn:Hx.
    + rewrite Hbody. exists x, s. split; [now left | now split].
    + destruct Hbody as (acc' & s' & ->).
      destruct Hy as [->|Hy]; [congruence|].
      destruct (IH acc' s' (ex_intro _ y (conj Hy Hs))) as (z & s'' & Hz & Hsz & E).
      exists z, s''. split; [now right | now split].
Qed.

Lemma validate_guid_fields_raises (self : EventSystemAuditor) :
  (exists e, In e (bruno_events self) /\ guid_raises e = true) ->
  exists e s',
    In e (bruno_events self) /\ guid_raises e = true
    /\ validate_guid_fields self = Raises (unhashable (event_type e)) s'.
Proof.
  intros Hex.
  remember (validate_guid_fields self) as o eqn:Ho.
  unfold validate_guid_fields, bind at 1 in Ho. simpl in Ho. unfold bind at 1 in Ho.
  match type of Ho with
  | context [for_each ?xs ?b ?a0 ?s0] =>
      assert (Hstep : forall acc x s,
                 if guid_raises x then b acc x s = Raises (unhashable (event_type x)) s
                 else exists acc' s', b acc x s = Returns acc' s');
      [ clear Ho
      | destruct (for_each_raises guid_raises (fun x => unhashable (event_type x))
                    b Hstep xs a0 s0 Hex)
          as (e & s' & He & Hs & E);
        rewrite E in Ho; exists e, s'; now subst o ]
  end.
  intros found e s. unfold guid_raises, has_key.
  generalize combat_events, single_player_events. intros combat single.
  destruct (Py.contains "guid" (payload e)); simpl.
  - unfold bind, results_add_error, ret. eexists _, _. reflexivity.
  - unfold in_set, Py.in_literal.
    destruct (Py.hashable (event_type e)); simpl.
    + unfold bind at 1. unfold ret at 1.
      match goal with
      | |- context [existsb ?f combat] => destruct (existsb f combat)
      end.
      * destruct (negb _); unfold bind, results_add_warning, ret; eexists _, _;
          reflexivity.
      * unfold bind at 1. unfold ret at 1.
        match goal with
        | |- context [existsb ?f single] => destruct (existsb f single)
        end.
        -- destruct (negb _); unfold bind, results_add_warning, ret; eexists _, _;
             reflexivity.
        -- unfold ret. eexists _, _. reflexivity.
    + reflexivity.
Qed.

(** Issues that name a sample file are neither count mismatches nor
    coverage Errors. *)
Lemma count_named_zero (p : issue -> bool) (l : list issue) :
  (forall i, p i = true -> message_file (message_of i) = None) ->
  (forall i, In i l -> message_file (message_of i) <> None) ->
  count p l = 0.
Proof.
  intros Hp Hl. apply count_zero_iff. intros i Hi.
  destruct (p i) eqn:E; [|reflexivity].
  apply Hp in E. now apply Hl in Hi.
Qed.

Lemma count_mismatch_no_file (i : issue) :
  is_count_mismatch i = true -> message_file (message_of i) = None.
Proof. destruct i as [[]|[]]; simpl; congruence. Qed.

Lemma coverage_no_file (i : issue) :
  is_coverage i = true -> message_file (message_of i) = None.
Proof. destruct i as [[]|[]]; simpl; congruence. Qed.

Section RunRaises.
Variable json_loads : string -> json + string.

Lemma parsed_report_no_counts (p : issue -> bool) (base : directory) :
  (forall i, p i = true -> message_file (message_of i) = None) ->
  (forall m, p (Error (CannotFind m)) = false) ->
  p (Error CannotFindRawEvent) = false ->
  (forall m, p (Error (CannotFindBrunoDir m)) = false) ->
  count p (source_issues base ++ loader_issues json_loads base) = 0.
Proof.
  intros Hp H1 H2 H3. rewrite count_app.
  assert (Hs : count p (source_issues base) = 0).
  { unfold source_issues.
    destruct (events_go base) as [content|];
      [destruct (Re.search_raw_event content)|];
      destruct (event_types_generated_go base);
      unfold count; simpl; rewrite ?H1, ?H2; reflexivity. }
  rewrite Hs. unfold loader_issues.
  destruct (bruno_dir base) as [files|].
  - apply count_named_zero; [assumption|].
    intros i Hi. apply in_flat_map in Hi as (x & _ & Hi).
    apply (file_issues_about json_loads) in Hi. congruence.
  - unfold count. simpl. now rewrite H3.
Qed.

(** X11: a sample whose [type] is an array or an object and which has
    no bare [guid] key ends the run.  The loader has kept the sample in
    the corpus; the identity pass raises a [TypeError] on such a sample
    when it looks its type up in the set of attacker-and-victim types;
    nothing catches it, so the process exits with 1, and the report of
    the aborted run holds neither the count mismatch nor any coverage
    Error, since the last pass never runs. *)
Theorem unhashable_type_aborts_run (base : directory) (files : list bru_file)
        (f : bru_file) (g : string) (members : list (string * json)) :
  bruno_dir base = Some files ->
  In f files ->
  Re.search_body_json (bru_text f) = Some g ->
  json_loads (Text.strip g) = inl (JObj members) ->
  Py.hashable (Py.get "type" (JStr EmptyString) (Py.of_members members)) = false ->
  Py.contains "guid" (Py.of_members members) = false ->
  (exists ty s,
      Py.hashable ty = false
      /\ run_audit json_loads (init base)
         = Raises (TypeError ("unhashable type: '" ++ Py.type_name ty ++ "'")%string) s)
  /\ main json_loads base = 1
  /\ count is_count_mismatch
           (errors (results (final (run_audit json_loads (init base))))) = 0
  /\ count is_coverage
           (errors (results (final (run_audit json_loads (init base))))) = 0.
Proof.
  intros Hdir Hin Hbody Hjson Hh Hguid.
  destruct (run_audit_phases json_loads base)
    as (s3 & s4 & Hrun & Ev3 & _ & _ & _ & Herr3 & _ & _ & _ & _ & L4 & _).
  pose proof (logged_errors _ _ _ L4) as Herr4.
  destruct L4 as ((_ & _ & Ev4 & _ & _) & _).
  set (ev := {| file_path := bru_path f;
                event_name := match Re.search_meta_name (bru_text f) with
                              | Some n => Text.strip n
                              | None => pathlib.stem (bru_path f)
                              end;
                event_type := Py.get "type" (JStr EmptyString) (Py.of_members members);
                payload := Py.of_members members |}).
  assert (Hev : In ev (bruno_events s4)).
  { rewrite Ev4, Ev3. unfold corpus. rewrite Hdir. apply in_flat_map.
    exists f. split; [now apply sorted_paths_In|].
    unfold file_sample, read. rewrite Hbody, Hjson. now left. }
  assert (Hstop : guid_raises ev = true).
  { unfold guid_raises, has_key. simpl. now rewrite Hguid, Hh. }
  destruct (validate_guid_fields_raises s4 (ex_intro _ ev (conj Hev Hstop)))
    as (e & s5 & He & Hs & E5).
  destruct (validate_guid_fields_prefix s4) as (l1 & l2 & _ & L5 & _ & _).
  pose proof (logged_errors _ _ _ L5) as Herr5.
  rewrite identity_and_counts_eq, E5 in Hrun. rewrite E5 in Herr5. simpl in Herr5.
  split.
  { exists (event_type e), s5. split; [|exact Hrun].
    unfold guid_raises in Hs. apply andb_prop in Hs as [_ Hs].
    now apply negb_true_iff in Hs. }
  split; [unfold main; now rewrite Hrun|].
  rewrite Hrun. simpl. rewrite Herr5, Herr4, Herr3.
  assert (Hall : forall p,
             (forall i, p i = true -> message_file (message_of i) = None) ->
             (forall m, p (Error (CannotFind m)) = false) ->
             p (Error CannotFindRawEvent) = false ->
             (forall m, p (Error (CannotFindBrunoDir m)) = false) ->
             count p (((source_issues base ++ loader_issues json_loads base)
                       ++ flat_map (payload_issues (go_fields s3)) (bruno_events s3))
                      ++ flat_map guid_issues l1) = 0).
  { intros p Hp H1 H2 H3.
    rewrite (count_app p _ (flat_map guid_issues l1)).
    rewrite (count_app p _ (flat_map (payload_issues (go_fields s3)) (bruno_events s3))).
    rewrite (parsed_report_no_counts p base Hp H1 H2 H3).
    rewrite !count_named_zero; auto.
    - intros i Hi. apply in_flat_map in Hi as (x & _ & Hi).
      apply guid_issues_about in Hi. congruence.
    - intros i Hi. apply in_flat_map in Hi as (x & _ & Hi).
      apply payload_issues_about in Hi as [_ Hi]. congruence. }
  split; apply Hall; try reflexivity.
  - apply count_mismatch_no_file.
  - apply coverage_no_file.
Qed.
End RunRaises.

Lemma unhashable_type_aborts_run_witness :
  (exists ty s,
      Py.hashable ty = false
      /\ run_audit example_json_loads_more (init (example_repository ex_list_type_files))
         = Raises (TypeError ("unhashable type: '" ++ Py.type_name ty ++ "'")%string) s)
  /\ main example_json_loads_more (example_repository ex_list_type_files) = 1
  /\ count is_count_mismatch
           (errors (results
                      (final (run_audit example_json_loads_more
                                (init (example_repository ex_list_type_files)))))) = 0
  /\ count is_coverage
           (errors (results
                      (final (run_audit example_json_loads_more
                                (init (example_repository ex_list_type_files)))))) = 0.
Proof.
  apply (unhashable_type_aborts_run example_json_loads_more
           (example_repository ex_list_type_files) ex_list_type_files
           ex_list_type_file (String Text.nl jump_list_type)
           [("type", JArr [JStr "jump"])]).
  - reflexivity.
  - simpl. tauto.
  - reflexivity.
  - reflexivity.
  - reflexivity.
  - reflexivity.
Defined.

(** That example: the exception, and the report when the run stops, which
    holds what the loader recorded for the sample. *)
Lemma example_aborted_report :
  (exists s,
      run_audit example_json_loads_more (init (example_repository ex_list_type_files))
      = Raises (TypeError "unhashable type: 'list'") s)
  /\ errors (results
               (final (run_audit example_json_loads_more
                         (init (example_repository ex_list_type_files)))))
     = [Error (FailedToParse "Listed.bru" (TypeError "unhashable type: 'list'"))].
Proof. split; [eexists|]; vm_compute; reflexivity. Qed.

(* ------------------------------------------------------------------ *)
(** ** A run on a corpus whose types can be hashed *)

Section RunReport.
Variable json_loads : string -> json + string.

Lemma corpus_sample (base : directory) (e : BrunoEvent) :
  In e (corpus json_loads base) ->
  exists files f g members,
    bruno_dir base = Some files /\ In f files
    /\ Re.search_body_json (bru_text f) = Some g
    /\ json_loads (Text.strip g) = inl (JObj members)
    /\ file_path e = bru_path f
    /\ payload e = Py.of_members members
    /\ event_type e = Py.get "type" (JStr EmptyString) (Py.of_members members).
Proof.
  unfold corpus. destruct (bruno_dir base) as [files|]; [|intros []].
  intros He. apply in_flat_map in He as (f & Hf & He).
  apply (proj1 (sorted_paths_In files f)) in Hf. unfold file_sample, read in He.
  destruct (Re.search_body_json (bru_text f)) as [g|] eqn:Hg; [|contradiction].
  destruct (json_loads (Text.strip g)) as [v|err] eqn:Hj; [|contradiction].
  destruct v; try contradiction. destruct He as [<-|[]].
  exists files, f, g, members. repeat split; auto.
Qed.

Lemma corpus_names_distinct (base : directory) (files : list bru_file) :
  bruno_dir base = Some files -> NoDup (bru_names files) ->
  NoDup (file_names (corpus json_loads base)).
Proof.
  intros Hdir Hnd. unfold corpus. rewrite Hdir.
  apply samples_named_apart. now apply sorted_names_distinct.
Qed.

(** The auditor after the identity pass, when no type of the corpus is
    an array or an object, and how the run ends. *)
Lemma run_report_hashable (base : directory) :
  (forall e, In e (corpus json_loads base) -> Py.hashable (event_type e) = true) ->
  exists s3 s5,
    run_audit json_loads (init base)
    = match validate_event_counts s5 with
      | Returns _ s6 => Returns (results s6) s6
      | Raises e s6 => Raises e s6
      end
    /\ bruno_events s5 = corpus json_loads base
    /\ event_types_bruno s5 = observed (corpus json_loads base)
    /\ event_types_go s5 = event_types_go s3
    /\ go_fields s5 = go_fields s3
    /\ NoDup (event_types_go s5)
    /\ (forall t, In t (event_types_go s5) -> run_of (Re.other_than Re.dquote) t)
    /\ errors (results s5)
       = (source_issues base ++ loader_issues json_loads base)
         ++ flat_map (payload_issues (go_fields s3)) (corpus json_loads base)
         ++ flat_map guid_issues (corpus json_loads base)
    /\ warnings (results s5)
       = count is_warning (flat_map guid_issues (corpus json_loads base))
    /\ failed (results s5) = count is_error (errors (results s5))
    /\ passed (results s5)
       = (if nonempty (flat_map (payload_issues (go_fields s3))
                         (corpus json_loads base))
          then 0 else 1)
         + (if negb (existsb (has_key "guid") (corpus json_loads base))
               && (warnings (results s5) =? 0)%nat
            then 1 else 0).
Proof.
  intros Hh.
  destruct (run_audit_phases json_loads base)
    as (s3 & s4 & Hrun & Ev3 & Ty3 & Nd3 & Hne3 & Herr3 & _ & Hw3 & Hf3 & Hcw3 & L4 & P4).
  rewrite Ev3 in L4, P4.
  destruct L4 as ((_ & G4 & Ev4 & T4 & Ty4) & Herr4 & Hf4 & Hw4).
  rewrite Ev3 in Ev4.
  assert (Hh4 : forall x, In x (bruno_events s4) -> Py.hashable (event_type x) = true)
    by now rewrite Ev4.
  destruct (validate_guid_fields_logged s4 Hh4) as [C5 L5].
  pose proof (validate_guid_fields_passed s4 Hh4) as P5.
  rewrite identity_and_counts_eq in Hrun.
  destruct (validate_guid_fields s4) as [[] s5|x s5]; [|discriminate].
  simpl in L5, P5. rewrite Ev4 in L5, P5.
  destruct L5 as ((_ & G5 & Ev5 & T5 & Ty5) & Herr5 & Hf5 & Hw5).
  assert (HwA : count is_warning
                  (flat_map (payload_issues (go_fields s3)) (corpus json_loads base))
                = 0).
  { apply count_zero_iff. intros i Hi. apply in_flat_map in Hi as (x & _ & Hi).
    apply payload_issues_about in Hi as [Hi _]. now destruct i. }
  exists s3, s5. split; [exact Hrun|].
  split; [congruence|]. split; [congruence|]. split; [congruence|].
  split; [congruence|]. split; [now rewrite T5, T4|].
  split; [now rewrite T5, T4|].
  split; [rewrite Herr5, Herr4, Herr3; now rewrite <- !app_assoc|].
  split; [lia|].
  split.
  { rewrite Hf5, Hf4, Hf3, Herr5, Herr4, !count_app. lia. }
  rewrite P5, P4. reflexivity.
Qed.
End RunReport.

Lemma get_default {V} (k : string) (default : V) (d : Py.dict V) :
  Py.contains k d = false -> Py.get k default d = default.
Proof.
  unfold Py.contains, Py.get. intros Hc.
  destruct (find (fun kv => String.eqb (fst kv) k) d) as [kv|] eqn:Ef; [|reflexivity].
  apply find_some in Ef as [Hkv Hk].
  assert (existsb (fun kv => String.eqb (fst kv) k) d = true); [|congruence].
  apply existsb_exists. now exists kv.
Qed.

Lemma is_str_hashable (v : json) : Py.is_str v = true -> Py.hashable v = true.
Proof. now destruct v. Qed.

Lemma guid_issues_shape (e : BrunoEvent) (i : issue) :
  In i (guid_issues e) ->
  (has_key "guid" e = true /\ i = Error (UsesAmbiguousGuid (file_of e)))
  \/ (has_key "guid" e = false
      /\ exists t, event_type e = JStr t
         /\ ((In t combat_events
              /\ has_key "attacker_guid" e && has_key "victim_guid" e = false
              /\ i = Warning (CombatShouldHave (file_of e)
                                (filter (fun k => has_key k e)
                                        ["attacker_guid"; "victim_guid"; "player_guid"])))
             \/ (In t single_player_events
                 /\ has_key "player_guid" e = false
                 /\ i = Warning (SinglePlayerShouldHave (file_of e))))).
Proof.
  unfold guid_issues.
  destruct (has_key "guid" e); [intros [<-|[]]; now left|].
  intros Hi. right. split; [reflexivity|].
  destruct (is_one_of combat_events (event_type e)) eqn:Ec.
  - unfold is_one_of in Ec. apply existsb_exists in Ec as (t & Ht & Et).
    apply eqb_str_r in Et. exists t. split; [assumption|]. left.
    split; [assumption|]. cbn [filter].
    destruct (has_key "attacker_guid" e), (has_key "victim_guid" e);
      simpl in Hi |- *; try contradiction;
      destruct Hi as [<-|[]]; split; reflexivity.
  - destruct (is_one_of single_player_events (event_type e)) eqn:Es; [|contradiction].
    unfold is_one_of in Es. apply existsb_exists in Es as (t & Ht & Et).
    apply eqb_str_r in Et. exists t. split; [assumption|]. right.
    split; [assumption|].
    destruct (has_key "player_guid" e); simpl in Hi; [contradiction|].
    destruct Hi as [<-|[]]. split; reflexivity.
Qed.

Lemma count_issues_errors (self : EventSystemAuditor) (i : issue) :
  In i (count_issues self ++ coverage_issues self) -> is_error i = true.
Proof.
  intros Hi. apply in_app_or in Hi as [Hi|Hi].
  - unfold count_issues in Hi. destruct (all_match self); [contradiction|].
    now destruct Hi as [<-|[]].
  - unfold coverage_issues in Hi. apply in_app_or in Hi as [Hi|Hi].
    + apply in_map_iff in Hi as (t & <- & _). reflexivity.
    + destruct (Py.sorted (extra_in_bruno self)); [|contradiction].
      apply in_map_iff in Hi as (t & <- & _). reflexivity.
Qed.

Section StringTypes.
Variable json_loads : string -> json + string.

Lemma count_parsed_zero (p : issue -> bool) (base : directory) :
  (forall m, p (Error (CannotFind m)) = false) ->
  p (Error CannotFindRawEvent) = false ->
  (forall m, p (Error (CannotFindBrunoDir m)) = false) ->
  (forall f e, p (Error (FailedToParse f e)) = false) ->
  (forall f e, p (Error (InvalidJSON f e)) = false) ->
  count p (source_issues base ++ loader_issues json_loads base) = 0.
Proof.
  intros H1 H2 H3 H4 H5. rewrite count_app.
  assert (Hs : count p (source_issues base) = 0).
  { unfold source_issues.
    destruct (events_go base) as [content|];
      [destruct (Re.search_raw_event content)|];
      destruct (event_types_generated_go base);
      unfold count; simpl; rewrite ?H1, ?H2; reflexivity. }
  rewrite Hs. unfold loader_issues.
  destruct (bruno_dir base) as [files|].
  - apply count_zero_iff. intros i Hi.
    apply in_flat_map in Hi as (x & _ & Hi). unfold file_issues in Hi.
    destruct (read json_loads x) as [|e|v|ev]; simpl in Hi.
    + contradiction.
    + destruct Hi as [<-|[]]. apply H5.
    + destruct Hi as [<-|[]]. apply H4.
    + destruct (Py.hashable (event_type ev)); [contradiction|].
      destruct Hi as [<-|[]]. apply H4.
  - unfold count. simpl. now rewrite H3.
Qed.

Lemma string_corpus (base : directory) :
  (forall files f g members,
      bruno_dir base = Some files -> In f files ->
      Re.search_body_json (bru_text f) = Some g ->
      json_loads (Text.strip g) = inl (JObj members) ->
      Py.is_str (Py.get "type" (JStr EmptyString) (Py.of_members members)) = true) ->
  forall e, In e (corpus json_loads base) -> Py.is_str (event_type e) = true.
Proof.
  intros H e He.
  apply corpus_sample in He as (files & f & g & members & Hd & Hf & Hg & Hj & _ & _ & ->).
  now apply (H files f g members).
Qed.

(** X12: when the [type] of every sample that the loader takes is a
    string (or absent), the run returns: no pass raises, and what
    [run_audit] returns is the report of the auditor, whose corpus
    holds string types only. *)
Theorem string_types_run_returns (base : directory) :
  (forall files f g members,
      bruno_dir base = Some files -> In f files ->
      Re.search_body_json (bru_text f) = Some g ->
      json_loads (Text.strip g) = inl (JObj members) ->
      Py.is_str (Py.get "type" (JStr EmptyString) (Py.of_members members)) = true) ->
  (exists r self,
      run_audit json_loads (init base) = Returns r self /\ r = results self)
  /\ forall e, In e (bruno_events (final (run_audit json_loads (init base)))) ->
               Py.is_str (event_type e) = true.
Proof.
  intros Hstr. pose proof (string_corpus base Hstr) as Hc.
  destruct (run_report_hashable json_loads base)
    as (s3 & s5 & Hrun & Ev5 & Ty5 & _ & _ & Nd5 & _).
  { intros e He. now apply is_str_hashable, Hc. }
  assert (Hobs : event_types_bruno s5 = observed (bruno_events s5)) by congruence.
  assert (Hstr5 : forall e, In e (bruno_events s5) -> Py.is_str (event_type e) = true)
    by now rewrite Ev5.
  destruct (validate_event_counts_logged s5) as [((_ & _ & Ev6 & _) & _) C6].
  destruct (sorted_strings (extra_in_bruno s5) (extra_strings s5 Hobs Hstr5))
    as (l' & Hs).
  rewrite Hs in C6.
  assert (C6' : completes (validate_event_counts s5) = true)
    by (rewrite C6; now destruct (extra_in_bruno s5)).
  destruct (validate_event_counts s5) as [[] s6|x s6]; [|discriminate].
  rewrite Hrun. simpl in *. split.
  - exists (results s6), s6. split; reflexivity.
  - now rewrite Ev6.
Qed.

(** X13: a sample without the [type] key is given the empty string as
    its type, and the run treats that as a type like any other.  On a
    corpus of string types: the field-membership pass records the
    missing-type Error for the file, once; the empty string is in the
    observed set; and since no canonical type is empty, the coverage
    reports the empty type as not canonical, once. *)
Theorem untyped_sample_has_empty_type (base : directory) (files : list bru_file)
        (f : bru_file) (g : string) (members : list (string * json)) :
  bruno_dir base = Some files ->
  NoDup (bru_names files) ->
  In f files ->
  Re.search_body_json (bru_text f) = Some g ->
  json_loads (Text.strip g) = inl (JObj members) ->
  Py.contains "type" (Py.of_members members) = false ->
  (forall f' g' members',
      In f' files ->
      Re.search_body_json (bru_text f') = Some g' ->
      json_loads (Text.strip g') = inl (JObj members') ->
      Py.is_str (Py.get "type" (JStr EmptyString) (Py.of_members members')) = true) ->
  count (is_missing_type (pathlib.name (bru_path f)))
        (errors (results (final (run_audit json_loads (init base))))) = 1
  /\ In (JStr EmptyString)
        (event_types_bruno (final (run_audit json_loads (init base))))
  /\ count (is_unknown_type EmptyString)
           (errors (results (final (run_audit json_loads (init base))))) = 1.
Proof.
  intros Hdir Hnd Hin Hbody Hjson Htype Hstr.
  set (file := pathlib.name (bru_path f)).
  assert (Hc : forall e, In e (corpus json_loads base) -> Py.is_str (event_type e) = true).
  { apply string_corpus. intros files' f' g' members' Hd' Hf'.
    rewrite Hdir in Hd'. injection Hd' as <-. now apply Hstr. }
  destruct (run_report_hashable json_loads base)
    as (s3 & s5 & Hrun & Ev5 & Ty5 & _ & _ & Nd5 & Hne5 & Herr5 & _).
  { intros e He. now apply is_str_hashable, Hc. }
  assert (Hobs : event_types_bruno s5 = observed (bruno_events s5)) by congruence.
  assert (Hstr5 : forall e, In e (bruno_events s5) -> Py.is_str (event_type e) = true)
    by now rewrite Ev5.
  destruct (validate_event_counts_logged s5) as [L6 _].
  pose proof (logged_errors _ _ _ L6) as Herr6.
  destruct L6 as ((_ & _ & _ & _ & Ty6) & _).
  assert (Hfinal : final (run_audit json_loads (init base))
                   = final (validate_event_counts s5)).
  { rewrite Hrun. now destruct (validate_event_counts s5). }
  rewrite Hfinal, Herr6, Herr5, Ty6, Ty5.
  (* the sample of the file *)
  set (ev := {| file_path := bru_path f;
                event_name := match Re.search_meta_name (bru_text f) with
                              | Some n => Text.strip n
                              | None => pathlib.stem (bru_path f)
                              end;
                event_type := Py.get "type" (JStr EmptyString) (Py.of_members members);
                payload := Py.of_members members |}).
  assert (Hev : In ev (corpus json_loads base)).
  { unfold corpus. rewrite Hdir. apply in_flat_map.
    exists f. split; [now apply sorted_paths_In|].
    unfold file_sample, read. rewrite Hbody, Hjson. now left. }
  assert (Hty : event_type ev = JStr EmptyString) by now apply get_default.
  pose proof (corpus_names_distinct json_loads base files Hdir Hnd) as Hnames.
  assert (Hsplit : forall p,
             count p (((source_issues base ++ loader_issues json_loads base)
                       ++ flat_map (payload_issues (go_fields s3))
                            (corpus json_loads base)
                       ++ flat_map guid_issues (corpus json_loads base))
                      ++ count_issues s5 ++ coverage_issues s5)
             = count p (source_issues base ++ loader_issues json_loads base)
               + count p (flat_map (payload_issues (go_fields s3))
                            (corpus json_loads base))
               + count p (flat_map guid_issues (corpus json_loads base))
               + count p (count_issues s5 ++ coverage_issues s5)).
  { intros p.
    rewrite (count_app p _ (count_issues s5 ++ coverage_issues s5)).
    rewrite (count_app p (source_issues base ++ loader_issues json_loads base)).
    rewrite (count_app p (flat_map (payload_issues (go_fields s3))
                            (corpus json_loads base))).
    lia. }
  rewrite !Hsplit.
  split.
  { rewrite count_parsed_zero by reflexivity.
    rewrite (count_flat_map_unique _ file_of _ _ ev Hnames Hev).
    2:{ intros x _ Hx.
        apply payload_issues_other_sample with (file := file); auto.
        apply missing_type_names_file. }
    replace (count (is_missing_type file) (flat_map guid_issues (corpus json_loads base)))
      with 0.
    2:{ symmetry. apply count_zero_iff. intros i Hi.
        apply in_flat_map in Hi as (x & _ & Hi).
        apply guid_issues_shape in Hi
          as [[_ ->]|(_ & t & _ & [(_ & _ & ->)|(_ & _ & ->)])]; reflexivity. }
    replace (count (is_missing_type file) (count_issues s5 ++ coverage_issues s5))
      with 0.
    2:{ symmetry. rewrite count_app.
        rewrite count_issues_not_coverage by reflexivity.
        unfold coverage_issues. rewrite count_app.
        rewrite count_map_none by reflexivity.
        destruct (Py.sorted (extra_in_bruno s5)); [|reflexivity].
        now rewrite count_map_none. }
    unfold payload_issues, has_key. simpl payload. rewrite Htype. simpl.
    unfold count, file_of. simpl. fold file. rewrite String.eqb_refl. reflexivity. }
  split.
  { apply observed_str. exists ev. now split. }
  rewrite <- (recorded_validate_event_counts s5).
  rewrite (count_unknown_type s5 Hobs Hstr5 EmptyString).
  replace (existsb _ (extra_in_bruno s5)) with true.
  2:{ symmetry. apply existsb_exists. exists (JStr EmptyString).
      split; [|apply String.eqb_refl].
      apply (extra_iff s5 Hobs). split.
      - exists ev. rewrite Ev5. now split.
      - intros Hempty. apply Hne5 in Hempty. now destruct Hempty. }
  assert (Hnone : forall i, is_unknown_type EmptyString i = true ->
                            message_file (message_of i) = None).
  { intros [[]|[]]; simpl; try discriminate. reflexivity. }
  rewrite (parsed_report_no_counts json_loads _ base Hnone); try reflexivity.
  rewrite !count_named_zero; auto.
  - intros i Hi. apply in_flat_map in Hi as (x & _ & Hi).
    apply guid_issues_about in Hi. congruence.
  - intros i Hi. apply in_flat_map in Hi as (x & _ & Hi).
    apply payload_issues_about in Hi as [_ Hi]. congruence.
Qed.
End StringTypes.

Lemma string_types_run_returns_witness :
  (exists r self,
      run_audit example_json_loads (init (example_repository ex_typed_files))
      = Returns r self /\ r = results self)
  /\ forall e,
      In e (bruno_events
              (final (run_audit example_json_loads
                        (init (example_repository ex_typed_files))))) ->
      Py.is_str (event_type e) = true.
Proof.
  apply (string_types_run_returns example_json_loads (example_repository ex_typed_files)).
  intros files f g members Hdir Hf Hg Hj. injection Hdir as <-.
  destruct Hf as [<-|[<-|[]]];
    vm_compute in Hg; injection Hg as <-;
    vm_compute in Hj; injection Hj as <-; reflexivity.
Defined.

Lemma untyped_sample_has_empty_type_witness :
  count (is_missing_type "Untyped.bru")
        (errors (results
                   (final (run_audit example_json_loads_untyped
                             (init (example_repository ex_untyped_files)))))) = 1
  /\ In (JStr EmptyString)
        (event_types_bruno
           (final (run_audit example_json_loads_untyped
                     (init (example_repository ex_untyped_files)))))
  /\ count (is_unknown_type EmptyString)
           (errors (results
                      (final (run_audit example_json_loads_untyped
                                (init (example_repository ex_untyped_files)))))) = 1.
Proof.
  apply (untyped_sample_has_empty_type example_json_loads_untyped
           (example_repository ex_untyped_files) ex_untyped_files ex_untyped_file
           (String Text.nl untyped_body) [("player_guid", JStr "abc")]).
  - reflexivity.
  - apply distinct_NoDup. reflexivity.
  - simpl. tauto.
  - reflexivity.
  - reflexivity.
  - reflexivity.
  - intros f g members Hf Hg Hj.
    destruct Hf as [<-|[<-|[]]];
      vm_compute in Hg; injection Hg as <-;
      vm_compute in Hj; injection Hj as <-; reflexivity.
Defined.

(** The report of that example. *)
Lemma example_untyped_report :
  errors (results (final (run_audit example_json_loads_untyped
                            (init (example_repository ex_untyped_files)))))
  = [Error (MissingTypeField "Untyped.bru");
     Error (EventCountMismatch 1 2 2 105);
     Error (ExtraInBruno (JStr EmptyString))].
Proof. reflexivity. Qed.

Lemma example_clean_run :
  main clean_json_loads ex_clean_repository = 0
  /\ results (final (run_audit clean_json_loads (init ex_clean_repository)))
     = {| passed := 3; failed := 0; warnings := 0; errors := [] |}.
Proof. split; vm_compute; reflexivity. Qed.

(* ------------------------------------------------------------------ *)
(** ** Warnings and passed checks of a run *)

Lemma warnings_reports (l : list issue) (r r' : ValidationResult) :
  warnings r = count is_warning (errors r) -> reports l r r' ->
  warnings r' = count is_warning (errors r').
Proof. intros H (E & _ & W). rewrite W, E, count_app, H. reflexivity. Qed.

Lemma errors_only (l : list issue) :
  (forall i, In i l -> is_error i = true) -> count is_error l = 0 -> l = [].
Proof.
  intros Hall Hc. destruct l as [|i l]; [reflexivity|].
  rewrite count_cons, (Hall i (or_introl eq_refl)) in Hc. discriminate.
Qed.

Lemma payload_issues_errors (fields : Py.dict GoStructField) (l : list BrunoEvent)
      (i : issue) :
  In i (flat_map (payload_issues fields) l) -> is_error i = true.
Proof.
  intros Hi. apply in_flat_map in Hi as (x & _ & Hi).
  now apply payload_issues_about in Hi.
Qed.

Section RunCounters.
Variable json_loads : string -> json + string.

(** X14: only the identity pass records Warnings.  Over a whole run,
    the counter of warnings is the number of Warning entries of the
    report, and every Warning entry is the one that the identity pass
    gives to a loaded sample without the bare [guid] key whose type is a
    string: either an attacker-and-victim type, with [attacker_guid] or
    [victim_guid] missing, or a single-actor type, with [player_guid]
    missing. *)
Theorem warnings_come_from_identity_pass (base : directory) :
  let self := final (run_audit json_loads (init base)) in
  warnings (results self) = count is_warning (errors (results self))
  /\ forall i, In i (errors (results self)) -> is_warning i = true ->
       exists e t,
         In e (bruno_events self)
         /\ has_key "guid" e = false
         /\ event_type e = JStr t
         /\ ((In t combat_events
              /\ has_key "attacker_guid" e && has_key "victim_guid" e = false
              /\ i = Warning (CombatShouldHave (file_of e)
                                (filter (fun k => has_key k e)
                                        ["attacker_guid"; "victim_guid";
                                         "player_guid"])))
             \/ (In t single_player_events
                 /\ has_key "player_guid" e = false
                 /\ i = Warning (SinglePlayerShouldHave (file_of e)))).
Proof.
  intros self.
  destruct (run_audit_phases json_loads base)
    as (s3 & s4 & Hrun & _ & _ & _ & _ & _ & _ & Hw3 & _ & Hcw3 & L4 & _).
  destruct (validate_guid_fields_prefix s4) as (l1 & l2 & Hsplit & L5 & _ & _).
  assert (W3 : warnings (results s3) = count is_warning (errors (results s3))) by lia.
  pose proof (warnings_reports _ _ _ W3 (proj2 L4)) as W4.
  pose proof (warnings_reports _ _ _ W4 (proj2 L5)) as W5.
  assert (Hfrom : forall s i,
             In i (errors (results s)) -> is_warning i = true ->
             (exists l, logged l (final (validate_guid_fields s4)) s
                        /\ forall j, In j l -> is_error j = true) ->
             In i (flat_map guid_issues l1)).
  { intros s i Hi Hwi (l & Hl & Hle).
    rewrite (logged_errors _ _ _ Hl), (logged_errors _ _ _ L5),
      (logged_errors _ _ _ L4) in Hi.
    apply in_app_or in Hi as [Hi|Hi].
    - apply in_app_or in Hi as [Hi|Hi]; [|exact Hi].
      apply in_app_or in Hi as [Hi|Hi].
      + pose proof (proj1 (count_zero_iff is_warning _) Hcw3 i Hi). congruence.
      + apply payload_issues_errors in Hi. destruct i; discriminate.
    - apply Hle in Hi. destruct i; discriminate. }
  assert (Hshape : forall s,
             bruno_events s = bruno_events s4 ->
             forall i, In i (flat_map guid_issues l1) -> is_warning i = true ->
             exists e t,
               In e (bruno_events s)
               /\ has_key "guid" e = false
               /\ event_type e = JStr t
               /\ ((In t combat_events
                    /\ has_key "attacker_guid" e && has_key "victim_guid" e = false
                    /\ i = Warning (CombatShouldHave (file_of e)
                                      (filter (fun k => has_key k e)
                                              ["attacker_guid"; "victim_guid";
                                               "player_guid"])))
                   \/ (In t single_player_events
                       /\ has_key "player_guid" e = false
                       /\ i = Warning (SinglePlayerShouldHave (file_of e))))).
  { intros s Hs i Hi Hwi. apply in_flat_map in Hi as (e & He & Hi).
    apply guid_issues_shape in Hi as [[_ ->]|(Hg & t & Ht & Hrule)]; [discriminate|].
    exists e, t. split; [|auto].
    rewrite Hs, Hsplit. apply in_or_app. now left. }
  rewrite identity_and_counts_eq in Hrun.
  destruct (validate_guid_fields s4) as [[] s5|x s5]; simpl in L5, W5, Hfrom.
  - destruct (validate_event_counts_logged s5) as [L6 _].
    assert (Hfinal : self = final (validate_event_counts s5)).
    { unfold self. rewrite Hrun. now destruct (validate_event_counts s5). }
    rewrite Hfinal. split.
    + exact (warnings_reports _ _ _ W5 (proj2 L6)).
    + intros i Hi Hwi. apply Hshape; auto.
      * destruct L6 as ((_ & _ & -> & _) & _). apply L5.
      * apply (Hfrom _ i Hi Hwi). eexists. split; [exact L6|].
        apply count_issues_errors.
  - assert (Hfinal : self = s5) by (unfold self; now rewrite Hrun).
    rewrite Hfinal. split; [exact W5|].
    intros i Hi Hwi. apply Hshape; auto.
    + apply L5.
    + apply (Hfrom _ i Hi Hwi). exists []. split; [apply logged_refl | intros j []].
Qed.

(** X15: the checks counted as passed in a run that exits with 0.  Such
    a run returns, its report holds no Error, and its counter of passed
    checks is 3 (the field-membership pass, the identity pass and the
    count reconciliation) when it has recorded no Warning, and 2 when
    it has: a Warning keeps the identity pass from being counted. *)
Theorem successful_run_passes (base : directory) :
  main json_loads base = 0 ->
  let self := final (run_audit json_loads (init base)) in
  completes (run_audit json_loads (init base)) = true
  /\ count is_error (errors (results self)) = 0
  /\ passed (results self) = if (warnings (results self) =? 0)%nat then 3 else 2.
Proof.
  intros Hmain self.
  destruct (run_audit_phases json_loads base)
    as (s3 & s4 & Hrun & Ev3 & _ & _ & _ & _ & _ & _ & Hf3 & _ & L4 & P4).
  destruct (validate_guid_fields_prefix s4) as (l1 & l2 & Hsplit & L5 & Hs & Hc).
  unfold main in Hmain. rewrite identity_and_counts_eq in Hrun.
  destruct (validate_guid_fields s4) as [[] s5|x s5] eqn:E5;
    [|rewrite Hrun in Hmain; discriminate].
  simpl in L5, Hc. subst l2. rewrite app_nil_r in Hsplit. subst l1.
  assert (Hok : forall x, In x (bruno_events s4) -> guid_raises x = false).
  { intros x Hx. rewrite forallb_forall in Hs. apply Hs in Hx.
    now apply negb_true_iff in Hx. }
  pose proof (validate_guid_fields_passed_when s4 Hok) as P5.
  rewrite E5 in P5. simpl in P5.
  destruct (validate_event_counts_logged s5) as [L6 _].
  pose proof (validate_event_counts_passed s5) as P6.
  destruct (validate_event_counts s5) as [[] s6|x s6] eqn:E6;
    [|rewrite Hrun in Hmain; discriminate].
  rewrite Hrun in Hmain. simpl in L6, P6.
  assert (Hfailed : failed (results s6) = 0).
  { unfold is_success in Hmain.
    destruct (failed (results s6)); [reflexivity | discriminate]. }
  assert (Hself : self = s6) by (unfold self; now rewrite Hrun).
  pose proof (logged_failed _ _ _ L4) as F4.
  pose proof (logged_failed _ _ _ L5) as F5.
  pose proof (logged_failed _ _ _ L6) as F6.
  assert (HA : flat_map (payload_issues (go_fields s3)) (bruno_events s3) = []).
  { apply errors_only; [apply payload_issues_errors | lia]. }
  assert (HD : count_issues s5 ++ coverage_issues s5 = []).
  { apply errors_only; [apply count_issues_errors | lia]. }
  assert (Hmatch : all_match s5 = true).
  { apply app_eq_nil in HD as [HD _]. unfold count_issues in HD.
    destruct (all_match s5); [reflexivity | discriminate]. }
  assert (Hguid : existsb (has_key "guid") (bruno_events s4) = false).
  { destruct (existsb (has_key "guid") (bruno_events s4)) eqn:E; [|reflexivity].
    apply existsb_exists in E as (e & He & Hg).
    assert (count is_error (flat_map guid_issues (bruno_events s4)) >= 1); [|lia].
    apply count_error_positive with (i := Error (UsesAmbiguousGuid (file_of e)));
      [|reflexivity].
    apply in_flat_map. exists e. split; [assumption|].
    rewrite guid_issues_bare by assumption. now left. }
  rewrite Hself. split; [now rewrite Hrun|].
  split.
  { destruct (run_audit_outcome json_loads base) as [Hcons _].
    rewrite Hrun in Hcons. simpl in Hcons. unfold consistent in Hcons. lia. }
  rewrite HA in P4. simpl in P4. rewrite Hguid in P5. simpl in P5.
  rewrite Hmatch in P6.
  destruct L6 as (_ & _ & _ & W6). rewrite HD in W6.
  unfold count in W6. simpl in W6.
  replace (warnings (results s6)) with (warnings (results s5)) by lia.
  destruct (warnings (results s5) =? 0)%nat; lia.
Qed.
End RunCounters.

Lemma successful_run_passes_witness :
  completes (run_audit clean_json_loads (init ex_clean_repository)) = true
  /\ count is_error
           (errors (results (final (run_audit clean_json_loads
                                      (init ex_clean_repository))))) = 0
  /\ passed (results (final (run_audit clean_json_loads (init ex_clean_repository))))
     = if (warnings (results (final (run_audit clean_json_loads
                                       (init ex_clean_repository)))) =? 0)%nat
       then 3 else 2.
Proof.
  apply (successful_run_passes clean_json_loads ex_clean_repository).
  vm_compute. reflexivity.
Defined.

(* ------------------------------------------------------------------ *)
(** ** The wording of the field-membership pass *)

(** X16: the wording for a key that the schema lacks.  For a sample that
    has the [type] key, the field-membership pass records for such a key
    the Error worded for [event_type] when the key is [event_type], the
    Error worded for the bare [guid] when the key is [guid], and the
    unknown-field Error with the name of the key otherwise.  The pass
    always returns, and everything it records is an Error that names the
    file of a loaded sample. *)
Theorem unknown_key_wording (self : EventSystemAuditor) (e : BrunoEvent) (k : string) :
  In e (bruno_events self) ->
  has_key "type" e = true ->
  In k (Py.keys (payload e)) ->
  Py.contains k (go_fields self) = false ->
  In (Error (if String.eqb k "event_type" then UsesEventType (file_of e)
             else if String.eqb k "guid" then AmbiguousGuidField (file_of e)
             else UnknownField (file_of e) k))
     (recorded validate_bruno_payloads self)
  /\ completes (validate_bruno_payloads self) = true
  /\ forall i, In i (recorded validate_bruno_payloads self) ->
       is_error i = true
       /\ exists e', In e' (bruno_events self)
                     /\ message_file (message_of i) = Some (file_of e').
Proof.
  intros He Hty Hk Hc. rewrite recorded_validate_bruno_payloads.
  split; [|split].
  - apply in_flat_map. exists e. split; [assumption|].
    unfold payload_issues. rewrite Hty. simpl.
    unfold Py.keys in Hk. apply in_map_iff in Hk as ([k' v] & <- & Hkv).
    apply in_flat_map. exists (k', v). split; [assumption|].
    unfold key_issues. simpl in *. rewrite Hc. simpl. left.
    unfold field_message. reflexivity.
  - destruct (validate_bruno_payloads_logged self) as (s & -> & _). reflexivity.
  - intros i Hi. apply in_flat_map in Hi as (x & Hx & Hi).
    apply payload_issues_about in Hi as [Herr Hfile].
    split; [assumption|]. now exists x.
Qed.

Lemma unknown_key_wording_witness :
  In (Error (UsesEventType "Jump.bru"))
     (recorded validate_bruno_payloads ex_event_type_auditor)
  /\ completes (validate_bruno_payloads ex_event_type_auditor) = true
  /\ forall i, In i (recorded validate_bruno_payloads ex_event_type_auditor) ->
       is_error i = true
       /\ exists e', In e' (bruno_events ex_event_type_auditor)
                     /\ message_file (message_of i) = Some (file_of e').
Proof.
  apply (unknown_key_wording ex_event_type_auditor ex_event_type "event_type").
  - simpl. tauto.
  - reflexivity.
  - simpl. tauto.
  - reflexivity.
Defined.

(* ------------------------------------------------------------------ *)
(** ** The summary *)

Lemma In_enumerate_from {A} (l : list A) (a k : nat) (e : A) :
  In (k, e) (combine (seq a (List.length l)) l)
  <-> a <= k /\ nth_error l (k - a) = Some e.
Proof.
  revert a. induction l as [|x l IH]; intros a; simpl.
  - split; [intros [] | intros [_ H]]. now destruct (k - a).
  - rewrite IH. split.
    + intros [H|[Hle Hn]].
      * injection H as <- <-. rewrite Nat.sub_diag. split; [lia | reflexivity].
      * split; [lia|]. replace (k - a) with (S (k - S a)) by lia. exact Hn.
    + intros [Hle Hn]. destruct (Nat.eq_dec a k) as [<-|Hne].
      * rewrite Nat.sub_diag in Hn. simpl in Hn. left. congruence.
      * right. split; [lia|].
        replace (k - a) with (S (k - S a)) in Hn by lia. exact Hn.
Qed.

Lemma In_enumerate {A} (l : list A) (k : nat) (e : A) :
  In (k, e) (enumerate l) <-> 1 <= k /\ nth_error l (k - 1) = Some e.
Proof. apply In_enumerate_from. Qed.

(** Closes a goal whose hypothesis puts a line in a list of lines of other
    kinds. *)
Ltac other_lines H :=
  simpl in H; repeat (destruct H as [H|H]; [discriminate|]); contradiction.

Lemma nonempty_true {A} (l : list A) : nonempty l = true <-> l <> [].
Proof. destruct l; simpl; split; congruence. Qed.

Lemma nth_error_enumerate_from {A} (l : list A) (a k : nat) :
  nth_error (combine (seq a (List.length l)) l) k
  = option_map (fun e => (a + k, e)) (nth_error l k).
Proof.
  revert a k. induction l as [|x l IH]; intros a [|k]; simpl; try reflexivity.
  - now rewrite Nat.add_0_r.
  - rewrite IH. now replace (S a + k) with (a + S k) by lia.
Qed.

Lemma nth_error_enumerate {A} (l : list A) (k : nat) :
  nth_error (enumerate l) k = option_map (fun e => (S k, e)) (nth_error l k).
Proof. apply nth_error_enumerate_from. Qed.

Lemma length_enumerate {A} (l : list A) : List.length (enumerate l) = List.length l.
Proof. unfold enumerate. rewrite length_combine, length_seq. lia. Qed.

(** The lines of the list of issues, in the order in which they are
    written. *)
Lemma summary_listing (self : EventSystemAuditor) :
  filter Console.in_listing (print_summary self)
  = if nonempty (errors (results self)) then
      Console.IssuesFound
      :: map (fun ie => Console.IssueLine (fst ie) (snd ie))
             (enumerate (firstn 50 (errors (results self))))
      ++ (if (50 <? List.length (errors (results self)))%nat
          then [Console.MoreIssues (List.length (errors (results self)) - 50)]
          else [])
    else [].
Proof.
  unfold print_summary. rewrite !filter_app. cbn [filter Console.in_listing app].
  replace (filter Console.in_listing
             (if is_success (results self)
              then [Console.AuditPassed; Console.AllChecksPassed]
              else [Console.AuditFailed; Console.FoundErrors (failed (results self))]))
    with (@nil Console.line) by (now destruct (is_success (results self))).
  rewrite app_nil_r.
  destruct (nonempty (errors (results self))); [|reflexivity].
  cbn [filter Console.in_listing]. rewrite filter_app. f_equal. f_equal.
  - apply filter_all. intros x Hx. apply in_map_iff in Hx as (ie & <- & _). reflexivity.
  - now destruct (50 <? List.length (errors (results self))).
Qed.

Section Summary.
Variable json_loads : string -> json + string.

(** X17: what the summary shows.  The lines of the list of issues come
    in this order: the heading, then the issues of the report in the
    order of the report, numbered from 1, Warnings and Errors alike, up
    to the fiftieth, then, when the report holds more than fifty, one
    line with the number of those left out; the list has no other line,
    and none at all when the report is empty.  The verdict is the
    passing one exactly when the counter of failures is 0, whatever
    Warnings are listed; the failing one shows that counter.  At the end
    of a run that returns, the verdict is the passing one exactly when
    the process exits with 0. *)
Theorem summary_lists_issues (self : EventSystemAuditor) :
  (errors (results self) = [] ->
   filter Console.in_listing (print_summary self) = [])
  /\ (errors (results self) <> [] ->
      nth_error (filter Console.in_listing (print_summary self)) 0
      = Some Console.IssuesFound)
  /\ (forall k e,
         k < 50 -> nth_error (errors (results self)) k = Some e ->
         nth_error (filter Console.in_listing (print_summary self)) (S k)
         = Some (Console.IssueLine (S k) e))
  /\ (50 < List.length (errors (results self)) ->
      nth_error (filter Console.in_listing (print_summary self)) 51
      = Some (Console.MoreIssues (List.length (errors (results self)) - 50)))
  /\ List.length (filter Console.in_listing (print_summary self))
     = (if nonempty (errors (results self))
        then 1 + Nat.min 50 (List.length (errors (results self)))
             + (if 50 <? List.length (errors (results self)) then 1 else 0)
        else 0)
  /\ (forall k e,
      In (Console.IssueLine k e) (print_summary self)
      <-> 1 <= k <= 50 /\ nth_error (errors (results self)) (k - 1) = Some e)
  /\ (forall m,
         In (Console.MoreIssues m) (print_summary self)
         <-> 50 < List.length (errors (results self))
             /\ m = List.length (errors (results self)) - 50)
  /\ (In Console.IssuesFound (print_summary self) <-> errors (results self) <> [])
  /\ (In Console.AuditPassed (print_summary self) <-> failed (results self) = 0)
  /\ (forall n,
         In (Console.FoundErrors n) (print_summary self)
         <-> failed (results self) <> 0 /\ n = failed (results self))
  /\ (forall base r,
         run_audit json_loads (init base) = Returns r self ->
         (In Console.AuditPassed (print_summary self) <-> main json_loads base = 0)).
Proof.
  assert (Horder :
            (errors (results self) = [] ->
             filter Console.in_listing (print_summary self) = [])
            /\ (errors (results self) <> [] ->
                nth_error (filter Console.in_listing (print_summary self)) 0
                = Some Console.IssuesFound)
            /\ (forall k e,
                   k < 50 -> nth_error (errors (results self)) k = Some e ->
                   nth_error (filter Console.in_listing (print_summary self)) (S k)
                   = Some (Console.IssueLine (S k) e))
            /\ (50 < List.length (errors (results self)) ->
                nth_error (filter Console.in_listing (print_summary self)) 51
                = Some (Console.MoreIssues
                          (List.length (errors (results self)) - 50)))
            /\ List.length (filter Console.in_listing (print_summary self))
               = (if nonempty (errors (results self))
                  then 1 + Nat.min 50 (List.length (errors (results self)))
                       + (if 50 <? List.length (errors (results self)) then 1 else 0)
                  else 0)).
  { rewrite summary_listing.
    set (errs := errors (results self)).
    set (listed := map (fun ie => Console.IssueLine (fst ie) (snd ie))
                       (enumerate (firstn 50 errs))).
    assert (Hlen : List.length listed = Nat.min 50 (List.length errs)).
    { unfold listed. now rewrite length_map, length_enumerate, length_firstn. }
    split; [intros ->; reflexivity|].
    split.
    { intros Hne. apply nonempty_true in Hne. now rewrite Hne. }
    split.
    { intros k e Hk He.
      assert (Hne : nonempty errs = true).
      { destruct errs; [now destruct k | reflexivity]. }
      rewrite Hne. cbn [nth_error].
      assert (Hlt : k < List.length errs).
      { apply nth_error_Some. congruence. }
      rewrite nth_error_app1 by (rewrite Hlen; lia).
      unfold listed. rewrite nth_error_map, nth_error_enumerate, nth_error_firstn.
      replace (k <? 50) with true by (symmetry; now apply Nat.ltb_lt).
      now rewrite He. }
    split.
    { intros Hlt.
      assert (Hne : nonempty errs = true).
      { destruct errs; [simpl in Hlt; lia | reflexivity]. }
      rewrite Hne.
      assert (Hcons : forall n x (l : list Console.line),
                 nth_error (x :: l) (S n) = nth_error l n) by reflexivity.
      rewrite (Hcons 50).
      rewrite nth_error_app2 by (rewrite Hlen; lia).
      replace (50 <? List.length errs) with true
        by (symmetry; now apply Nat.ltb_lt).
      rewrite Hlen. replace (50 - Nat.min 50 (List.length errs)) with 0 by lia.
      reflexivity. }
    destruct (nonempty errs); [|reflexivity].
    cbn [List.length]. rewrite length_app, Hlen.
    destruct (50 <? List.length errs); simpl; lia. }
  destruct Horder as (O1 & O2 & O3 & O4 & O5).
  split; [exact O1|]. split; [exact O2|]. split; [exact O3|].
  split; [exact O4|]. split; [exact O5|].
  assert (Hissue : forall k e,
             In (Console.IssueLine k e)
                (map (fun ie => Console.IssueLine (fst ie) (snd ie))
                     (enumerate (firstn 50 (errors (results self)))))
             <-> 1 <= k <= 50 /\ nth_error (errors (results self)) (k - 1) = Some e).
  { intros k e. rewrite in_map_iff. split.
    - intros ([k' e'] & H & Hin). simpl in H. injection H as -> ->.
      apply In_enumerate in Hin as [Hk Hn]. rewrite nth_error_firstn in Hn.
      destruct (k - 1 <? 50) eqn:E; [|discriminate].
      apply Nat.ltb_lt in E. split; [lia | assumption].
    - intros [Hk Hn]. exists (k, e). split; [reflexivity|].
      apply In_enumerate. split; [lia|]. rewrite nth_error_firstn.
      replace (k - 1 <? 50) with true; [assumption|].
      symmetry. apply Nat.ltb_lt. lia. }
  unfold print_summary.
  set (head := [Console.Rule; Console.Title; Console.Rule; Console.StatisticsHeader;
                Console.GoStructFields _; Console.EventTypesGo _;
                Console.BrunoFiles _; Console.EventTypesBruno _;
                Console.ResultsHeader; Console.Passed _; Console.Failed _;
                Console.Warnings _]).
  set (more := if 50 <? List.length (errors (results self))
               then [Console.MoreIssues (List.length (errors (results self)) - 50)]
               else []).
  set (listed := map (fun ie => Console.IssueLine (fst ie) (snd ie))
                     (enumerate (firstn 50 (errors (results self))))) in *.
  set (verdict := if is_success (results self)
                  then [Console.AuditPassed; Console.AllChecksPassed]
                  else [Console.AuditFailed; Console.FoundErrors (failed (results self))]).
  assert (Hlisted : forall x, In x listed -> exists k e, x = Console.IssueLine k e).
  { intros x Hx. apply in_map_iff in Hx as ([k e] & <- & _). now exists k, e. }
  assert (Hpassed : In Console.AuditPassed
                       (head
                        ++ (if nonempty (errors (results self))
                            then Console.IssuesFound :: listed ++ more else [])
                        ++ [Console.Rule] ++ verdict ++ [Console.Rule])
                    <-> failed (results self) = 0).
  { rewrite !in_app_iff. unfold verdict, is_success. split.
    - intros [H|[H|[H|[H|H]]]].
      + other_lines H.
      + destruct (nonempty (errors (results self))); [|contradiction].
        destruct H as [H|H]; [discriminate|].
        apply in_app_or in H as [H|H].
        * apply Hlisted in H as (k & e & H). discriminate.
        * unfold more in H. destruct (50 <? _); other_lines H.
      + other_lines H.
      + destruct (Nat.eqb_spec (failed (results self)) 0); [assumption|].
        other_lines H.
      + other_lines H.
    - intros Hz. right. right. right. left. rewrite Hz. simpl. now left. }
  split; [|split; [|split; [|split; [|split]]]].
  - intros k e. rewrite <- Hissue. rewrite !in_app_iff. split.
    + intros [H|[H|[H|[H|H]]]].
      * other_lines H.
      * destruct (nonempty (errors (results self))); [|contradiction].
        destruct H as [H|H]; [discriminate|].
        apply in_app_or in H as [H|H]; [assumption|].
        unfold more in H. destruct (50 <? _); other_lines H.
      * other_lines H.
      * unfold verdict in H. destruct (is_success _); other_lines H.
      * other_lines H.
    + intros H. right. left.
      assert (Hne : nonempty (errors (results self)) = true).
      { apply Hissue in H as [_ H]. destruct (errors (results self)); [|reflexivity].
        now destruct (k - 1). }
      rewrite Hne. right. apply in_or_app. now left.
  - intros m. rewrite !in_app_iff. split.
    + intros [H|[H|[H|[H|H]]]].
      * other_lines H.
      * destruct (nonempty (errors (results self))); [|contradiction].
        destruct H as [H|H]; [discriminate|].
        apply in_app_or in H as [H|H].
        -- apply Hlisted in H as (k & e & H). discriminate.
        -- unfold more in H.
           destruct (Nat.ltb_spec 50 (List.length (errors (results self))));
             [|contradiction].
           destruct H as [H|[]]. injection H as <-. now split.
      * other_lines H.
      * unfold verdict in H. destruct (is_success _); other_lines H.
      * other_lines H.
    + intros [Hlt ->]. right. left.
      assert (Hne : nonempty (errors (results self)) = true).
      { destruct (errors (results self)); [simpl in Hlt; lia | reflexivity]. }
      rewrite Hne. right. apply in_or_app. right. unfold more.
      replace (50 <? List.length (errors (results self))) with true;
        [now left | symmetry; now apply Nat.ltb_lt].
  - rewrite <- nonempty_true, !in_app_iff. split.
    + intros [H|[H|[H|[H|H]]]].
      * other_lines H.
      * destruct (nonempty (errors (results self))); [reflexivity | contradiction].
      * other_lines H.
      * unfold verdict in H. destruct (is_success _); other_lines H.
      * other_lines H.
    + intros ->. right. left. now left.
  - exact Hpassed.
  - intros n. rewrite !in_app_iff. unfold verdict, is_success. split.
    + intros [H|[H|[H|[H|H]]]].
      * other_lines H.
      * destruct (nonempty (errors (results self))); [|contradiction].
        destruct H as [H|H]; [discriminate|].
        apply in_app_or in H as [H|H].
        -- apply Hlisted in H as (k & e & H). discriminate.
        -- unfold more in H. destruct (50 <? _); other_lines H.
      * other_lines H.
      * destruct (Nat.eqb_spec (failed (results self)) 0); [other_lines H|].
        destruct H as [H|[H|[]]]; [discriminate|]. injection H as <-. now split.
      * other_lines H.
    + intros [Hnz ->]. right. right. right. left.
      destruct (Nat.eqb_spec (failed (results self)) 0); [contradiction|].
      right. now left.
  - intros base r Hrun. rewrite Hpassed. unfold main. rewrite Hrun.
    destruct (run_audit_outcome json_loads base) as [_ Hr].
    rewrite Hrun in Hr. subst r. unfold is_success.
    destruct (Nat.eqb_spec (failed (results self)) 0); split; intros H;
      first [reflexivity | assumption | discriminate | contradiction].
Qed.
End Summary.

(** The summary of the example without samples: three issues listed,
    none left out, and the failing verdict. *)
Lemma example_summary :
  print_summary (final (run_audit example_json_loads (init ex_no_samples)))
  = [Console.Rule; Console.Title; Console.Rule;
     Console.StatisticsHeader;
     Console.GoStructFields 3; Console.EventTypesGo 1;
     Console.BrunoFiles 0; Console.EventTypesBruno 0;
     Console.ResultsHeader;
     Console.Passed 2; Console.Failed 3; Console.Warnings 0;
     Console.IssuesFound;
     Console.IssueLine 1 (Error (CannotFindBrunoDir ["bruno"; "Ingestion"; "Events"]));
     Console.IssueLine 2 (Error (EventCountMismatch 1 0 0 105));
     Console.IssueLine 3 (Error (MissingInBruno "jump"));
     Console.Rule;
     Console.AuditFailed; Console.FoundErrors 3;
     Console.Rule].
Proof. vm_compute. reflexivity. Qed.

(* ------------------------------------------------------------------ *)
(** ** The exit status on a tree whose sources may fail to be read *)

Section DiskExit.
Variable json_loads : string -> json + string.


End DiskExit.



(* ------------------------------------------------------------------ *)
(** ** Types that cannot be ordered or hashed *)

(** On a state with the types [5] and [zzz], neither canonical,
    [validate_event_counts] raises when it sorts them: the type [zzz] of
    a loaded sample, absent from the canonical set, gets no unknown-type
    Error. *)
Lemma C4_counterexample :
  NoDup (event_types_go ex_mixed_auditor)
  /\ event_types_bruno ex_mixed_auditor = observed (bruno_events ex_mixed_auditor)
  /\ In ex_zzz (bruno_events ex_mixed_auditor)
  /\ event_type ex_zzz = JStr "zzz"
  /\ ~ In "zzz" (event_types_go ex_mixed_auditor)
  /\ completes (validate_event_counts ex_mixed_auditor) = false
  /\ recorded validate_event_counts ex_mixed_auditor
     = [Error (EventCountMismatch 1 2 2 105); Error (MissingInBruno "jump")]
  /\ count (is_unknown_type "zzz") (recorded validate_event_counts ex_mixed_auditor)
     <> 1.
Proof.
  split; [apply distinct_NoDup; reflexivity|].
  split; [reflexivity|]. split; [simpl; tauto|]. split; [reflexivity|].
  split; [intros [H|[]]; discriminate|].
  split; [reflexivity|]. split; [reflexivity|].
  vm_compute. discriminate.
Qed.

(** On a corpus in which [A.bru], whose type is an array, precedes
    [B.bru], which has the bare [guid] key, [validate_guid_fields] raises
    at the first sample: the second gets no Error. *)
Lemma C10_counterexample :
  NoDup (file_names (bruno_events ex_list_then_guid_auditor))
  /\ In ex_b_guid (bruno_events ex_list_then_guid_auditor)
  /\ has_key "guid" ex_b_guid = true
  /\ completes (validate_guid_fields ex_list_then_guid_auditor) = false
  /\ recorded validate_guid_fields ex_list_then_guid_auditor = []
  /\ count (is_bare_guid (file_of ex_b_guid))
           (recorded validate_guid_fields ex_list_then_guid_auditor) <> 1.
Proof.
  split; [apply distinct_NoDup; reflexivity|].
  split; [simpl; tauto|]. split; [reflexivity|].
  split; [reflexivity|]. split; [reflexivity|].
  vm_compute. discriminate.
Qed.
